(** * MemoraAI: retrieval pipeline (store client, fused search, context assembly)

    Shallow embedding of [app/elastic_memory.py] and [app/main.py].

    The Python code talks to three collaborators: the Elasticsearch client
    [es], the embedding model and the text generator.  Every call to one of
    them is an explicit node of a program tree ([prog]); a program is run
    against a handler that plays the collaborator and threads its state.
    Python exceptions are values of [exn]; a call either returns or raises,
    so a handler answers with a [result]. *)

From Stdlib Require Import ZArith QArith List String Ascii Bool Lia Arith.
From Stdlib Require Import DecimalString.
Import ListNotations.

Set Warnings "-register-all".

Local Open Scope Z_scope.
Local Open Scope list_scope.

(* ===================================================================== *)
(** ** Python values                                                      *)
(* ===================================================================== *)

(** JSON-like Python values: request bodies, documents and responses are
    dicts of these.  A dict keeps its keys in insertion order.  Python
    integers are unbounded ([Z]); a float is represented by a rational, which
    is exact for the literals of the code ([2.0], [1.0]) and leaves the
    arithmetic of scores and similarities to the store and to the
    similarity function. *)
Inductive json : Type :=
| JNull
| JBool (b : bool)
| JInt (z : Z)
| JFloat (q : Q)
| JStr (s : string)
| JList (l : list json)
| JDict (kv : list (string * json)).

Definition vector : Type := list Q.

Definition json_of_vector (v : vector) : json := JList (map JFloat v).

(** Exceptions, all of them subclasses of Python's [Exception]. *)
Inductive exn : Type :=
| KeyError (key : string)
| TypeError (msg : string)
| AttributeError (msg : string)
| ApiError (status : Z) (msg : string)
| IndexError (msg : string)
| ValueError (msg : string)
| ConnectionError (msg : string)
| OverflowError (msg : string)
| HTTPException (status_code : Z) (detail : string).

(** The message of an exception, as [f"{e}"] prints it for the exceptions
    built from a message.  For a [KeyError] Python prints the key between
    quotes; the quotes are left out here. *)
Definition exn_str (e : exn) : string :=
  match e with
  | KeyError k => k
  | TypeError m => m
  | AttributeError m => m
  | ApiError _ m => m
  | IndexError m => m
  | ValueError m => m
  | ConnectionError m => m
  | OverflowError m => m
  | HTTPException _ d => d
  end.

(** [inl e]: the computation raised [e]; [inr a]: it returned [a]. *)
Definition result (A : Type) : Type := (exn + A)%type.

Definition raised {A} (e : exn) : result A := inl e.
Definition returned {A} (a : A) : result A := inr a.

Definition rbind {A B} (r : result A) (f : A -> result B) : result B :=
  match r with
  | inl e => inl e
  | inr a => f a
  end.

Fixpoint rmap {A B} (f : A -> result B) (l : list A) : result (list B) :=
  match l with
  | [] => returned []
  | a :: l' =>
      rbind (f a) (fun b => rbind (rmap f l') (fun bs => returned (b :: bs)))
  end.

Fixpoint lookup (key : string) (kv : list (string * json)) : option json :=
  match kv with
  | [] => None
  | (k, v) :: kv' => if String.eqb k key then Some v else lookup key kv'
  end.

Fixpoint remove_key (key : string) (kv : list (string * json))
  : list (string * json) :=
  match kv with
  | [] => []
  | (k, v) :: kv' =>
      if String.eqb k key then remove_key key kv' else (k, v) :: remove_key key kv'
  end.

(** [o[key]] *)
Definition py_getitem (o : json) (key : string) : result json :=
  match o with
  | JDict kv =>
      match lookup key kv with
      | Some v => returned v
      | None => raised (KeyError key)
      end
  | JList _ | JStr _ => raised (TypeError "indices must be integers")
  | _ => raised (TypeError "object is not subscriptable")
  end.

(** [o.get(key, default)] *)
Definition py_get (o : json) (key : string) (default : json) : result json :=
  match o with
  | JDict kv =>
      match lookup key kv with
      | Some v => returned v
      | None => returned default
      end
  | _ => raised (AttributeError "object has no attribute 'get'")
  end.

Fixpoint chars (s : string) : list json :=
  match s with
  | EmptyString => []
  | String c s' => JStr (String c EmptyString) :: chars s'
  end.

(** [for h in o]: the items a [for] loop or a comprehension visits. *)
Definition py_iter (o : json) : result (list json) :=
  match o with
  | JList l => returned l
  | JDict kv => returned (map (fun p => JStr (fst p)) kv)
  | JStr s => returned (chars s)
  | _ => raised (TypeError "object is not iterable")
  end.

(** [sep.join(parts)] on strings. *)
Fixpoint join (sep : string) (parts : list string) : string :=
  match parts with
  | [] => EmptyString
  | [p] => p
  | p :: rest => (p ++ sep ++ join sep rest)%string
  end.

Definition nl : string := String (ascii_of_nat 10) EmptyString.

(** [s.strip()]: the ASCII white space Python strips. *)
Definition is_space (c : ascii) : bool :=
  let n := nat_of_ascii c in
  ((9 <=? n) && (n <=? 13) || (28 <=? n) && (n <=? 32))%nat.

Fixpoint lstrip (l : list ascii) : list ascii :=
  match l with
  | [] => []
  | c :: l' => if is_space c then lstrip l' else l
  end.

Definition strip (s : string) : string :=
  string_of_list_ascii
    (rev (lstrip (rev (lstrip (list_ascii_of_string s))))).

(* ===================================================================== *)
(** ** Programs over the collaborators                                    *)
(* ===================================================================== *)

(** The calls the two modules make: four on the Elasticsearch client and
    the two entry points of [vertex_ai] used by [main]. *)
Inductive call : Type :=
| IndicesExists (index : string)
| IndicesCreate (index : string) (body : json)
| Index (index : string) (document : json) (refresh : string)
| Search (index : string) (body : json)
| GetEmbedding (text : string)
| GenerateText (prompt : string).

Definition reply (c : call) : Type :=
  match c with
  | IndicesExists _ => bool
  | IndicesCreate _ _ => json
  | Index _ _ _ => json
  | Search _ _ => json
  | GetEmbedding _ => vector
  | GenerateText _ => string
  end.

(** A program returns, raises, or performs a call and goes on with its
    outcome; the continuation sees a raised exception too, which is how
    [try ... except Exception] around a call is written. *)
Inductive prog (R : Type) : Type :=
| Ret (r : R)
| Raise (e : exn)
| Do (c : call) (k : result (reply c) -> prog R).

Arguments Ret {R} r.
Arguments Raise {R} e.
Arguments Do {R} c k.

Fixpoint bind {A B} (p : prog A) (f : A -> prog B) : prog B :=
  match p with
  | Ret a => f a
  | Raise e => Raise e
  | Do c k => Do c (fun r => bind (k r) f)
  end.

Definition lift {A} (r : result A) : prog A :=
  match r with
  | inl e => Raise e
  | inr a => Ret a
  end.

(** A call outside any [try]: its exception propagates. *)
Definition perform (c : call) : prog (reply c) := Do c lift.

Declare Scope prog_scope.
Delimit Scope prog_scope with prog.
Notation "x <- p ;; q" := (bind p (fun x => q))
  (at level 61, p at next level, right associativity) : prog_scope.
Notation "' pat <- p ;; q" :=
  (bind p (fun x => match x with pat => q end))
  (at level 61, pat pattern, p at next level, right associativity) : prog_scope.
Notation "p ;; q" := (bind p (fun _ => q))
  (at level 61, right associativity) : prog_scope.
Local Open Scope prog_scope.

Section Run.
Context {St : Type}.

(** A handler plays the collaborators on a state of its own. *)
Definition handler : Type := forall c : call, St -> St * result (reply c).

Variable h : handler.

(** [run p s]: final state, the calls made in order, and the outcome. *)
Fixpoint run {R} (p : prog R) (s : St) : St * list call * result R :=
  match p with
  | Ret r => (s, [], inr r)
  | Raise e => (s, [], inl e)
  | Do c k =>
      let '(s1, r) := h c s in
      let '(s2, tr, out) := run (k r) s1 in
      (s2, c :: tr, out)
  end.

Definition outcome {R} (p : prog R) (s : St) : result R := snd (run p s).
Definition trace {R} (p : prog R) (s : St) : list call := snd (fst (run p s)).
Definition final {R} (p : prog R) (s : St) : St := fst (fst (run p s)).
End Run.

Arguments handler St : clear implicits.

(* ===================================================================== *)
(** ** Settings and request models                                        *)
(* ===================================================================== *)

(** app/settings.py and app/models.py are not among the sources.  These
    are the fields of [get_settings()] the two modules read, and the request
    and response models with the fields [main] reads and writes (the fields
    of [IngestRequest] carry a prefix, two models share their names). *)
Record Settings : Type := {
  app_name : string;
  elastic_index : string;
  embed_dims : Z;
  token_budget : Z;
  system_preamble : string
}.

Record IngestRequest : Type := {
  ingest_project_id : string;
  ingest_text : string;
  ingest_tags : option (list string)
}.

Record AskRequest : Type := {
  project_id : string;
  query : string;
  k : Z
}.

Record AskResponse : Type := {
  response : string;
  used_snippets : Z;
  tokens_estimate : Z
}.

(** A search result, the dict [{"text": ..., "score": ...}]. *)
Record hit : Type := { text : json; score : json }.

(* ===================================================================== *)
(** ** app/elastic_memory.py                                              *)
(* ===================================================================== *)

Module ElasticMemory.
Section WithSettings.
Variable S : Settings.

Definition mapping : json :=
  JDict [("mappings", JDict [("properties", JDict [
    ("project_id", JDict [("type", JStr "keyword")]);
    ("text", JDict [("type", JStr "text")]);
    ("chunk_id", JDict [("type", JStr "keyword")]);
    ("tags", JDict [("type", JStr "keyword")]);
    ("embedding", JDict [
       ("type", JStr "dense_vector");
       ("dims", JInt (embed_dims S));
       ("index", JBool true);
       ("similarity", JStr "cosine")]);
    ("created_at", JDict [("type", JStr "date")])])])]%string.

(** [ensure_index], lines 15-34: check, then create. *)
Definition ensure_index : prog unit :=
  found <- perform (IndicesExists (elastic_index S)) ;;
  if negb found
  then perform (IndicesCreate (elastic_index S) mapping) ;; Ret tt
  else Ret tt.

(** [tags or []] *)
Definition tags_or_empty (tags : option (list string)) : list string :=
  match tags with
  | Some l => l
  | None => []
  end.

Definition chunk_document (project_id text : string) (embedding : vector)
    (tags : option (list string)) : json :=
  JDict [("project_id", JStr project_id);
         ("text", JStr text);
         ("tags", JList (map JStr (tags_or_empty tags)));
         ("embedding", json_of_vector embedding)]%string.

(** [upsert_chunk], lines 36-45. *)
Definition upsert_chunk (project_id text : string) (embedding : vector)
    (tags : option (list string)) : prog json :=
  ensure_index ;;
  res <- perform (Index (elastic_index S)
                    (chunk_document project_id text embedding tags)
                    "wait_for") ;;
  lift (py_getitem res "_id").

Definition project_filter (project_id : string) : json :=
  JList [JDict [("term", JDict [("project_id", JStr project_id)])]]%string.

(** [{"text": h["_source"]["text"], "score": h["_score"]}] *)
Definition hit_of (h : json) : result hit :=
  rbind (py_getitem h "_source") (fun src =>
  rbind (py_getitem src "text") (fun t =>
  rbind (py_getitem h "_score") (fun sc =>
  returned {| text := t; score := sc |}))).

Definition knn_body (project_id : string) (query_vec : vector) (k : Z) : json :=
  JDict [("size", JInt k);
         ("query", JDict [("bool", JDict [
            ("filter", project_filter project_id);
            ("must", JList [JDict [("knn", JDict [
               ("field", JStr "embedding");
               ("query_vector", json_of_vector query_vec);
               ("k", JInt k);
               ("num_candidates", JInt (Z.max 20 (k * 5)))])]])])])]%string.

(** [knn_search], lines 47-68: the items of [res["hits"]["hits"]]. *)
Definition knn_hits (project_id : string) (query_vec : vector) (k : Z)
  : prog (list json) :=
  ensure_index ;;
  res <- perform (Search (elastic_index S) (knn_body project_id query_vec k)) ;;
  lift (rbind (py_getitem res "hits") (fun outer =>
        rbind (py_getitem outer "hits") py_iter)).

(** [knn_search], with the comprehension of line 69. *)
Definition knn_search (project_id : string) (query_vec : vector) (k : Z)
  : prog (list hit) :=
  hits <- knn_hits project_id query_vec k ;;
  lift (rmap hit_of hits).

(** The request of lines 80-118. *)
Definition hybrid_body (project_id query_text : string) (query_vec : vector)
    (k : Z) : json :=
  JDict [("size", JInt (Z.max (k * 3) 15));
         ("_source", JList [JStr "text"; JStr "tags"; JStr "project_id"]);
         ("query", JDict [("bool", JDict [
            ("filter", project_filter project_id);
            ("should", JList [
               JDict [("match", JDict [("text", JDict [
                  ("query", JStr query_text);
                  ("boost", JFloat (2 # 1));
                  ("fuzziness", JStr "AUTO")])])];
               JDict [("knn", JDict [
                  ("field", JStr "embedding");
                  ("query_vector", json_of_vector query_vec);
                  ("k", JInt (Z.max (k * 3) 15));
                  ("num_candidates", JInt (Z.max 60 (k * 10)));
                  ("boost", JFloat (1 # 1))])]]);
            ("minimum_should_match", JInt 1)])]);
         ("rank", JDict [("rrf", JDict [
            ("rank_window_size", JInt (Z.max (k * 3) 15));
            ("rank_constant", JInt 20)])])]%string.

(** The request of lines 126-145. *)
Definition fallback_body (project_id query_text : string) (query_vec : vector)
    (k : Z) : json :=
  JDict [("size", JInt (Z.max (k * 3) 15));
         ("query", JDict [("bool", JDict [
            ("filter", project_filter project_id);
            ("should", JList [
               JDict [("match", JDict [("text", JDict [
                  ("query", JStr query_text);
                  ("boost", JFloat (2 # 1))])])];
               JDict [("knn", JDict [
                  ("field", JStr "embedding");
                  ("query_vector", json_of_vector query_vec);
                  ("k", JInt (Z.max (k * 3) 15));
                  ("num_candidates", JInt (Z.max 60 (k * 10)))])]]);
            ("minimum_should_match", JInt 1)])])]%string.

(** Line 149, and the items the comprehension of line 150 visits. *)
Definition hits_of_response (res : json) : result (list json) :=
  rbind (py_get res "hits" (JDict [])) (fun outer =>
  rbind (py_get outer "hits" (JList [])) py_iter).

(** Lines 149-150. *)
Definition extract_results (res : json) : result (list hit) :=
  rbind (hits_of_response res) (rmap hit_of).

(** [hybrid_search], lines 71-149.  The [try] covers the first search
    only; [except Exception] discards what it caught (after printing it)
    and issues the second request, outside any handler. *)
Definition hybrid_hits (project_id query_text : string) (query_vec : vector)
    (k : Z) : prog (list json) :=
  ensure_index ;;
  res <- Do (Search (elastic_index S)
               (hybrid_body project_id query_text query_vec k))
            (fun r =>
               match r with
               | inr res => Ret res
               | inl _ =>
                   perform (Search (elastic_index S)
                              (fallback_body project_id query_text query_vec k))
               end) ;;
  lift (hits_of_response res).

(** The integers [float(x)] converts: those that round, to nearest and
    ties to even, to a finite double.  The largest double is
    [2^1024 - 2^971], and the first integer that rounds past it is
    [2^1024 - 2^970]. *)
Definition fits_float (z : Z) : bool := Z.abs z <? 2 ^ 1024 - 2 ^ 970.

(** [f"{x:.3f}"]: a float and a bool format; an int is converted to a float
    first, which raises [OverflowError] when it is beyond the doubles; a
    string is refused with [ValueError], anything else with [TypeError]. *)
Definition format_float (x : json) : result unit :=
  match x with
  | JFloat _ | JBool _ => returned tt
  | JInt z =>
      if fits_float z then returned tt
      else raised (OverflowError "int too large to convert to float")
  | JStr _ => raised (ValueError "Unknown format code 'f' for object of type 'str'")
  | _ => raised (TypeError "unsupported format string")
  end.

(** [x[:100]]: strings and lists can be sliced. *)
Definition slice (x : json) : result unit :=
  match x with
  | JStr _ | JList _ => returned tt
  | _ => raised (TypeError "object cannot be sliced")
  end.

(** The debug output of lines 153-155.  The text goes to standard output
    and is not kept; what is kept is that formatting one of the first five
    results can raise. *)
Definition report (results : list hit) : result unit :=
  rbind (rmap (fun r => rbind (format_float (score r)) (fun _ => slice (text r)))
              (firstn 5 results))
        (fun _ => returned tt).

(** Lines 149-157, from the response to the returned list. *)
Definition results_of_response (res : json) : result (list hit) :=
  rbind (extract_results res) (fun results =>
  rbind (report results) (fun _ => returned results)).

(** [hybrid_search], with lines 150-157. *)
Definition hybrid_search (project_id query_text : string) (query_vec : vector)
    (k : Z) : prog (list hit) :=
  hits <- hybrid_hits project_id query_text query_vec k ;;
  results <- lift (rmap hit_of hits) ;;
  lift (report results) ;;
  Ret results.

End WithSettings.
End ElasticMemory.

(* ===================================================================== *)
(** ** app/retriever.py                                                   *)
(* ===================================================================== *)

Module Retriever.
Section MMR.
(** app/retriever.py is not among the sources; [ask] calls its [mmr] as
    [mmr(q_vec, docs, doc_vecs, k=...)] and reads the result as a list of
    indices into [docs].  The definitions of this section follow section
    4.3 of the specification.  The trade-off weight and the similarity of
    two embeddings (cosine similarity, a floating-point quantity) are
    parameters: the selection is defined for any choice of them. *)
Variable lambda : Q.
Variable sim : vector -> vector -> Q.

Variable q_vec : vector.
Variable doc_vecs : list vector.

(** The embedding of candidate [i]. *)
Definition vec_at (i : nat) : vector := nth i doc_vecs [].

(** Modelled from the spec: [sim(query, i)] of [mmr] (app/retriever.py is
    absent), the relevance of candidate [i]. *)
Definition relevance (i : nat) : Q := sim q_vec (vec_at i).

Definition Qltb (a b : Q) : bool :=
  match (a ?= b)%Q with
  | Lt => true
  | _ => false
  end.

Definition qmax (a b : Q) : Q := if Qltb a b then b else a.

(** Modelled from the spec: the redundancy term of [mmr]
    (app/retriever.py is absent), [max_{j in S} sim(i, j)], and 0 while
    nothing is selected. *)
Definition redundancy (selected : list nat) (i : nat) : Q :=
  match selected with
  | [] => 0%Q
  | j :: rest =>
      fold_left (fun m j' => qmax m (sim (vec_at i) (vec_at j')))
                rest (sim (vec_at i) (vec_at j))
  end.

(** Modelled from the spec: the score [mmr] (app/retriever.py is absent)
    maximises, [lambda * sim(query, i) - (1 - lambda) * max_{j in S} sim(i, j)]. *)
Definition mmr_score (selected : list nat) (i : nat) : Q :=
  (lambda * relevance i - (1 - lambda) * redundancy selected i)%Q.

(** Modelled from the spec: the pick of one step of [mmr]
    (app/retriever.py is absent), with its tie-break.  The best of
    [best :: rest]: a later candidate replaces the current one only with a
    strictly greater score, so among equal scores the earliest wins. *)
Fixpoint best_of (f : nat -> Q) (best : nat) (rest : list nat) : nat :=
  match rest with
  | [] => best
  | i :: rest' =>
      if Qltb (f best) (f i) then best_of f i rest' else best_of f best rest'
  end.

(** The remaining indices once [i] has been moved to the selection. *)
Definition without (i : nat) (l : list nat) : list nat :=
  filter (fun j => negb (Nat.eqb j i)) l.

(** Modelled from the spec: the greedy loop of [mmr] (app/retriever.py is
    absent).  [steps] more picks, each moving the best remaining index to
    the end of the selection; the remaining indices stay in pool order. *)
Fixpoint select (steps : nat) (selected remaining : list nat) : list nat :=
  match steps with
  | O => selected
  | Datatypes.S steps' =>
      match remaining with
      | [] => selected
      | i0 :: rest =>
          let i := best_of (mmr_score selected) i0 rest in
          select steps' (selected ++ [i]) (without i remaining)
      end
  end.

(** Modelled from the spec: [mmr] of app/retriever.py, which is not among
    the sources.  Section 4.3: greedy selection of [min(k, poolSize)]
    pool indices, each step taking the remaining index that maximises
    [lambda * sim(query, i) - (1 - lambda) * max_{j in S} sim(i, j)],
    the lower pool index on equal scores.  It returns the indices in
    selection order, which is how [ask] reads its result. *)
Definition mmr (docs : list string) (k : nat) : list nat :=
  select (Nat.min k (List.length docs)) [] (seq 0 (List.length docs)).

End MMR.
End Retriever.

(* ===================================================================== *)
(** ** app/main.py                                                        *)
(* ===================================================================== *)

Module Main.
Section WithSettings.
Variable S : Settings.

(** Of app/utils.py, which is not among the sources: the token
    heuristic and the chunker, taken as they are called. *)
Variable approx_token_count : string -> nat.
Variable chunk_text : string -> list string.

(** The weight and similarity used inside [mmr]. *)
Variable mmr_lambda : Q.
Variable sim : vector -> vector -> Q.

(** [ingest], lines 24-30. *)
Fixpoint ingest_chunks (pid : string) (tags : list string)
    (chunks : list string) : prog unit :=
  match chunks with
  | [] => Ret tt
  | ch :: chunks' =>
      emb <- perform (GetEmbedding ch) ;;
      ElasticMemory.upsert_chunk S pid ch emb (Some tags) ;;
      ingest_chunks pid tags chunks'
  end.

Definition ingest (req : IngestRequest) : prog json :=
  let chunks := chunk_text (ingest_text req) in
  ingest_chunks (ingest_project_id req)
                (ElasticMemory.tags_or_empty (ingest_tags req)) chunks ;;
  Ret (JDict [("ingested_chunks"%string, JInt (Z.of_nat (List.length chunks)))]).

(** The memories are the strings [upsert_chunk] stored, and the rest of
    [ask] handles them as strings; a hit whose text is anything else ends
    the run with [TypeError] before any of them is embedded. *)
Definition expect_str (d : json) : result string :=
  match d with
  | JStr s => returned s
  | _ => raised (TypeError "expected str")
  end.

(** [[get_embedding(d) for d in docs]], line 50. *)
Fixpoint embed_all (docs : list string) : prog (list vector) :=
  match docs with
  | [] => Ret []
  | d :: docs' =>
      v <- perform (GetEmbedding d) ;;
      vs <- embed_all docs' ;;
      Ret (v :: vs)
  end.

(** [docs[i]] *)
Definition doc_at (docs : list string) (i : nat) : result string :=
  match nth_error docs i with
  | Some d => returned d
  | None => raised (IndexError "list index out of range")
  end.

(** The test of line 59. *)
Definition fits (budget : Z) (context_parts : list string) (d : string) : bool :=
  Z.of_nat (approx_token_count (join nl context_parts))
  + Z.of_nat (approx_token_count d) <? budget.

(** The loop of lines 57-62: items are appended whole while the test
    passes, and the first failure ends the loop. *)
Fixpoint fill (budget : Z) (context_parts selected_docs : list string)
  : list string :=
  match selected_docs with
  | [] => context_parts
  | d :: rest =>
      if fits budget context_parts d
      then fill budget (context_parts ++ [d]) rest
      else context_parts
  end.

(** Lines 56-63. *)
Definition assemble (budget : Z) (selected_docs : list string) : string :=
  join (nl ++ nl) (fill budget [] selected_docs).

(** Lines 38-63 of [ask]: [(context, used, selected_docs)]. *)
Definition ask_context (req : AskRequest) : prog (string * Z * list string) :=
  q_vec <- perform (GetEmbedding (query req)) ;;
  hits <- ElasticMemory.hybrid_search S (project_id req) (query req) q_vec
            (Z.max 15 (k req)) ;;
  docs <- lift (rmap expect_str (map text hits)) ;;
  match docs with
  | [] => Ret (EmptyString, 0, [])
  | _ =>
      doc_vecs <- embed_all docs ;;
      let sel_idx :=
        Retriever.mmr mmr_lambda sim q_vec doc_vecs docs
                      (Nat.min 10 (List.length docs)) in
      selected_docs <- lift (rmap (doc_at docs) sel_idx) ;;
      let used := Z.of_nat (List.length selected_docs) in
      Ret (assemble (token_budget S) selected_docs, used, selected_docs)
  end.

(** The f-string of lines 74-88. *)
Definition prompt_of (context question : string) : string :=
  String.concat EmptyString [
    nl; system_preamble S; nl;
    nl;
    "You are MemoraAI, an assistant that remembers user facts across sessions."; nl;
    "Below are pieces of information you've previously stored in your memory."; nl;
    "Use *all relevant ones* to answer the question."; nl;
    nl;
    "Stored memory snippets:"; nl;
    (if String.eqb context EmptyString
     then "[No prior memory found yet]" else context); nl;
    nl;
    "User question: "; question; nl;
    nl;
    "If multiple memories are relevant, combine them naturally."; nl;
    "If something seems unrelated, ignore it politely."; nl
  ]%string.

(** [ask], lines 35-101. *)
Definition ask (req : AskRequest) : prog AskResponse :=
  '(context, used, _) <- ask_context req ;;
  let prompt := prompt_of context (query req) in
  generated <- Do (GenerateText prompt)
         (fun r =>
            match r with
            | inr t => Ret (strip t)
            | inl e =>
                Raise (HTTPException 500
                         ("Generation failed: " ++ exn_str e)%string)
            end) ;;
  Ret {| response := generated;
         used_snippets := used;
         tokens_estimate := Z.of_nat (approx_token_count prompt) |}.

End WithSettings.
End Main.

(* ===================================================================== *)
(** ** The document store                                                 *)
(* ===================================================================== *)

(** What a search request asks for and what a response carries, read off
    the JSON, and the three guarantees of the store the retrieval code
    relies on.  The store is a collaborator (Elasticsearch): the guarantees
    are stated on its handler, and the in-memory store below is one that
    meets them.  Its index registry follows the store's: creating an index
    that exists fails with [resource_already_exists_exception]. *)
Module Store.

Definition field (key : string) (j : json) : option json :=
  match j with
  | JDict kv => lookup key kv
  | _ => None
  end.

Fixpoint path (keys : list string) (j : json) : option json :=
  match keys with
  | [] => Some j
  | key :: keys' =>
      match field key j with
      | Some j' => path keys' j'
      | None => None
      end
  end.

Definition body_size (body : json) : option Z :=
  match field "size" body with
  | Some (JInt n) => Some n
  | _ => None
  end.

(** [{"term": {f: v}}] *)
Definition term_of (clause : json) : list (string * json) :=
  match field "term" clause with
  | Some (JDict kv) => kv
  | _ => []
  end.

(** The terms under [query.bool.filter]. *)
Definition body_term_filters (body : json) : list (string * json) :=
  match path ["query"; "bool"; "filter"]%string body with
  | Some (JList clauses) => flat_map term_of clauses
  | _ => []
  end.

Definition is_str (f : string) (j : json) : bool :=
  match j with
  | JStr s => String.eqb s f
  | _ => false
  end.

(** Whether hits come back with field [f] in their [_source]. *)
Definition returns_field (body : json) (f : string) : bool :=
  match field "_source" body with
  | None => true
  | Some (JList fs) => existsb (is_str f) fs
  | Some _ => false
  end.

(** A keyword field matches a term when it is that string or a list
    holding it. *)
Definition term_matches (stored v : json) : bool :=
  match v with
  | JStr b =>
      match stored with
      | JStr a => String.eqb a b
      | JList l => existsb (is_str b) l
      | _ => false
      end
  | _ => false
  end.

Definition response_hits (res : json) : list json :=
  match path ["hits"; "hits"]%string res with
  | Some (JList l) => l
  | _ => []
  end.

Definition source_field (h : json) (f : string) : option json :=
  path ["_source"; f]%string h.

Definition raw_score (h : json) : json :=
  match field "_score" h with
  | Some sc => sc
  | None => JNull
  end.

Definition json_num (j : json) : option Q :=
  match j with
  | JInt z => Some (inject_Z z)
  | JFloat q => Some q
  | _ => None
  end.

Definition score_ge (a b : json) : Prop :=
  match json_num a, json_num b with
  | Some x, Some y => (y <= x)%Q
  | _, _ => False
  end.

Fixpoint non_increasing (scores : list json) : Prop :=
  match scores with
  | a :: (b :: _) as rest => score_ge a b /\ non_increasing rest
  | _ => True
  end.

Definition keys (j : json) : list string :=
  match j with
  | JDict kv => map fst kv
  | _ => []
  end.

Definition without (key : string) (j : json) : json :=
  match j with
  | JDict kv => JDict (remove_key key kv)
  | _ => j
  end.

Definition update (key : string) (f : json -> json) (j : json) : json :=
  match j with
  | JDict kv =>
      JDict (map (fun p => if String.eqb (fst p) key
                           then (fst p, f (snd p)) else p) kv)
  | _ => j
  end.

Definition each (f : json -> json) (j : json) : json :=
  match j with
  | JList l => JList (map f l)
  | _ => j
  end.

(** A request without its rank stage, its [_source] selection, the
    fuzziness of its lexical clause and the boost of its knn clause. *)
Definition plain_request (body : json) : json :=
  without "rank" (without "_source"
    (update "query" (update "bool" (update "should" (each (fun c =>
       update "match" (update "text" (without "fuzziness"))
         (update "knn" (without "boost") c))))) body)).

(** The clauses under [query.bool.should]. *)
Definition should_clauses (body : json) : list json :=
  match path ["query"; "bool"; "should"]%string body with
  | Some (JList clauses) => clauses
  | _ => []
  end.

(** The first [should] clause of the given kind ([match], [knn]). *)
Definition clause (kind : string) (body : json) : option json :=
  match filter (fun c => match field kind c with Some _ => true | None => false end)
               (should_clauses body) with
  | c :: _ => field kind c
  | [] => None
  end.

(** The hit was written with [project_id = p]. *)
Definition written_under (h : json) (p : string) : Prop :=
  source_field h "project_id" = Some (JStr p).

(** The hit's [project_id] matches the term [p]. *)
Definition belongs_to (h : json) (p : string) : Prop :=
  exists stored,
    source_field h "project_id" = Some stored /\
    term_matches stored (JStr p) = true.

Section Contracts.
Context {St : Type}.
Variable h : handler St.

(** Every hit of a successful search matches every term filter of the
    request, on the fields the response carries. *)
Definition honours_filters : Prop :=
  forall (s : St) (index : string) (body res : json) (f : string) (v hit : json),
    snd (h (Search index body) s) = inr res ->
    In (f, v) (body_term_filters body) ->
    returns_field body f = true ->
    In hit (response_hits res) ->
    exists stored,
      source_field hit f = Some stored /\ term_matches stored v = true.

(** A response never has more hits than the request's [size]. *)
Definition honours_size : Prop :=
  forall (s : St) (index : string) (body res : json) (n : Z),
    snd (h (Search index body) s) = inr res ->
    body_size body = Some n ->
    Z.of_nat (List.length (response_hits res)) <= Z.max 0 n.

(** Without a [sort] clause hits come best first. *)
Definition orders_by_score : Prop :=
  forall (s : St) (index : string) (body res : json),
    snd (h (Search index body) s) = inr res ->
    field "sort" body = None ->
    non_increasing (map raw_score (response_hits res)).
End Contracts.

(** *** An in-memory store *)

Record index_state : Type := {
  index_name : string;
  documents : list (string * json)   (* id, source; oldest first *)
}.

Record state : Type := {
  indices : list index_state;
  supports_rrf : bool;
  next_id : nat
}.

Definition empty (rrf : bool) : state :=
  {| indices := []; supports_rrf := rrf; next_id := 0 |}.

Definition named (name : string) (ix : index_state) : bool :=
  String.eqb (index_name ix) name.

Definition has_index (name : string) (s : state) : bool :=
  existsb (named name) (indices s).

(** How many collections carry the name. *)
Definition collections (name : string) (s : state) : nat :=
  List.length (filter (named name) (indices s)).

Definition docs_of (name : string) (s : state) : list (string * json) :=
  flat_map documents (filter (named name) (indices s)).

Definition already_exists : exn :=
  ApiError 400 "resource_already_exists_exception".

Definition create_index (name : string) (s : state) : state :=
  {| indices := indices s ++ [{| index_name := name; documents := [] |}];
     supports_rrf := supports_rrf s;
     next_id := next_id s |}.

Definition add_to (name id : string) (doc : json) (ix : index_state)
  : index_state :=
  if named name ix
  then {| index_name := index_name ix;
          documents := documents ix ++ [(id, doc)] |}
  else ix.

Definition id_of (n : nat) : string :=
  ("doc" ++ NilEmpty.string_of_uint (Nat.to_uint n))%string.

(** Writing to a missing index creates it first, as the store does. *)
Definition index_doc (name : string) (doc : json) (s : state) : state :=
  let s' := if has_index name s then s else create_index name s in
  {| indices := map (add_to name (id_of (next_id s)) doc) (indices s');
     supports_rrf := supports_rrf s;
     next_id := Datatypes.S (next_id s) |}.

Definition doc_matches (filters : list (string * json)) (doc : json) : bool :=
  forallb (fun fv =>
             match field (fst fv) doc with
             | Some stored => term_matches stored (snd fv)
             | None => false
             end) filters.

Definition keep_fields (body : json) (doc : json) : json :=
  match doc with
  | JDict kv => JDict (filter (fun p => returns_field body (fst p)) kv)
  | _ => doc
  end.

Definition hit_json (body : json) (d : string * json) : json :=
  JDict [("_id", JStr (fst d));
         ("_score", JFloat (1 # 1));
         ("_source", keep_fields body (snd d))]%string.

(** A request with a [rank] stage is rejected unless the store supports
    rank fusion. *)
Definition rejects (body : json) (s : state) : bool :=
  match field "rank" body with
  | Some _ => negb (supports_rrf s)
  | None => false
  end.

(** Matching documents in insertion order, all with the same score, cut
    at [size] (10 when the request gives none).  Of a request this store
    reads the term filters, [size], [_source] and [rank] only: the
    [should], [must] and [knn] clauses and [minimum_should_match] are not
    evaluated, so every document under the filter is a hit.  It is one
    store among those that meet the contracts above; nothing about
    relevance or recall is drawn from it. *)
Definition search (name : string) (body : json) (s : state) : result json :=
  if rejects body s then inl (ApiError 400 "unknown key [rank]")
  else if has_index name s then
    let matching :=
      filter (fun d => doc_matches (body_term_filters body) (snd d))
             (docs_of name s) in
    let size := match body_size body with Some n => n | None => 10 end in
    inr (JDict [("hits", JDict [("hits",
           JList (map (hit_json body)
                      (firstn (Z.to_nat size) matching)))])]%string)
  else inl (ApiError 404 "index_not_found_exception").

(** The embedding and the generator of the model: one number per text,
    and a fixed answer. *)
Definition embed (t : string) : vector := [inject_Z (Z.of_nat (String.length t))].

Definition serve : handler state :=
  fun c =>
    match c as c0 return state -> state * result (reply c0) with
    | IndicesExists name => fun s => (s, inr (has_index name s))
    | IndicesCreate name _ => fun s =>
        if has_index name s then (s, inl already_exists)
        else (create_index name s, inr (JDict [("acknowledged", JBool true)]%string))
    | Index name doc _ => fun s =>
        (index_doc name doc s,
         inr (JDict [("_id", JStr (id_of (next_id s)));
                     ("result", JStr "created")]%string))
    | Search name body => fun s => (s, search name body s)
    | GetEmbedding t => fun s => (s, inr (embed t))
    | GenerateText _ => fun s => (s, inr " From memory. "%string)
    end.

End Store.

(* ===================================================================== *)
(** ** Two callers on one store                                           *)
(* ===================================================================== *)

Section Interleave.
Context {St : Type}.
Variable h : handler St.

(** One call of a program, if it has one left. *)
Definition step {R} (p : prog R) (s : St) : St * prog R :=
  match p with
  | Do c k => let '(s1, r) := h c s in (s1, k r)
  | _ => (s, p)
  end.

(** The schedule names, call by call, which of the two callers moves
    ([true]: the first).  What is left of each program comes back:
    [Ret] or [Raise] once it has finished. *)
Fixpoint interleave {A B} (schedule : list bool) (pa : prog A) (pb : prog B)
    (s : St) : St * prog A * prog B :=
  match schedule with
  | [] => (s, pa, pb)
  | true :: schedule' =>
      let '(s1, pa') := step pa s in interleave schedule' pa' pb s1
  | false :: schedule' =>
      let '(s1, pb') := step pb s in interleave schedule' pa pb' s1
  end.
End Interleave.

(** Modelled from the spec: [approx_token_count] of app/utils.py, which
    is absent.  Section 4.4 describes it as a length-based heuristic; this
    is the family "[n] characters to a token", used where a statement is
    evaluated on concrete texts. *)
Definition chars_per_token (n : nat) (t : string) : nat :=
  (String.length t / n)%nat.

(** Modelled from the spec: [approx_token_count] of app/utils.py (absent),
    a length-based heuristic that never counts less than one token. *)
Definition at_least_one (tok : string -> nat) (t : string) : nat :=
  Nat.max 1 (tok t).

(* ===================================================================== *)
(** ** Sample data                                                        *)
(* ===================================================================== *)

Module Sample.
Local Open Scope string_scope.

Definition settings : Settings :=
  {| app_name := "MemoraAI";
     elastic_index := "memora";
     embed_dims := 1;
     token_budget := 3;
     system_preamble := "Answer from memory." |}.

Definition dot (a b : vector) : Q :=
  fold_left Qplus (map (fun p => (fst p * snd p)%Q) (combine a b)) 0%Q.

(** Two memories of project [u1] and one of [u2]. *)
Definition seed : prog json :=
  (ElasticMemory.upsert_chunk settings "u1" "aaaaaaa" [1 # 1] None ;;
   ElasticMemory.upsert_chunk settings "u2" "ccccccc" [1 # 1] None ;;
   ElasticMemory.upsert_chunk settings "u1" "bbbbbbb" [1 # 1] (Some ["x"]))%prog.

Definition seeded (rrf : bool) : Store.state :=
  final Store.serve seed (Store.empty rrf).

Definition question : AskRequest :=
  {| project_id := "u1"; query := "where"; k := 5 |}.

(** Twelve memories, and the search response that returns them all. *)
Definition memories : list string :=
  ["m01"; "m02"; "m03"; "m04"; "m05"; "m06";
   "m07"; "m08"; "m09"; "m10"; "m11"; "m12"].

Definition crowded : json :=
  JDict [("hits", JDict [("hits", JList
    (map (fun t => JDict [("_score", JFloat (1 # 1));
                          ("_source", JDict [("text", JStr t)])])
         memories))])].

(** A request for three memories. *)
Definition modest : AskRequest :=
  {| project_id := "u1"; query := "where"; k := 3 |}.

(** The same settings with room for one memory only. *)
Definition tight : Settings :=
  {| app_name := app_name settings;
     elastic_index := elastic_index settings;
     embed_dims := embed_dims settings;
     token_budget := 2;
     system_preamble := system_preamble settings |}.

End Sample.

(* ===================================================================== *)
(** ** Reading traces, requests and responses                             *)
(* ===================================================================== *)

Module Calls.

(** The documents written, the texts embedded, the request bodies searched
    and the prompts generated from, in the order of the calls. *)
Definition indexed (tr : list call) : list json :=
  flat_map (fun c => match c with Index _ d _ => [d] | _ => [] end) tr.

Definition embedded (tr : list call) : list string :=
  flat_map (fun c => match c with GetEmbedding t => [t] | _ => [] end) tr.

Definition searched (tr : list call) : list json :=
  flat_map (fun c => match c with Search _ b => [b] | _ => [] end) tr.

Definition generated (tr : list call) : list string :=
  flat_map (fun c => match c with GenerateText p => [p] | _ => [] end) tr.

(** A store that has the index and answers every search the same way. *)
Definition canned (res : result json) : handler unit :=
  fun c =>
    match c as c0 return unit -> unit * result (reply c0) with
    | IndicesExists _ => fun s => (s, inr true)
    | IndicesCreate _ _ => fun s => (s, inr (JDict []))
    | Index _ _ _ => fun s => (s, inr (JDict []))
    | Search _ _ => fun s => (s, res)
    | GetEmbedding _ => fun s => (s, inr [])
    | GenerateText _ => fun s => (s, inr EmptyString)
    end.

(** A store that cannot be reached, and models that fail. *)
Definition failing (e : exn) : handler unit :=
  fun c =>
    match c as c0 return unit -> unit * result (reply c0) with
    | IndicesExists _ => fun s => (s, inl e)
    | IndicesCreate _ _ => fun s => (s, inl e)
    | Index _ _ _ => fun s => (s, inl e)
    | Search _ _ => fun s => (s, inl e)
    | GetEmbedding _ => fun s => (s, inl e)
    | GenerateText _ => fun s => (s, inl e)
    end.

(** The handler [h] with a generator that fails. *)
Definition mute {St : Type} (h : handler St) (e : exn) : handler St :=
  fun c =>
    match c as c0 return St -> St * result (reply c0) with
    | GenerateText _ => fun s => (s, inl e)
    | c' => h c'
    end.

End Calls.

Module Request.

Definition int_at (keys : list string) (j : json) : option Z :=
  match Store.path keys j with
  | Some (JInt n) => Some n
  | _ => None
  end.

(** The clauses under [query.bool.must]. *)
Definition must_clauses (body : json) : list json :=
  match Store.path ["query"; "bool"; "must"]%string body with
  | Some (JList clauses) => clauses
  | _ => []
  end.

(** The knn clause of a request, among its [should] or [must] clauses. *)
Definition knn_clause (body : json) : option json :=
  match filter (fun c => match Store.field "knn" c with
                         | Some _ => true
                         | None => false
                         end)
               (Store.should_clauses body ++ must_clauses body) with
  | c :: _ => Store.field "knn" c
  | [] => None
  end.

(** [k] and [num_candidates] of the knn clause. *)
Definition knn_params (body : json) : option (Z * Z) :=
  match knn_clause body with
  | Some c =>
      match int_at ["k"%string] c, int_at ["num_candidates"%string] c with
      | Some n, Some m => Some (n, m)
      | _, _ => None
      end
  | None => None
  end.

End Request.

Module Response.

(** A hit with a string as its text and, as its score, a float or an
    integer that a float can hold. *)
Definition well_formed (h : json) : bool :=
  match Store.source_field h "text", Store.field "_score" h with
  | Some (JStr _), Some (JFloat _) => true
  | Some (JStr _), Some (JInt z) => ElasticMemory.fits_float z
  | _, _ => false
  end.

(** The result a hit is turned into. *)
Definition projection (h : json) : hit :=
  {| text := match Store.source_field h "text" with
             | Some t => t
             | None => JNull
             end;
     score := Store.raw_score h |}.

End Response.

Module Stored.

(** A document as [upsert_chunk] writes it. *)
Definition is_chunk (doc : json) : Prop :=
  exists p t v tags, doc = ElasticMemory.chunk_document p t v tags.

(** A document written for project [pid] with the tags [tags]. *)
Definition stamped (pid : string) (tags : list string) (d : json) : Prop :=
  Store.field "project_id" d = Some (JStr pid) /\
  Store.field "tags" d = Some (JList (map JStr tags)).

(** The index holds nothing but such documents. *)
Definition chunks_only (name : string) (s : Store.state) : Prop :=
  forall d, In d (Store.docs_of name s) -> is_chunk (snd d).

(** The stored documents a search scoped to project [p] matches. *)
Definition of_project (name p : string) (s : Store.state)
  : list (string * json) :=
  filter (fun d => Store.doc_matches [("project_id"%string, JStr p)] (snd d))
         (Store.docs_of name s).

End Stored.

(* ===================================================================== *)
(** ** app/vertex_ai.py                                                   *)
(* ===================================================================== *)

Module VertexAI.

(** The two further fields of [get_settings()] this module reads. *)
Record GcpSettings : Type := {
  gcp_project_id : string;
  gcp_location : string
}.

(** The calls into the Vertex AI SDK.  [GenerateContent] stands for
    [model.generate_content(prompt)] together with reading [response.text],
    which is a string or [None]. *)
Inductive vcall : Type :=
| Init (project location : string)
| EmbeddingModel (name : string)
| GetEmbeddings (name : string) (texts : list string)
| GenerativeModel (name : string)
| GenerateContent (name : string) (prompt : string).

Definition vreply (c : vcall) : Type :=
  match c with
  | Init _ _ => unit
  | EmbeddingModel _ => unit
  | GetEmbeddings _ _ => list vector
  | GenerativeModel _ => unit
  | GenerateContent _ _ => option string
  end.

Section WithBackend.
Context {B : Type}.

(** The SDK, on a state of its own. *)
Definition sdk : Type := forall c : vcall, B -> B * result (vreply c).

(** The module's global [_initialized], the SDK's state, and the calls made
    so far. *)
Record world : Type := {
  initialized : bool;
  backend : B;
  log : list vcall
}.

Definition M (A : Type) : Type := world -> world * result A.

Definition vret {A} (a : A) : M A := fun w => (w, inr a).

Definition vraise {A} (e : exn) : M A := fun w => (w, inl e).

Definition vbind {A C} (m : M A) (f : A -> M C) : M C :=
  fun w =>
    let '(w1, r) := m w in
    match r with
    | inl e => (w1, inl e)
    | inr a => f a w1
    end.

Variable api : sdk.
Variable G : GcpSettings.

Definition vdo (c : vcall) : M (vreply c) :=
  fun w =>
    let '(b1, r) := api c (backend w) in
    ({| initialized := initialized w; backend := b1; log := log w ++ [c] |}, r).

Definition set_initialized : M unit :=
  fun w =>
    ({| initialized := true; backend := backend w; log := log w |}, inr tt).

(** [_init], lines 19-34: the [except] clause prints and raises again. *)
Definition _init : M unit :=
  fun w =>
    if initialized w then (w, inr tt)
    else vbind (vdo (Init (gcp_project_id G) (gcp_location G)))
               (fun _ => set_initialized) w.

(** [get_embedding], lines 37-46: [model.get_embeddings([text])[0].values]. *)
Definition get_embedding (text : string) : M vector :=
  vbind _init (fun _ =>
  vbind (vdo (EmbeddingModel "text-embedding-004")) (fun _ =>
  vbind (vdo (GetEmbeddings "text-embedding-004" [text])) (fun embs =>
  match embs with
  | v :: _ => vret v
  | [] => vraise (IndexError "list index out of range")
  end))).

(** [response.text or ""] *)
Definition text_or_empty (t : option string) : string :=
  match t with
  | Some s => s
  | None => EmptyString
  end.

(** [generate_text], lines 49-58. *)
Definition generate_text (prompt : string) : M string :=
  vbind _init (fun _ =>
  vbind (vdo (GenerativeModel "gemini-2.0-flash-001")) (fun _ =>
  vbind (vdo (GenerateContent "gemini-2.0-flash-001" prompt)) (fun t =>
  vret (text_or_empty t)))).

(** [vertex_test], lines 61-71. *)
Definition vertex_test : M unit :=
  vbind _init (fun _ =>
  vbind (vdo (EmbeddingModel "text-embedding-004")) (fun _ =>
  vbind (vdo (GetEmbeddings "text-embedding-004" ["MemoraAI test run"%string]))
        (fun embs =>
  match embs with
  | _ :: _ => vret tt
  | [] => vraise (IndexError "list index out of range")
  end))).

Definition is_init (c : vcall) : bool :=
  match c with
  | Init _ _ => true
  | _ => false
  end.

(** How often [vertexai.init] was called. *)
Definition inits (w : world) : nat := List.length (filter is_init (log w)).

(** [main] and [elastic_memory] on one process: the calls [GetEmbedding]
    and [GenerateText] of [main] are the two functions above, the others go
    to the store. *)
Definition wired {E : Type} (es : handler E) : handler (E * world) :=
  fun c =>
    match c as c0 return E * world -> (E * world) * result (reply c0) with
    | GetEmbedding t => fun s =>
        let '(w1, r) := get_embedding t (snd s) in ((fst s, w1), r)
    | GenerateText p => fun s =>
        let '(w1, r) := generate_text p (snd s) in ((fst s, w1), r)
    | IndicesExists i => fun s =>
        let '(e1, r) := es (IndicesExists i) (fst s) in ((e1, snd s), r)
    | IndicesCreate i b => fun s =>
        let '(e1, r) := es (IndicesCreate i b) (fst s) in ((e1, snd s), r)
    | Index i d f => fun s =>
        let '(e1, r) := es (Index i d f) (fst s) in ((e1, snd s), r)
    | Search i b => fun s =>
        let '(e1, r) := es (Search i b) (fst s) in ((e1, snd s), r)
    end.

End WithBackend.

Arguments sdk B : clear implicits.
Arguments world B : clear implicits.

(** An SDK that always answers: one number per text, a fixed answer. *)
Definition steady : sdk unit :=
  fun c =>
    match c as c0 return unit -> unit * result (vreply c0) with
    | Init _ _ => fun b => (b, inr tt)
    | EmbeddingModel _ => fun b => (b, inr tt)
    | GetEmbeddings _ texts => fun b =>
        (b, inr (map (fun t => [inject_Z (Z.of_nat (String.length t))]) texts))
    | GenerativeModel _ => fun b => (b, inr tt)
    | GenerateContent _ _ => fun b => (b, inr (Some "From memory."%string))
    end.

(** An SDK whose initialisation fails. *)
Definition refusing (e : exn) : sdk unit :=
  fun c =>
    match c as c0 return unit -> unit * result (vreply c0) with
    | Init _ _ => fun b => (b, inl e)
    | EmbeddingModel _ => fun b => (b, inr tt)
    | GetEmbeddings _ _ => fun b => (b, inr [])
    | GenerativeModel _ => fun b => (b, inr tt)
    | GenerateContent _ _ => fun b => (b, inr None)
    end.

Definition fresh : world unit :=
  {| initialized := false; backend := tt; log := [] |}.

Definition gcp : GcpSettings :=
  {| gcp_project_id := "memora-dev"; gcp_location := "us-central1" |}.

End VertexAI.

(* ===================================================================== *)
(** * Properties                                                          *)
(* ===================================================================== *)

(** ** Running programs *)

Section RunFacts.
Context {St : Type}.
Variable h : handler St.

Lemma run_bind {A B} (p : prog A) (f : A -> prog B) (s : St) :
  run h (bind p f) s =
  let '(s1, t1, o1) := run h p s in
  match o1 with
  | inl e => (s1, t1, inl e)
  | inr a => let '(s2, t2, o2) := run h (f a) s1 in (s2, t1 ++ t2, o2)
  end.
Proof.
  revert s. induction p as [a | e | c k IH]; intros s; simpl.
  - destruct (run h (f a) s) as [[s2 t2] o2]. reflexivity.
  - reflexivity.
  - destruct (h c s) as [s1 r]. rewrite IH.
    destruct (run h (k r) s1) as [[s2 t2] [e | a]]; [reflexivity|].
    destruct (run h (f a) s2) as [[s3 t3] o3]. reflexivity.
Qed.

Lemma run_lift {A} (r : result A) (s : St) : run h (lift r) s = (s, [], r).
Proof. destruct r; reflexivity. Qed.

Lemma outcome_bind_inr {A B} (p : prog A) (f : A -> prog B) (s : St) (b : B) :
  outcome h (bind p f) s = inr b ->
  exists a, outcome h p s = inr a /\ outcome h (f a) (final h p s) = inr b.
Proof.
  unfold outcome, final. rewrite run_bind.
  destruct (run h p s) as [[s1 t1] [e | a]]; simpl; [discriminate|].
  destruct (run h (f a) s1) as [[s2 t2] o2] eqn:E. simpl. intros ->.
  exists a. rewrite E. auto.
Qed.

Lemma trace_bind {A B} (p : prog A) (f : A -> prog B) (s : St) :
  trace h (bind p f) s =
  match outcome h p s with
  | inl _ => trace h p s
  | inr a => trace h p s ++ trace h (f a) (final h p s)
  end.
Proof.
  unfold trace, outcome, final. rewrite run_bind.
  destruct (run h p s) as [[s1 t1] [e | a]]; simpl; [reflexivity|].
  destruct (run h (f a) s1) as [[s2 t2] o2]. reflexivity.
Qed.

Lemma outcome_bind {A B} (p : prog A) (f : A -> prog B) (s : St) :
  outcome h (bind p f) s =
  match outcome h p s with
  | inl e => inl e
  | inr a => outcome h (f a) (final h p s)
  end.
Proof.
  unfold outcome, final. rewrite run_bind.
  destruct (run h p s) as [[s1 t1] [e | a]]; simpl; [reflexivity|].
  destruct (run h (f a) s1) as [[s2 t2] o2]. reflexivity.
Qed.

Lemma final_bind {A B} (p : prog A) (f : A -> prog B) (s : St) :
  final h (bind p f) s =
  match outcome h p s with
  | inl _ => final h p s
  | inr a => final h (f a) (final h p s)
  end.
Proof.
  unfold outcome, final. rewrite run_bind.
  destruct (run h p s) as [[s1 t1] [e | a]]; simpl; [reflexivity|].
  destruct (run h (f a) s1) as [[s2 t2] o2]. reflexivity.
Qed.
End RunFacts.

(** ** Reading responses *)

Lemma rmap_inr {A B} (f : A -> result B) (l : list A) (bs : list B) :
  rmap f l = inr bs -> Forall2 (fun a b => f a = inr b) l bs.
Proof.
  revert bs. induction l as [| a l IH]; simpl; intros bs H.
  - injection H as <-. constructor.
  - destruct (f a) as [e | b] eqn:Ea; simpl in H; [discriminate|].
    destruct (rmap f l) as [e | bs'] eqn:El; simpl in H; [discriminate|].
    injection H as <-. constructor; auto.
Qed.

Lemma hit_of_inr (j : json) (r : hit) :
  ElasticMemory.hit_of j = inr r ->
  Store.raw_score j = score r /\ Store.source_field j "text" = Some (text r).
Proof.
  unfold ElasticMemory.hit_of, Store.raw_score, Store.source_field. intros H.
  destruct j; simpl in H; try discriminate.
  simpl. destruct (lookup "_source" kv) as [src |]; simpl in H; [|discriminate].
  destruct src; simpl in H; try discriminate.
  simpl. destruct (lookup "text" kv0) as [t |]; simpl in H; [|discriminate].
  destruct (lookup "_score" kv) as [sc |]; simpl in H; [|discriminate].
  injection H as <-. simpl. auto.
Qed.

(** When every visited item projects to a result, the visited items are
    the hits of the response. *)
Lemma visited_are_hits (o : json) (items : list json) (results : list hit) :
  py_iter o = inr items ->
  rmap ElasticMemory.hit_of items = inr results ->
  items = match o with JList l => l | _ => [] end.
Proof.
  destruct o; simpl; intros Hi Hr; try discriminate.
  - injection Hi as <-. destruct s as [| c s']; [reflexivity|].
    simpl in Hr. discriminate.
  - injection Hi as <-. reflexivity.
  - injection Hi as <-. destruct kv as [| [k0 v] kv']; [reflexivity|].
    simpl in Hr. discriminate.
Qed.

Lemma hits_of_response_sound (res : json) (items : list json) (results : list hit) :
  ElasticMemory.hits_of_response res = inr items ->
  rmap ElasticMemory.hit_of items = inr results ->
  items = Store.response_hits res.
Proof.
  unfold ElasticMemory.hits_of_response, Store.response_hits. intros H Hr.
  destruct res; simpl in H; try discriminate.
  simpl. destruct (lookup "hits" kv) as [outer |]; simpl in H.
  - destruct outer; simpl in H; try discriminate.
    simpl. destruct (lookup "hits" kv0) as [hs |]; simpl in H.
    + rewrite (visited_are_hits hs items results H Hr). destruct hs; reflexivity.
    + injection H as <-. reflexivity.
  - injection H as <-. reflexivity.
Qed.

Lemma knn_items_sound (res : json) (items : list json) (results : list hit) :
  rbind (py_getitem res "hits") (fun outer =>
    rbind (py_getitem outer "hits") py_iter) = inr items ->
  rmap ElasticMemory.hit_of items = inr results ->
  items = Store.response_hits res.
Proof.
  unfold Store.response_hits. intros H Hr.
  destruct res; simpl in H; try discriminate.
  simpl. destruct (lookup "hits" kv) as [outer |]; simpl in H; [|discriminate].
  destruct outer; simpl in H; try discriminate.
  simpl. destruct (lookup "hits" kv0) as [hs |]; simpl in H; [|discriminate].
  rewrite (visited_are_hits hs items results H Hr). destruct hs; reflexivity.
Qed.

(** ** The store client *)

Section ClientFacts.
Context {St : Type}.
Variable h : handler St.
Variable S : Settings.

Lemma run_ensure_index (s : St) :
  run h (ElasticMemory.ensure_index S) s =
  let '(s1, r) := h (IndicesExists (elastic_index S)) s in
  match r with
  | inl e => (s1, [IndicesExists (elastic_index S)], inl e)
  | inr true => (s1, [IndicesExists (elastic_index S)], inr tt)
  | inr false =>
      let '(s2, r2) := h (IndicesCreate (elastic_index S) (ElasticMemory.mapping S)) s1 in
      (s2,
       [IndicesExists (elastic_index S);
        IndicesCreate (elastic_index S) (ElasticMemory.mapping S)],
       match r2 with inl e => inl e | inr _ => inr tt end)
  end.
Proof.
  unfold ElasticMemory.ensure_index, perform. simpl.
  destruct (h (IndicesExists (elastic_index S)) s) as [s1 [e | [|]]]; simpl;
    try reflexivity.
  destruct (h (IndicesCreate (elastic_index S) (ElasticMemory.mapping S)) s1)
    as [s2 [e | j]];
    reflexivity.
Qed.

(** A search that returns was answered by the store, on the first
    request or on the second. *)
Lemma hybrid_hits_inr (p qt : string) (qv : vector) (k : Z) (s : St)
    (items : list json) :
  outcome h (ElasticMemory.hybrid_hits S p qt qv k) s = inr items ->
  exists s1 body res,
    (body = ElasticMemory.hybrid_body p qt qv k \/
     body = ElasticMemory.fallback_body p qt qv k) /\
    snd (h (Search (elastic_index S) body) s1) = inr res /\
    ElasticMemory.hits_of_response res = inr items.
Proof.
  unfold ElasticMemory.hybrid_hits. intros H.
  apply outcome_bind_inr in H as [[] [_ H]].
  set (s0 := final h (ElasticMemory.ensure_index S) s) in H.
  apply outcome_bind_inr in H as [res [H1 H2]].
  unfold outcome in H2. rewrite run_lift in H2. simpl in H2.
  unfold outcome in H1. simpl in H1.
  destruct (h (Search (elastic_index S) (ElasticMemory.hybrid_body p qt qv k)) s0)
    as [s1 [e | res1]] eqn:E1.
  - unfold perform in H1. simpl in H1.
    destruct (h (Search (elastic_index S) (ElasticMemory.fallback_body p qt qv k)) s1)
      as [s2 [e2 | res2]] eqn:E2; simpl in H1; [discriminate|].
    injection H1 as ->.
    exists s1, (ElasticMemory.fallback_body p qt qv k), res.
    rewrite E2. auto.
  - simpl in H1. injection H1 as ->.
    exists s0, (ElasticMemory.hybrid_body p qt qv k), res.
    rewrite E1. auto.
Qed.

Lemma knn_hits_inr (p : string) (qv : vector) (k : Z) (s : St)
    (items : list json) :
  outcome h (ElasticMemory.knn_hits S p qv k) s = inr items ->
  exists s1 res,
    snd (h (Search (elastic_index S) (ElasticMemory.knn_body p qv k)) s1) = inr res /\
    rbind (py_getitem res "hits") (fun outer =>
      rbind (py_getitem outer "hits") py_iter) = inr items.
Proof.
  unfold ElasticMemory.knn_hits. intros H.
  apply outcome_bind_inr in H as [[] [_ H]].
  set (s0 := final h (ElasticMemory.ensure_index S) s) in H.
  apply outcome_bind_inr in H as [res [H1 H2]].
  unfold outcome in H2. rewrite run_lift in H2. simpl in H2.
  unfold outcome, perform in H1. simpl in H1.
  destruct (h (Search (elastic_index S) (ElasticMemory.knn_body p qv k)) s0)
    as [s1 [e | res1]] eqn:E1; simpl in H1; [discriminate|].
  injection H1 as ->. exists s0, res. rewrite E1. auto.
Qed.

Lemma hybrid_search_inr (p qt : string) (qv : vector) (k : Z) (s : St)
    (results : list hit) :
  outcome h (ElasticMemory.hybrid_search S p qt qv k) s = inr results ->
  exists items,
    outcome h (ElasticMemory.hybrid_hits S p qt qv k) s = inr items /\
    rmap ElasticMemory.hit_of items = inr results.
Proof.
  unfold ElasticMemory.hybrid_search. intros H.
  apply outcome_bind_inr in H as [items [H1 H2]].
  apply outcome_bind_inr in H2 as [results' [H2 H3]].
  apply outcome_bind_inr in H3 as [[] [_ H3]].
  unfold outcome in H2, H3. rewrite run_lift in H2. simpl in H2, H3.
  injection H3 as <-. eauto.
Qed.

Lemma knn_search_inr (p : string) (qv : vector) (k : Z) (s : St)
    (results : list hit) :
  outcome h (ElasticMemory.knn_search S p qv k) s = inr results ->
  exists items,
    outcome h (ElasticMemory.knn_hits S p qv k) s = inr items /\
    rmap ElasticMemory.hit_of items = inr results.
Proof.
  unfold ElasticMemory.knn_search. intros H.
  apply outcome_bind_inr in H as [items [H1 H2]].
  unfold outcome in H2. rewrite run_lift in H2. eauto.
Qed.
End ClientFacts.

(** ** The in-memory store meets the three guarantees *)

Lemma lookup_kept (keep : string -> bool) (f : string) (kv : list (string * json)) :
  keep f = true ->
  lookup f (filter (fun p => keep (fst p)) kv) = lookup f kv.
Proof.
  intros Hf. induction kv as [| [k0 v] kv IH]; simpl; [reflexivity|].
  destruct (String.eqb k0 f) eqn:E.
  - apply String.eqb_eq in E. subst k0. rewrite Hf. simpl.
    rewrite String.eqb_refl. reflexivity.
  - destruct (keep k0); simpl; [rewrite E|]; exact IH.
Qed.

Lemma in_firstn {A} (n : nat) (l : list A) (x : A) :
  In x (firstn n l) -> In x l.
Proof.
  revert l. induction n as [| n IH]; intros [| a l]; simpl; try tauto.
  intros [-> | H]; auto.
Qed.

Lemma serve_search (name : string) (body res : json) (s : Store.state) :
  snd (Store.serve (Search name body) s) = inr res ->
  exists matching,
    Store.response_hits res = map (Store.hit_json body) matching /\
    (Z.of_nat (List.length matching) <=
       Z.max 0 (match Store.body_size body with Some n => n | None => 10 end)) /\
    forall d, In d matching ->
              Store.doc_matches (Store.body_term_filters body) (snd d) = true.
Proof.
  simpl. unfold Store.search.
  destruct (Store.rejects body s); [discriminate|].
  destruct (Store.has_index name s); [|discriminate].
  intros H. injection H as <-.
  eexists. split; [reflexivity|]. split.
  - rewrite length_firstn. lia.
  - intros d Hd. apply in_firstn in Hd. apply filter_In in Hd. tauto.
Qed.

Lemma serve_honours_filters : Store.honours_filters Store.serve.
Proof.
  intros s name body res f v hit Hres Hf Hret Hin.
  apply serve_search in Hres as [matching [Hh [_ Hm]]].
  rewrite Hh in Hin. apply in_map_iff in Hin as [d [<- Hd]].
  specialize (Hm d Hd). unfold Store.doc_matches in Hm.
  rewrite forallb_forall in Hm. specialize (Hm (f, v) Hf). simpl in Hm.
  destruct (Store.field f (snd d)) as [stored |] eqn:Ef; [|discriminate].
  exists stored. split; [|exact Hm].
  unfold Store.source_field, Store.hit_json. simpl.
  destruct (snd d) as [| | | | | |kv]; simpl in Ef; try discriminate.
  simpl. rewrite (lookup_kept (Store.returns_field body) f kv Hret), Ef.
  reflexivity.
Qed.

Lemma serve_honours_size : Store.honours_size Store.serve.
Proof.
  intros s name body res n Hres Hn.
  apply serve_search in Hres as [matching [Hh [Hlen _]]].
  rewrite Hh, length_map. rewrite Hn in Hlen. exact Hlen.
Qed.

Lemma constant_scores_non_increasing (body : json) (l : list (string * json)) :
  Store.non_increasing (map Store.raw_score (map (Store.hit_json body) l)).
Proof.
  induction l as [| d [| d' l] IH]; simpl; auto.
  split; [|exact IH]. unfold Store.score_ge. simpl. apply Qle_refl.
Qed.

Lemma serve_orders_by_score : Store.orders_by_score Store.serve.
Proof.
  intros s name body res Hres _.
  apply serve_search in Hres as [matching [Hh _]].
  rewrite Hh. apply constant_scores_non_increasing.
Qed.

(** ** Claims on the store client *)

Lemma belongs_excludes_others (hit : json) (p p2 : string) :
  Store.belongs_to hit p -> Store.written_under hit p2 -> p2 = p.
Proof.
  intros [stored [Hs Hm]] Hw. unfold Store.written_under in Hw.
  rewrite Hs in Hw. injection Hw as ->. simpl in Hm.
  apply String.eqb_eq. exact Hm.
Qed.

(** C1. A search scoped to project [p], on either request of
    [hybrid_search] or through [knn_search], returns projections of hits
    of the store's response that all carry [p] as their project: no hit
    written under another project is among them.  The store is only
    assumed to apply the term filters it is sent. *)
Theorem search_never_crosses_projects {St : Type} (h : handler St)
    (S : Settings) (p qt : string) (qv : vector) (k : Z) (s : St) :
  Store.honours_filters h ->
  (forall results,
     outcome h (ElasticMemory.hybrid_search S p qt qv k) s = inr results ->
     exists items,
       outcome h (ElasticMemory.hybrid_hits S p qt qv k) s = inr items /\
       rmap ElasticMemory.hit_of items = inr results /\
       forall hit, In hit items ->
         Store.belongs_to hit p /\
         forall p2, p2 <> p -> ~ Store.written_under hit p2) /\
  (forall results,
     outcome h (ElasticMemory.knn_search S p qv k) s = inr results ->
     exists items,
       outcome h (ElasticMemory.knn_hits S p qv k) s = inr items /\
       rmap ElasticMemory.hit_of items = inr results /\
       forall hit, In hit items ->
         Store.belongs_to hit p /\
         forall p2, p2 <> p -> ~ Store.written_under hit p2).
Proof.
  intros Hf.
  assert (scoped : forall s1 body res hit,
             snd (h (Search (elastic_index S) body) s1) = inr res ->
             In ("project_id"%string, JStr p) (Store.body_term_filters body) ->
             Store.returns_field body "project_id" = true ->
             In hit (Store.response_hits res) ->
             Store.belongs_to hit p /\
             forall p2, p2 <> p -> ~ Store.written_under hit p2).
  { intros s1 body res hit Hres Hin Hret Hhit.
    assert (B : Store.belongs_to hit p)
      by exact (Hf s1 _ body res _ _ hit Hres Hin Hret Hhit).
    split; [exact B|]. intros p2 Hne Hw.
    apply Hne. eapply belongs_excludes_others; eassumption. }
  split; intros results H.
  - apply hybrid_search_inr in H as [items [Hi Hr]].
    exists items. split; [exact Hi|]. split; [exact Hr|].
    apply hybrid_hits_inr in Hi as [s1 [body [res [Hb [Hres Hh]]]]].
    rewrite (hits_of_response_sound res items results Hh Hr).
    intros hit Hhit.
    destruct Hb as [-> | ->];
      (eapply scoped; [exact Hres | left; reflexivity | reflexivity | exact Hhit]).
  - apply knn_search_inr in H as [items [Hi Hr]].
    exists items. split; [exact Hi|]. split; [exact Hr|].
    apply knn_hits_inr in Hi as [s1 [res [Hres Hh]]].
    rewrite (knn_items_sound res items results Hh Hr).
    intros hit Hhit.
    eapply scoped; [exact Hres | left; reflexivity | reflexivity | exact Hhit].
Qed.

Lemma search_never_crosses_projects_witness :
  exists items,
    outcome Store.serve
      (ElasticMemory.hybrid_hits Sample.settings "u1" "where" [1 # 1] 8)
      (Sample.seeded false) = inr items /\
    List.length items = 2%nat /\
    forall hit, In hit items -> ~ Store.written_under hit "u2".
Proof.
  destruct (search_never_crosses_projects Store.serve Sample.settings
              "u1" "where" [1 # 1] 8 (Sample.seeded false)
              serve_honours_filters) as [H _].
  destruct (H [{| text := JStr "aaaaaaa"; score := JFloat (1 # 1) |};
               {| text := JStr "bbbbbbb"; score := JFloat (1 # 1) |}]
              eq_refl) as [items [Hi [Hr Hs]]].
  exists items. split; [exact Hi|]. split.
  - vm_compute in Hi. injection Hi as <-. reflexivity.
  - intros hit Hhit. apply (Hs hit Hhit). discriminate.
Defined.

Lemma forall2_hit_scores (items : list json) (results : list hit) :
  Forall2 (fun j r => ElasticMemory.hit_of j = inr r) items results ->
  List.length results = List.length items /\
  map score results = map Store.raw_score items.
Proof.
  induction 1 as [| j r items results Hjr _ [IHl IHs]]; simpl; [auto|].
  apply hit_of_inr in Hjr as [Hsc _]. rewrite IHl, IHs, Hsc. auto.
Qed.

(** C6. [hybrid_search] returns at most [max(3k, 15)] results, and their
    scores never increase along the returned order, given a store that
    respects [size] and ranks by score. *)
Theorem hybrid_search_bounded_and_ranked {St : Type} (h : handler St)
    (S : Settings) (p qt : string) (qv : vector) (k : Z) (s : St)
    (results : list hit) :
  Store.honours_size h ->
  Store.orders_by_score h ->
  outcome h (ElasticMemory.hybrid_search S p qt qv k) s = inr results ->
  Z.of_nat (List.length results) <= Z.max (3 * k) 15 /\
  Store.non_increasing (map score results).
Proof.
  intros Hsize Hord H.
  apply hybrid_search_inr in H as [items [Hi Hr]].
  apply hybrid_hits_inr in Hi as [s1 [body [res [Hb [Hres Hh]]]]].
  pose proof (hits_of_response_sound res items results Hh Hr) as ->.
  apply rmap_inr, forall2_hit_scores in Hr as [Hl Hs].
  rewrite Hl, Hs.
  assert (Hbody : Store.body_size body = Some (Z.max (k * 3) 15) /\
                  Store.field "sort" body = None)
    by (destruct Hb as [-> | ->]; split; reflexivity).
  destruct Hbody as [Hn Hsort]. split.
  - pose proof (Hsize s1 _ body res _ Hres Hn). lia.
  - exact (Hord s1 _ body res Hres Hsort).
Qed.

Lemma hybrid_search_bounded_and_ranked_witness :
  Z.of_nat (List.length
              [{| text := JStr "aaaaaaa"; score := JFloat (1 # 1) |};
               {| text := JStr "bbbbbbb"; score := JFloat (1 # 1) |}])
    <= Z.max (3 * 8) 15 /\
  Store.non_increasing
    (map score [{| text := JStr "aaaaaaa"; score := JFloat (1 # 1) |};
                {| text := JStr "bbbbbbb"; score := JFloat (1 # 1) |}]).
Proof.
  apply (hybrid_search_bounded_and_ranked Store.serve Sample.settings
           "u1" "where" [1 # 1] 8 (Sample.seeded true)
           [{| text := JStr "aaaaaaa"; score := JFloat (1 # 1) |};
            {| text := JStr "bbbbbbb"; score := JFloat (1 # 1) |}]
           serve_honours_size serve_orders_by_score).
  reflexivity.
Defined.

Lemma run_hybrid_hits_fallback {St : Type} (h : handler St)
    (S : Settings) (p qt : string) (qv : vector) (k : Z)
    (s s0 s1 : St) (t0 : list call) (e : exn) :
  run h (ElasticMemory.ensure_index S) s = (s0, t0, inr tt) ->
  h (Search (elastic_index S) (ElasticMemory.hybrid_body p qt qv k)) s0
    = (s1, inl e) ->
  run h (ElasticMemory.hybrid_hits S p qt qv k) s =
    (fst (h (Search (elastic_index S)
               (ElasticMemory.fallback_body p qt qv k)) s1),
     t0 ++ [Search (elastic_index S) (ElasticMemory.hybrid_body p qt qv k);
            Search (elastic_index S) (ElasticMemory.fallback_body p qt qv k)],
     rbind (snd (h (Search (elastic_index S)
                      (ElasticMemory.fallback_body p qt qv k)) s1))
           ElasticMemory.hits_of_response).
Proof.
  intros H0 H1. unfold ElasticMemory.hybrid_hits.
  rewrite run_bind, H0, run_bind. cbn [run]. rewrite H1.
  unfold perform. cbn [run].
  destruct (h (Search (elastic_index S) (ElasticMemory.fallback_body p qt qv k)) s1)
    as [s2 [e2 | res]]; cbn.
  - reflexivity.
  - rewrite run_lift. reflexivity.
Qed.

(** C4. Whatever exception the first, fused search request raises, the
    fallback request is issued next, and the outcome of [hybrid_search] is
    that of the fallback request alone: the first exception reaches
    nobody. *)
Theorem primary_failure_falls_back {St : Type} (h : handler St)
    (S : Settings) (p qt : string) (qv : vector) (k : Z)
    (s s0 s1 : St) (t0 : list call) (e : exn) :
  run h (ElasticMemory.ensure_index S) s = (s0, t0, inr tt) ->
  h (Search (elastic_index S) (ElasticMemory.hybrid_body p qt qv k)) s0
    = (s1, inl e) ->
  trace h (ElasticMemory.hybrid_search S p qt qv k) s =
    t0 ++ [Search (elastic_index S) (ElasticMemory.hybrid_body p qt qv k);
           Search (elastic_index S) (ElasticMemory.fallback_body p qt qv k)] /\
  outcome h (ElasticMemory.hybrid_search S p qt qv k) s =
    rbind (snd (h (Search (elastic_index S)
                     (ElasticMemory.fallback_body p qt qv k)) s1))
          ElasticMemory.results_of_response.
Proof.
  intros H0 H1.
  unfold trace, outcome, ElasticMemory.hybrid_search.
  rewrite run_bind, (run_hybrid_hits_fallback h S p qt qv k s s0 s1 t0 e H0 H1).
  destruct (snd (h (Search (elastic_index S)
                      (ElasticMemory.fallback_body p qt qv k)) s1))
    as [e2 | res]; cbn [rbind]; [auto|].
  unfold ElasticMemory.results_of_response, ElasticMemory.extract_results.
  destruct (ElasticMemory.hits_of_response res) as [e3 | items]; cbn [rbind];
    [auto|].
  rewrite run_bind, run_lift.
  destruct (rmap ElasticMemory.hit_of items) as [e4 | results]; cbn [rbind].
  { rewrite app_nil_r. auto. }
  rewrite run_bind, run_lift.
  destruct (ElasticMemory.report results) as [e5 | []]; cbn;
    rewrite ?app_nil_r; auto.
Qed.

Lemma primary_failure_falls_back_witness :
  outcome Store.serve
    (ElasticMemory.hybrid_search Sample.settings "u1" "where" [1 # 1] 8)
    (Sample.seeded false)
  = inr [{| text := JStr "aaaaaaa"; score := JFloat (1 # 1) |};
         {| text := JStr "bbbbbbb"; score := JFloat (1 # 1) |}].
Proof.
  destruct (primary_failure_falls_back Store.serve Sample.settings
              "u1" "where" [1 # 1] 8
              (Sample.seeded false) (Sample.seeded false) (Sample.seeded false)
              [IndicesExists "memora"] (ApiError 400 "unknown key [rank]")
              eq_refl eq_refl) as [_ H].
  rewrite H. reflexivity.
Defined.

(** C5, as stated, fails: the lexical clause of the fallback request is
    not the one of the first request, it has lost its fuzzy matching. *)
Lemma fallback_not_only_fusion_removed :
  ~ (Store.body_size (ElasticMemory.fallback_body "u1" "where" [1 # 1] 8)
       = Store.body_size (ElasticMemory.hybrid_body "u1" "where" [1 # 1] 8) /\
     Store.body_term_filters (ElasticMemory.fallback_body "u1" "where" [1 # 1] 8)
       = Store.body_term_filters (ElasticMemory.hybrid_body "u1" "where" [1 # 1] 8) /\
     Store.clause "match" (ElasticMemory.fallback_body "u1" "where" [1 # 1] 8)
       = Store.clause "match" (ElasticMemory.hybrid_body "u1" "where" [1 # 1] 8)).
Proof.
  intros [_ [_ H]]. vm_compute in H. discriminate H.
Qed.

(** C5, amended.  The fallback request keeps the size, the project
    filter, [minimum_should_match], the lexical query with its boost of
    2.0 and the whole knn search (field, vector, [k], [num_candidates]).
    Besides the rank-fusion stage it drops the [_source] selection, the
    fuzziness of the lexical clause and the explicit boost of the knn
    clause. *)
Theorem fallback_body_of_hybrid_body (p qt : string) (qv : vector) (k : Z) :
  let primary := ElasticMemory.hybrid_body p qt qv k in
  let fallback := ElasticMemory.fallback_body p qt qv k in
  fallback = Store.plain_request primary /\
  Store.body_size fallback = Store.body_size primary /\
  Store.body_term_filters fallback = Store.body_term_filters primary /\
  Store.path ["query"; "bool"; "minimum_should_match"]%string fallback
    = Store.path ["query"; "bool"; "minimum_should_match"]%string primary /\
  option_map (Store.path ["text"; "query"]%string) (Store.clause "match" fallback)
    = option_map (Store.path ["text"; "query"]%string) (Store.clause "match" primary) /\
  option_map (Store.path ["text"; "boost"]%string) (Store.clause "match" fallback)
    = Some (Some (JFloat (2 # 1))) /\
  option_map (Store.path ["text"; "fuzziness"]%string) (Store.clause "match" fallback)
    = Some None /\
  option_map (Store.path ["text"; "fuzziness"]%string) (Store.clause "match" primary)
    = Some (Some (JStr "AUTO")) /\
  Store.clause "knn" fallback
    = option_map (Store.without "boost") (Store.clause "knn" primary) /\
  Store.field "rank" fallback = None /\
  Store.field "_source" fallback = None.
Proof.
  repeat split; reflexivity.
Qed.

(** ** Schema provisioning *)

Lemma has_index_collections (name : string) (s : Store.state) :
  Store.has_index name s = false <-> Store.collections name s = 0%nat.
Proof.
  unfold Store.has_index, Store.collections.
  induction (Store.indices s) as [| ix l IH]; simpl; [tauto|].
  destruct (Store.named name ix); simpl; [split; discriminate | exact IH].
Qed.

Lemma collections_create (name : string) (s : Store.state) :
  Store.collections name (Store.create_index name s)
  = Datatypes.S (Store.collections name s).
Proof.
  unfold Store.collections, Store.create_index. simpl.
  rewrite filter_app, length_app. simpl.
  unfold Store.named at 2. simpl. rewrite String.eqb_refl. simpl. lia.
Qed.

Lemma run_ensure_index_serve (S : Settings) (s : Store.state) :
  run Store.serve (ElasticMemory.ensure_index S) s =
  if Store.has_index (elastic_index S) s
  then (s, [IndicesExists (elastic_index S)], inr tt)
  else (Store.create_index (elastic_index S) s,
        [IndicesExists (elastic_index S);
         IndicesCreate (elastic_index S) (ElasticMemory.mapping S)],
        inr tt).
Proof.
  rewrite run_ensure_index. simpl.
  destruct (Store.has_index (elastic_index S) s); reflexivity.
Qed.

(** C8, as stated, fails: two callers that both find the collection
    missing both try to create it, and the already-exists failure of the
    slower one comes out of its [ensure_index] as an exception. *)
Lemma ensure_index_surfaces_already_exists :
  interleave Store.serve [true; false; false; true]
    (ElasticMemory.ensure_index Sample.settings)
    (ElasticMemory.ensure_index Sample.settings)
    (Store.empty true)
  = (Store.create_index "memora" (Store.empty true),
     Raise Store.already_exists,
     Ret tt).
Proof. reflexivity. Qed.

(** C8, amended.  On a store that answers, two calls of [ensure_index] in
    sequence return normally and leave exactly one collection of the
    configured name; the second call only checks.  [ensure_index] catches
    nothing: when the check found no collection and the creation fails,
    with already-exists or anything else, that failure is its outcome. *)
Theorem ensure_index_twice (S : Settings) (s : Store.state) :
  (Store.collections (elastic_index S) s <= 1)%nat ->
  let twice := (ElasticMemory.ensure_index S ;; ElasticMemory.ensure_index S)%prog in
  outcome Store.serve twice s = inr tt /\
  Store.collections (elastic_index S) (final Store.serve twice s) = 1%nat /\
  trace Store.serve (ElasticMemory.ensure_index S)
        (final Store.serve (ElasticMemory.ensure_index S) s)
    = [IndicesExists (elastic_index S)] /\
  forall (St : Type) (h : handler St) (s0 s1 s2 : St) (e : exn),
    h (IndicesExists (elastic_index S)) s0 = (s1, inr false) ->
    h (IndicesCreate (elastic_index S) (ElasticMemory.mapping S)) s1 = (s2, inl e) ->
    outcome h (ElasticMemory.ensure_index S) s0 = inl e.
Proof.
  intros Hle twice.
  assert (Hafter : Store.has_index (elastic_index S)
                     (final Store.serve (ElasticMemory.ensure_index S) s) = true
                   /\ Store.collections (elastic_index S)
                        (final Store.serve (ElasticMemory.ensure_index S) s) = 1%nat).
  { unfold final. rewrite run_ensure_index_serve.
    destruct (Store.has_index (elastic_index S) s) eqn:E; simpl.
    - split; [exact E|].
      destruct (Store.collections (elastic_index S) s) as [| [| n]] eqn:C;
        [| reflexivity | lia].
      apply has_index_collections in C. congruence.
    - apply has_index_collections in E.
      rewrite collections_create, E. split; [|reflexivity].
      destruct (Store.has_index (elastic_index S)
                  (Store.create_index (elastic_index S) s)) eqn:E'; [reflexivity|].
      apply has_index_collections in E'. rewrite collections_create in E'.
      discriminate. }
  destruct Hafter as [Hhas Hone].
  assert (Hfirst : outcome Store.serve (ElasticMemory.ensure_index S) s = inr tt).
  { unfold outcome. rewrite run_ensure_index_serve.
    destruct (Store.has_index (elastic_index S) s); reflexivity. }
  assert (Hsecond : run Store.serve (ElasticMemory.ensure_index S)
                      (final Store.serve (ElasticMemory.ensure_index S) s)
                    = (final Store.serve (ElasticMemory.ensure_index S) s,
                       [IndicesExists (elastic_index S)], inr tt)).
  { rewrite run_ensure_index_serve, Hhas. reflexivity. }
  repeat split.
  - unfold twice. rewrite outcome_bind, Hfirst. unfold outcome.
    rewrite Hsecond. reflexivity.
  - unfold twice. rewrite final_bind, Hfirst. unfold final at 1.
    rewrite Hsecond. exact Hone.
  - unfold trace. rewrite Hsecond. reflexivity.
  - intros St h s0 s1 s2 e H1 H2. unfold outcome.
    rewrite run_ensure_index, H1, H2. reflexivity.
Qed.

Lemma ensure_index_twice_witness :
  outcome Store.serve
    (ElasticMemory.ensure_index Sample.settings ;;
     ElasticMemory.ensure_index Sample.settings)%prog (Store.empty true) = inr tt /\
  Store.collections "memora"
    (final Store.serve
       (ElasticMemory.ensure_index Sample.settings ;;
        ElasticMemory.ensure_index Sample.settings)%prog (Store.empty true)) = 1%nat.
Proof.
  destruct (ensure_index_twice Sample.settings (Store.empty true))
    as [H1 [H2 _]].
  - cbv. lia.
  - split; [exact H1 | exact H2].
Defined.

(** ** Stored documents *)

Lemma ensure_index_calls {St : Type} (h : handler St) (S : Settings) (s : St)
    (c : call) :
  In c (trace h (ElasticMemory.ensure_index S) s) ->
  c = IndicesExists (elastic_index S) \/
  c = IndicesCreate (elastic_index S) (ElasticMemory.mapping S).
Proof.
  unfold trace. rewrite run_ensure_index.
  destruct (h (IndicesExists (elastic_index S)) s) as [s1 [e | [|]]]; simpl;
    try (intros [<- | []]; auto).
  destruct (h (IndicesCreate (elastic_index S) (ElasticMemory.mapping S)) s1)
    as [s2 r2]; simpl. intros [<- | [<- | []]]; auto.
Qed.

(** C9.  The document [upsert_chunk] sends to the store has the four
    fields [project_id], [text], [tags] and [embedding] and no
    [created_at], although the mapping of [ensure_index] declares one. *)
Theorem upsert_chunk_writes_no_created_at {St : Type} (h : handler St)
    (S : Settings) (p t : string) (e : vector) (tags : option (list string))
    (s : St) (index : string) (doc : json) (refresh : string) :
  In (Index index doc refresh)
     (trace h (ElasticMemory.upsert_chunk S p t e tags) s) ->
  doc = ElasticMemory.chunk_document p t e tags /\
  Store.keys doc = ["project_id"; "text"; "tags"; "embedding"]%string /\
  Store.field "created_at" doc = None /\
  Store.path ["mappings"; "properties"; "created_at"]%string
             (ElasticMemory.mapping S)
    = Some (JDict [("type", JStr "date")]%string).
Proof.
  unfold ElasticMemory.upsert_chunk. rewrite trace_bind. intros H.
  assert (Hdoc : doc = ElasticMemory.chunk_document p t e tags).
  { destruct (outcome h (ElasticMemory.ensure_index S) s) as [e0 | []].
    - apply ensure_index_calls in H as [H | H]; discriminate H.
    - apply in_app_or in H as [H | H].
      + apply ensure_index_calls in H as [H | H]; discriminate H.
      + rewrite trace_bind in H.
        assert (Hp : forall s', trace h (perform (Index (elastic_index S)
                       (ElasticMemory.chunk_document p t e tags) "wait_for")) s'
                     = [Index (elastic_index S)
                          (ElasticMemory.chunk_document p t e tags) "wait_for"]).
        { intros s'. unfold trace, perform. simpl.
          destruct (h _ s') as [s2 [e2 | r2]]; reflexivity. }
        destruct (outcome h _ _) as [e1 | res].
        * rewrite Hp in H. destruct H as [H | []]. congruence.
        * apply in_app_or in H as [H | H].
          -- rewrite Hp in H. destruct H as [H | []]. congruence.
          -- unfold trace in H. rewrite run_lift in H. destruct H. }
  subst doc. repeat split.
Qed.

Lemma upsert_chunk_writes_no_created_at_witness :
  Store.docs_of "memora"
    (final Store.serve
       (ElasticMemory.upsert_chunk Sample.settings "u1" "Alice lives in Paris."
          [1 # 1] (Some ["bio"%string]))
       (Store.empty true))
  = [("doc0"%string,
      ElasticMemory.chunk_document "u1" "Alice lives in Paris." [1 # 1]
        (Some ["bio"%string]))] /\
  Store.field "created_at"
    (ElasticMemory.chunk_document "u1" "Alice lives in Paris." [1 # 1]
       (Some ["bio"%string])) = None.
Proof.
  split; [reflexivity|].
  apply (upsert_chunk_writes_no_created_at Store.serve Sample.settings
           "u1" "Alice lives in Paris." [1 # 1] (Some ["bio"%string])
           (Store.empty true) "memora" _ "wait_for").
  right. right. left. reflexivity.
Defined.

(** ** Context assembly *)

Section Assembly.
Variable tok : string -> nat.
Variable budget : Z.

Lemma fill_checked_prefix (selected parts : list string) :
  exists n,
    (n <= List.length selected)%nat /\
    Main.fill tok budget parts selected = parts ++ firstn n selected /\
    (forall i d, (i < n)%nat -> nth_error selected i = Some d ->
                 Main.fits tok budget (parts ++ firstn i selected) d = true) /\
    (forall d, nth_error selected n = Some d ->
               Main.fits tok budget (parts ++ firstn n selected) d = false).
Proof.
  revert parts. induction selected as [| d rest IH]; intros parts; simpl.
  - exists 0%nat. rewrite app_nil_r. repeat split; auto.
    + intros i d Hi. lia.
    + intros d H. discriminate.
  - destruct (Main.fits tok budget parts d) eqn:E.
    + destruct (IH (parts ++ [d])) as [n [Hn [Hf [Hin Hout]]]].
      exists (Datatypes.S n). simpl. rewrite <- app_assoc in Hf. simpl in Hf.
      repeat split; [lia | exact Hf | |].
      * intros [| i] d' Hi Hd; simpl in *.
        -- injection Hd as <-. rewrite app_nil_r. exact E.
        -- specialize (Hin i d' ltac:(lia) Hd).
           rewrite <- app_assoc in Hin. exact Hin.
      * intros d' Hd. specialize (Hout d' Hd).
        rewrite <- app_assoc in Hout. exact Hout.
    + exists 0%nat. simpl. rewrite app_nil_r. repeat split; [lia | |].
      * intros i d' Hi. lia.
      * intros d' Hd. injection Hd as <-. exact E.
Qed.
End Assembly.

(** C3, as stated, fails for length-based heuristics: the first memory
    fits, and the assembled context still counts no less than the budget,
    with four characters to a token (with or without a floor of one token)
    and with one character to a token. *)
Lemma assemble_can_reach_budget :
  (Z.of_nat (chars_per_token 4 "aaaaaaa") < 3 /\
   ~ Z.of_nat (chars_per_token 4
        (Main.assemble (chars_per_token 4) 3 ["aaaaaaa"; "bbbbbbb"]%string)) < 3) /\
  (Z.of_nat (at_least_one (chars_per_token 4) "aaaaaaa") < 3 /\
   ~ Z.of_nat (at_least_one (chars_per_token 4)
        (Main.assemble (at_least_one (chars_per_token 4)) 3
           ["aaaaaaa"; "bbbbbbb"]%string)) < 3) /\
  (Z.of_nat (chars_per_token 1 "aa") < 5 /\
   ~ Z.of_nat (chars_per_token 1
        (Main.assemble (chars_per_token 1) 5 ["aa"; "bb"]%string)) < 5).
Proof.
  repeat split; vm_compute; congruence.
Qed.

(** C3, amended.  The context is the blank-line join of a prefix of the
    selection, whole items in order.  Each item of the prefix passed the
    budget test of the loop against the items before it, and so counts
    less than the budget by itself; the item after the prefix, if any,
    failed the test.  A context of one item counts less than the budget,
    and a first item that counts no less than the budget leaves the
    context empty. *)
Theorem assemble_is_checked_prefix (tok : string -> nat) (budget : Z)
    (selected : list string) :
  exists n,
    (n <= List.length selected)%nat /\
    Main.fill tok budget [] selected = firstn n selected /\
    Main.assemble tok budget selected = join (nl ++ nl) (firstn n selected) /\
    (forall i d, (i < n)%nat -> nth_error selected i = Some d ->
       Main.fits tok budget (firstn i selected) d = true /\
       Z.of_nat (tok d) < budget) /\
    (forall d, nth_error selected n = Some d ->
       Main.fits tok budget (firstn n selected) d = false) /\
    (n = 1%nat -> Z.of_nat (tok (Main.assemble tok budget selected)) < budget) /\
    (forall d rest, selected = d :: rest -> budget <= Z.of_nat (tok d) ->
       Main.assemble tok budget selected = EmptyString).
Proof.
  destruct (fill_checked_prefix tok budget selected []) as [n [Hn [Hf [Hin Hout]]]].
  simpl in Hf, Hin, Hout.
  assert (Hown : forall parts d,
             Main.fits tok budget parts d = true -> Z.of_nat (tok d) < budget).
  { intros parts d H. unfold Main.fits in H. apply Z.ltb_lt in H. lia. }
  exists n. unfold Main.assemble. rewrite Hf.
  split; [exact Hn|]. split; [reflexivity|]. split; [reflexivity|].
  split; [|split; [|split]].
  - intros i d Hi Hd. specialize (Hin i d Hi Hd). split; [exact Hin|].
    exact (Hown _ _ Hin).
  - exact Hout.
  - intros ->. destruct selected as [| d rest]; [simpl in Hn; lia|].
    specialize (Hin 0%nat d ltac:(lia) eq_refl). simpl.
    exact (Hown _ _ Hin).
  - intros d rest -> Hd. destruct n as [| n]; [reflexivity|].
    specialize (Hin 0%nat d ltac:(lia) eq_refl).
    apply Hown in Hin. lia.
Qed.

(** ** Diversity selection *)

Section Selection.
Variable lambda : Q.
Variable sim : vector -> vector -> Q.
Variable q_vec : vector.
Variable doc_vecs : list vector.


Lemma Qltb_true (a b : Q) : Retriever.Qltb a b = true <-> (a < b)%Q.
Proof.
  unfold Retriever.Qltb. rewrite Qlt_alt.
  destruct (a ?= b)%Q; split; congruence.
Qed.

Lemma Qltb_false (a b : Q) : Retriever.Qltb a b = false -> (b <= a)%Q.
Proof.
  intros H. apply Qnot_lt_le. intros Hlt. apply Qltb_true in Hlt. congruence.
Qed.

Lemma best_of_in (f : nat -> Q) (rest : list nat) (b : nat) :
  In (Retriever.best_of f b rest) (b :: rest).
Proof.
  revert b. induction rest as [| i rest IH]; intros b; simpl; [auto|].
  destruct (Retriever.Qltb (f b) (f i)).
  - destruct (IH i) as [H | H]; auto.
  - destruct (IH b) as [H | H]; auto.
Qed.

(** Over a run of consecutive indices the pick is a maximum, and the
    first one. *)
Lemma best_of_seq (f : nat -> Q) (lo : nat) (m b a : nat) :
  (lo <= b < a)%nat ->
  (forall i, (lo <= i < a)%nat -> (f i <= f b)%Q) ->
  (forall i, (lo <= i < b)%nat -> (f i < f b)%Q) ->
  let j := Retriever.best_of f b (seq a m) in
  (lo <= j < a + m)%nat /\
  (forall i, (lo <= i < a + m)%nat -> (f i <= f j)%Q) /\
  (forall i, (lo <= i < j)%nat -> (f i < f j)%Q).
Proof.
  revert b a. induction m as [| m IH]; intros b a Hb Hle Hlt; simpl.
  - rewrite Nat.add_0_r. repeat split; auto; lia.
  - destruct (Retriever.Qltb (f b) (f a)) eqn:E.
    + apply Qltb_true in E.
      destruct (IH a (Datatypes.S a)) as [Hj [Hmax Hfirst]].
      * lia.
      * intros i Hi. destruct (Nat.eq_dec i a) as [-> | Hne]; [apply Qle_refl|].
        apply Qlt_le_weak. eapply Qle_lt_trans; [apply Hle; lia | exact E].
      * intros i Hi. eapply Qle_lt_trans; [apply Hle; lia | exact E].
      * repeat split; try lia.
        -- intros i Hi. apply Hmax. lia.
        -- exact Hfirst.
    + apply Qltb_false in E.
      destruct (IH b (Datatypes.S a)) as [Hj [Hmax Hfirst]].
      * lia.
      * intros i Hi. destruct (Nat.eq_dec i a) as [-> | Hne]; [exact E|].
        apply Hle. lia.
      * exact Hlt.
      * repeat split; try lia.
        -- intros i Hi. apply Hmax. lia.
        -- exact Hfirst.
Qed.

Lemma without_in (i x : nat) (l : list nat) :
  In x (Retriever.without i l) <-> In x l /\ x <> i.
Proof.
  unfold Retriever.without. rewrite filter_In.
  rewrite negb_true_iff, Nat.eqb_neq. tauto.
Qed.

Lemma without_absent (i : nat) (l : list nat) :
  ~ In i l -> Retriever.without i l = l.
Proof.
  induction l as [| y l IH]; simpl; intros Hx; [reflexivity|].
  destruct (Nat.eqb_spec y i) as [-> | Hne]; simpl.
  - exfalso. apply Hx. left. reflexivity.
  - f_equal. apply IH. intros H. apply Hx. right. exact H.
Qed.

Lemma without_length (i : nat) (l : list nat) :
  NoDup l -> In i l ->
  Datatypes.S (List.length (Retriever.without i l)) = List.length l.
Proof.
  induction 1 as [| x l Hx Hnd IH]; simpl; [tauto|].
  intros [-> | Hin].
  - rewrite Nat.eqb_refl. simpl. f_equal.
    f_equal. apply without_absent. exact Hx.
  - destruct (Nat.eqb_spec x i) as [-> | Hne]; [tauto|].
    simpl. f_equal. apply IH. exact Hin.
Qed.

Lemma select_extends (steps : nat) (selected remaining : list nat) :
  exists tail,
    Retriever.select lambda sim q_vec doc_vecs steps selected remaining
    = selected ++ tail.
Proof.
  revert selected remaining.
  induction steps as [| steps IH]; intros selected remaining; simpl.
  - exists []. rewrite app_nil_r. reflexivity.
  - destruct remaining as [| i0 rest].
    + exists []. rewrite app_nil_r. reflexivity.
    + set (i := Retriever.best_of
                  (Retriever.mmr_score lambda sim q_vec doc_vecs selected) i0 rest).
      destruct (IH (selected ++ [i]) (Retriever.without i (i0 :: rest)))
        as [tail Ht].
      rewrite Ht, <- app_assoc. eexists. reflexivity.
Qed.

Lemma select_in (steps : nat) (selected remaining : list nat) (x : nat) :
  In x (Retriever.select lambda sim q_vec doc_vecs steps selected remaining) ->
  In x selected \/ In x remaining.
Proof.
  revert selected remaining.
  induction steps as [| steps IH]; intros selected remaining; simpl; [auto|].
  destruct remaining as [| i0 rest]; [auto|].
  intros H. apply IH in H as [H | H].
  - apply in_app_or in H as [H | [<- | []]]; [auto|].
    right. apply best_of_in.
  - apply without_in in H as [H _]. auto.
Qed.

Lemma select_nodup (steps : nat) (selected remaining : list nat) :
  NoDup selected -> NoDup remaining ->
  (forall x, In x selected -> ~ In x remaining) ->
  NoDup (Retriever.select lambda sim q_vec doc_vecs steps selected remaining).
Proof.
  revert selected remaining.
  induction steps as [| steps IH]; intros selected remaining Hs Hr Hd; simpl;
    [exact Hs|].
  destruct remaining as [| i0 rest]; [exact Hs|].
  set (i := Retriever.best_of
              (Retriever.mmr_score lambda sim q_vec doc_vecs selected) i0 rest).
  assert (Hi : In i (i0 :: rest)) by apply best_of_in.
  apply IH.
  - apply NoDup_app; [exact Hs | repeat constructor; auto |].
    intros x Hx [<- | []]. exact (Hd _ Hx Hi).
  - apply NoDup_filter. exact Hr.
  - intros x Hx Hw. apply without_in in Hw as [Hw Hne].
    apply in_app_or in Hx as [Hx | [<- | []]]; [exact (Hd x Hx Hw) | auto].
Qed.

Lemma select_length (steps : nat) (selected remaining : list nat) :
  NoDup remaining ->
  List.length (Retriever.select lambda sim q_vec doc_vecs steps selected remaining)
  = (List.length selected + Nat.min steps (List.length remaining))%nat.
Proof.
  revert selected remaining.
  induction steps as [| steps IH]; intros selected remaining Hr.
  - simpl. lia.
  - destruct remaining as [| i0 rest]; [simpl; lia|].
    cbn [Retriever.select].
    set (i := Retriever.best_of
              (Retriever.mmr_score lambda sim q_vec doc_vecs selected) i0 rest).
    assert (Hi : In i (i0 :: rest)) by apply best_of_in.
    rewrite IH by (apply NoDup_filter; exact Hr).
    rewrite length_app.
    pose proof (without_length i (i0 :: rest) Hr Hi) as Hl.
    cbn [List.length] in *. lia.
Qed.

Lemma first_score (i : nat) :
  (Retriever.mmr_score lambda sim q_vec doc_vecs [] i
   == lambda * Retriever.relevance sim q_vec doc_vecs i)%Q.
Proof. unfold Retriever.mmr_score. simpl. ring. Qed.
End Selection.

(** C2.  For a pool that is not empty and [k >= 1], the selection of
    [mmr] repeats no index, has [min(k, |pool|)] elements, all of them pool
    indices, and starts with the candidate most similar to the query (the
    earliest such candidate if several are equally similar); for [k = 1]
    it is that candidate alone.  The weight is positive. *)
Theorem mmr_selects_distinct_best_first (lambda : Q)
    (sim : vector -> vector -> Q) (q_vec : vector) (doc_vecs : list vector)
    (docs : list string) (k : nat) :
  docs <> [] -> (1 <= k)%nat -> (0 < lambda)%Q ->
  let n := List.length docs in
  let rel := Retriever.relevance sim q_vec doc_vecs in
  let out := Retriever.mmr lambda sim q_vec doc_vecs docs k in
  NoDup out /\
  List.length out = Nat.min k n /\
  (forall i, In i out -> (i < n)%nat) /\
  exists best tail,
    out = best :: tail /\
    (best < n)%nat /\
    (forall i, (i < n)%nat -> (rel i <= rel best)%Q) /\
    (forall i, (i < best)%nat -> (rel i < rel best)%Q) /\
    (k = 1%nat -> out = [best]).
Proof.
  intros Hdocs Hk Hlam n rel out.
  assert (Hn : (1 <= n)%nat).
  { unfold n. destruct docs; [congruence | simpl; lia]. }
  split; [|split; [|split]].
  - apply select_nodup; [constructor | apply seq_NoDup | intros x []].
  - unfold out, Retriever.mmr. rewrite select_length by apply seq_NoDup.
    rewrite length_seq. simpl. unfold n. lia.
  - intros i Hi. apply select_in in Hi as [[] | Hi].
    apply in_seq in Hi. fold n in Hi. lia.
  - unfold out, Retriever.mmr. fold n.
    destruct n as [| n']; [lia|].
    destruct (Nat.min k (Datatypes.S n')) as [| m] eqn:Em; [lia|].
    cbn [seq Retriever.select app].
    set (f := Retriever.mmr_score lambda sim q_vec doc_vecs []).
    set (best := Retriever.best_of f 0%nat (seq 1 n')).
    destruct (best_of_seq f 0 n' 0 1) as [Hb [Hmax Hfirst]].
    + lia.
    + intros i Hi. assert (i = 0%nat) as -> by lia. apply Qle_refl.
    + intros i Hi. lia.
    + fold best in Hb, Hmax, Hfirst.
      destruct (select_extends lambda sim q_vec doc_vecs m [best]
                  (Retriever.without best (0%nat :: seq 1 n'))) as [tail Ht].
      exists best, tail. split; [exact Ht|]. split; [lia|].
      split; [|split].
      * intros i Hi. specialize (Hmax i ltac:(lia)). unfold f in Hmax.
        rewrite !first_score in Hmax.
        apply (Qmult_le_l _ _ lambda Hlam). exact Hmax.
      * intros i Hi. specialize (Hfirst i ltac:(lia)). unfold f in Hfirst.
        rewrite !first_score in Hfirst.
        apply (Qmult_lt_l _ _ lambda Hlam). exact Hfirst.
      * intros ->. assert (m = 0%nat) as -> by lia. reflexivity.
Qed.

Lemma mmr_selects_distinct_best_first_witness :
  Retriever.mmr (1 # 2) Sample.dot [1 # 1] [[1 # 1]; [3 # 1]; [3 # 1]]
    ["a"; "b"; "c"]%string 2 = [1; 0]%nat /\
  NoDup (Retriever.mmr (1 # 2) Sample.dot [1 # 1] [[1 # 1]; [3 # 1]; [3 # 1]]
           ["a"; "b"; "c"]%string 2).
Proof.
  split; [reflexivity|].
  apply (mmr_selects_distinct_best_first (1 # 2) Sample.dot [1 # 1]
           [[1 # 1]; [3 # 1]; [3 # 1]] ["a"; "b"; "c"]%string 2);
    [discriminate | lia | reflexivity].
Defined.

(** ** The ask pipeline *)

Section TraceFacts.
Context {St : Type}.
Variable h : handler St.

Lemma in_trace_bind {A B} (p : prog A) (f : A -> prog B) (s : St) (c : call) :
  In c (trace h (bind p f) s) ->
  In c (trace h p s) \/
  exists a, outcome h p s = inr a /\ In c (trace h (f a) (final h p s)).
Proof.
  rewrite trace_bind. destruct (outcome h p s) as [e | a]; [auto|].
  intros H. apply in_app_or in H as [H | H]; [auto|].
  right. exists a. auto.
Qed.

Lemma in_trace_do {R} (c0 : call) (k : result (reply c0) -> prog R) (s : St)
    (c : call) :
  In c (trace h (Do c0 k) s) ->
  c = c0 \/ In c (trace h (k (snd (h c0 s))) (fst (h c0 s))).
Proof.
  unfold trace. simpl. destruct (h c0 s) as [s1 r]. simpl.
  destruct (run h (k r) s1) as [[s2 t] o]. simpl. intros [<- | H]; auto.
Qed.

Lemma trace_lift {A} (r : result A) (s : St) : trace h (lift r) s = [].
Proof. unfold trace. rewrite run_lift. reflexivity. Qed.

Lemma hybrid_search_calls (S : Settings) (p qt : string) (qv : vector) (k : Z)
    (s : St) (c : call) :
  In c (trace h (ElasticMemory.hybrid_search S p qt qv k) s) ->
  c = IndicesExists (elastic_index S) \/
  c = IndicesCreate (elastic_index S) (ElasticMemory.mapping S) \/
  c = Search (elastic_index S) (ElasticMemory.hybrid_body p qt qv k) \/
  c = Search (elastic_index S) (ElasticMemory.fallback_body p qt qv k).
Proof.
  unfold ElasticMemory.hybrid_search, ElasticMemory.hybrid_hits. intros H.
  apply in_trace_bind in H as [H | [items [_ H]]].
  2:{ apply in_trace_bind in H as [H | [results [_ H]]];
        [rewrite trace_lift in H; destruct H|].
      apply in_trace_bind in H as [H | [[] [_ H]]];
        [rewrite trace_lift in H; destruct H | destruct H]. }
  apply in_trace_bind in H as [H | [[] [_ H]]].
  { apply ensure_index_calls in H. tauto. }
  apply in_trace_bind in H as [H | [res [_ H]]];
    [| rewrite trace_lift in H; destruct H].
  apply in_trace_do in H as [-> | H]; [tauto|].
  destruct (snd (h _ _)) as [e | res].
  - apply in_trace_do in H as [-> | H]; [tauto|].
    rewrite trace_lift in H. destruct H.
  - destruct H.
Qed.

Lemma embed_all_calls (docs : list string) (s : St) (c : call) :
  In c (trace h (Main.embed_all docs) s) -> exists t, c = GetEmbedding t.
Proof.
  revert s. induction docs as [| d docs IH]; intros s; [intros []|].
  cbn [Main.embed_all].
  intros H. apply in_trace_bind in H as [H | [v [_ H]]].
  - apply in_trace_do in H as [-> | H]; [eauto|].
    rewrite trace_lift in H. destruct H.
  - apply in_trace_bind in H as [H | [vs [_ H]]]; [eapply IH; exact H|].
    destruct H.
Qed.

Variable S : Settings.
Variable tok : string -> nat.
Variable lambda : Q.
Variable sim : vector -> vector -> Q.

Lemma ask_context_calls (req : AskRequest) (s : St) (index : string)
    (body : json) :
  In (Search index body) (trace h (Main.ask_context S tok lambda sim req) s) ->
  exists q_vec,
    index = elastic_index S /\
    (body = ElasticMemory.hybrid_body (project_id req) (query req) q_vec
              (Z.max 15 (k req)) \/
     body = ElasticMemory.fallback_body (project_id req) (query req) q_vec
              (Z.max 15 (k req))).
Proof.
  unfold Main.ask_context. intros H.
  apply in_trace_bind in H as [H | [q_vec [_ H]]].
  { apply in_trace_do in H as [H | H]; [discriminate|].
    rewrite trace_lift in H. destruct H. }
  apply in_trace_bind in H as [H | [hits [_ H]]].
  { apply hybrid_search_calls in H as [H | [H | [H | H]]];
      try discriminate; injection H as -> ->; eauto. }
  apply in_trace_bind in H as [H | [docs [_ H]]];
    [rewrite trace_lift in H; destruct H|].
  destruct docs as [| d docs]; [destruct H|].
  apply in_trace_bind in H as [H | [doc_vecs [_ H]]].
  { apply embed_all_calls in H as [t H]. discriminate. }
  apply in_trace_bind in H as [H | [sel [_ H]]];
    [rewrite trace_lift in H; destruct H | destruct H].
Qed.

Lemma ask_context_inr (req : AskRequest) (s : St) (ctx : string) (used : Z)
    (sel : list string) :
  outcome h (Main.ask_context S tok lambda sim req) s = inr (ctx, used, sel) ->
  used = Z.of_nat (List.length sel) /\
  ctx = Main.assemble tok (token_budget S) sel /\
  exists q_vec doc_vecs docs,
    rmap (Main.doc_at docs)
         (Retriever.mmr lambda sim q_vec doc_vecs docs
            (Nat.min 10 (List.length docs))) = inr sel.
Proof.
  unfold Main.ask_context. intros H.
  apply outcome_bind_inr in H as [q_vec [_ H]].
  apply outcome_bind_inr in H as [hits [_ H]].
  apply outcome_bind_inr in H as [docs [_ H]].
  destruct docs as [| d docs].
  - unfold outcome in H. simpl in H. injection H as <- <- <-.
    repeat split. exists q_vec, [], []. reflexivity.
  - apply outcome_bind_inr in H as [doc_vecs [_ H]].
    apply outcome_bind_inr in H as [sel' [H1 H2]].
    unfold outcome in H1, H2. rewrite run_lift in H1. simpl in H1, H2.
    injection H2 as <- <- <-. repeat split.
    exists q_vec, doc_vecs, (d :: docs). exact H1.
Qed.
End TraceFacts.

Lemma mmr_length (lambda : Q) (sim : vector -> vector -> Q) (q_vec : vector)
    (doc_vecs : list vector) (docs : list string) (k : nat) :
  List.length (Retriever.mmr lambda sim q_vec doc_vecs docs k)
  = Nat.min k (List.length docs).
Proof.
  unfold Retriever.mmr. rewrite select_length by apply seq_NoDup.
  rewrite length_seq. simpl. lia.
Qed.

Lemma rmap_length {A B} (f : A -> result B) (l : list A) (bs : list B) :
  rmap f l = inr bs -> List.length bs = List.length l.
Proof.
  intros H. apply rmap_inr in H. symmetry. eapply Forall2_length. exact H.
Qed.

(** C7.  [used_snippets] is the size of the selection, counted before the
    budget loop runs, in every run of [ask].  With two memories selected
    and room for one, the context holds one memory and the response
    reports two. *)
Theorem used_snippets_counts_the_selection :
  (forall (St : Type) (h : handler St) (S : Settings) (tok : string -> nat)
          (lambda : Q) (sim : vector -> vector -> Q) (req : AskRequest)
          (s : St) (ctx : string) (used : Z) (sel : list string),
     outcome h (Main.ask_context S tok lambda sim req) s = inr (ctx, used, sel) ->
     used = Z.of_nat (List.length sel) /\
     ctx = join (nl ++ nl) (Main.fill tok (token_budget S) [] sel)) /\
  outcome Store.serve
    (Main.ask_context Sample.tight (chars_per_token 4) (1 # 2) Sample.dot
       Sample.question) (Sample.seeded true)
  = inr ("aaaaaaa"%string, 2, ["aaaaaaa"; "bbbbbbb"]%string) /\
  Main.fill (chars_per_token 4) (token_budget Sample.tight) []
    ["aaaaaaa"; "bbbbbbb"]%string = ["aaaaaaa"%string] /\
  match outcome Store.serve
          (Main.ask Sample.tight (chars_per_token 4) (1 # 2) Sample.dot
             Sample.question) (Sample.seeded true) with
  | inr resp => used_snippets resp = 2
  | inl _ => False
  end.
Proof.
  split.
  - intros St h S tok lambda sim req s ctx used sel H.
    apply ask_context_inr in H as [Hu [Hc _]]. auto.
  - repeat split; vm_compute; reflexivity.
Qed.

(* ===================================================================== *)
(** * Further properties                                                  *)
(* ===================================================================== *)

(** ** The store client, beyond the claims *)

Lemma run_perform {St : Type} (h : handler St) (c : call) (s : St) :
  run h (perform c) s = (fst (h c s), [c], snd (h c s)).
Proof.
  unfold perform. simpl. destruct (h c s) as [s1 [e | a]]; reflexivity.
Qed.

Lemma ensure_index_quiet {St : Type} (h : handler St) (S : Settings) (s : St) :
  Calls.searched (trace h (ElasticMemory.ensure_index S) s) = [] /\
  Calls.indexed (trace h (ElasticMemory.ensure_index S) s) = [] /\
  Calls.embedded (trace h (ElasticMemory.ensure_index S) s) = [] /\
  Calls.generated (trace h (ElasticMemory.ensure_index S) s) = [].
Proof.
  unfold trace. rewrite run_ensure_index.
  destruct (h (IndicesExists (elastic_index S)) s) as [s1 [e | [|]]];
    [repeat split | repeat split |].
  destruct (h (IndicesCreate (elastic_index S) (ElasticMemory.mapping S)) s1)
    as [s2 r2]. repeat split.
Qed.

Lemma run_hybrid_hits_primary {St : Type} (h : handler St)
    (S : Settings) (p qt : string) (qv : vector) (k : Z)
    (s s0 s1 : St) (t0 : list call) (res : json) :
  run h (ElasticMemory.ensure_index S) s = (s0, t0, inr tt) ->
  h (Search (elastic_index S) (ElasticMemory.hybrid_body p qt qv k)) s0
    = (s1, inr res) ->
  run h (ElasticMemory.hybrid_hits S p qt qv k) s =
    (s1, t0 ++ [Search (elastic_index S) (ElasticMemory.hybrid_body p qt qv k)],
     ElasticMemory.hits_of_response res).
Proof.
  intros H0 H1. unfold ElasticMemory.hybrid_hits.
  rewrite run_bind, H0, run_bind. cbn [run]. rewrite H1. cbn [run].
  rewrite run_lift. reflexivity.
Qed.

Lemma run_hybrid_search_of_hits {St : Type} (h : handler St)
    (S : Settings) (p qt : string) (qv : vector) (k : Z)
    (s s1 : St) (t : list call) (res : json) :
  run h (ElasticMemory.hybrid_hits S p qt qv k) s
    = (s1, t, ElasticMemory.hits_of_response res) ->
  run h (ElasticMemory.hybrid_search S p qt qv k) s
    = (s1, t, ElasticMemory.results_of_response res).
Proof.
  intros H. unfold ElasticMemory.hybrid_search. rewrite run_bind, H.
  unfold ElasticMemory.results_of_response, ElasticMemory.extract_results.
  destruct (ElasticMemory.hits_of_response res) as [e | items]; cbn [rbind];
    [reflexivity|].
  rewrite run_bind, run_lift.
  destruct (rmap ElasticMemory.hit_of items) as [e | results]; cbn [rbind].
  { rewrite app_nil_r. reflexivity. }
  rewrite run_bind, run_lift.
  destruct (ElasticMemory.report results) as [e | []]; cbn;
    rewrite ?app_nil_r; reflexivity.
Qed.

Lemma run_hybrid_search_primary {St : Type} (h : handler St)
    (S : Settings) (p qt : string) (qv : vector) (k : Z)
    (s s0 s1 : St) (t0 : list call) (res : json) :
  run h (ElasticMemory.ensure_index S) s = (s0, t0, inr tt) ->
  h (Search (elastic_index S) (ElasticMemory.hybrid_body p qt qv k)) s0
    = (s1, inr res) ->
  run h (ElasticMemory.hybrid_search S p qt qv k) s =
    (s1,
     t0 ++ [Search (elastic_index S) (ElasticMemory.hybrid_body p qt qv k)],
     ElasticMemory.results_of_response res).
Proof.
  intros H0 H1. apply run_hybrid_search_of_hits.
  apply (run_hybrid_hits_primary h S p qt qv k s s0 s1 t0 res H0 H1).
Qed.

(** X1.  When the first, fused request is answered, [hybrid_search] sends
    no other search request: its calls are those of [ensure_index] and that
    one request, and its outcome is read from that response. *)
Theorem primary_success_sends_one_search {St : Type} (h : handler St)
    (S : Settings) (p qt : string) (qv : vector) (k : Z)
    (s s0 s1 : St) (t0 : list call) (res : json) :
  run h (ElasticMemory.ensure_index S) s = (s0, t0, inr tt) ->
  h (Search (elastic_index S) (ElasticMemory.hybrid_body p qt qv k)) s0
    = (s1, inr res) ->
  run h (ElasticMemory.hybrid_search S p qt qv k) s =
    (s1,
     t0 ++ [Search (elastic_index S) (ElasticMemory.hybrid_body p qt qv k)],
     ElasticMemory.results_of_response res) /\
  Calls.searched (trace h (ElasticMemory.hybrid_search S p qt qv k) s)
    = [ElasticMemory.hybrid_body p qt qv k].
Proof.
  intros H0 H1.
  pose proof (run_hybrid_search_primary h S p qt qv k s s0 s1 t0 res H0 H1)
    as Hrun.
  split; [exact Hrun|].
  unfold trace. rewrite Hrun. cbn [fst snd].
  assert (Ht0 : t0 = trace h (ElasticMemory.ensure_index S) s)
    by (unfold trace; rewrite H0; reflexivity).
  unfold Calls.searched. rewrite flat_map_app.
  fold (Calls.searched t0). rewrite Ht0.
  rewrite (proj1 (ensure_index_quiet h S s)). reflexivity.
Qed.

Lemma primary_success_sends_one_search_witness :
  Calls.searched
    (trace Store.serve
       (ElasticMemory.hybrid_search Sample.settings "u1" "where" [1 # 1] 8)
       (Sample.seeded true))
  = [ElasticMemory.hybrid_body "u1" "where" [1 # 1] 8].
Proof.
  eapply proj2.
  eapply (primary_success_sends_one_search Store.serve Sample.settings
            "u1" "where" [1 # 1] 8 (Sample.seeded true) (Sample.seeded true)
            (Sample.seeded true) [IndicesExists "memora"]);
    reflexivity.
Defined.

(** X2.  When [ensure_index] fails, the function that called it stops
    there with the same exception: [upsert_chunk] writes nothing, and
    [knn_search] and [hybrid_search] send no search request. *)
Theorem failed_provisioning_stops_the_call {St : Type} (h : handler St)
    (S : Settings) (p t qt : string) (v : vector)
    (tags : option (list string)) (k : Z) (s : St) (e : exn) :
  outcome h (ElasticMemory.ensure_index S) s = inl e ->
  (outcome h (ElasticMemory.upsert_chunk S p t v tags) s = inl e /\
   Calls.indexed (trace h (ElasticMemory.upsert_chunk S p t v tags) s) = []) /\
  (outcome h (ElasticMemory.knn_search S p v k) s = inl e /\
   Calls.searched (trace h (ElasticMemory.knn_search S p v k) s) = []) /\
  (outcome h (ElasticMemory.hybrid_search S p qt v k) s = inl e /\
   Calls.searched (trace h (ElasticMemory.hybrid_search S p qt v k) s) = []).
Proof.
  intros He.
  destruct (ensure_index_quiet h S s) as [Hs [Hi _]].
  unfold ElasticMemory.upsert_chunk, ElasticMemory.knn_search,
    ElasticMemory.knn_hits, ElasticMemory.hybrid_search,
    ElasticMemory.hybrid_hits.
  repeat split;
    rewrite ?outcome_bind, ?trace_bind, ?outcome_bind, ?trace_bind, He;
    auto.
Qed.

Lemma failed_provisioning_stops_the_call_witness :
  outcome (Calls.failing (ConnectionError "refused"))
    (ElasticMemory.hybrid_search Sample.settings "u1" "where" [1 # 1] 8) tt
  = inl (ConnectionError "refused") /\
  Calls.searched
    (trace (Calls.failing (ConnectionError "refused"))
       (ElasticMemory.hybrid_search Sample.settings "u1" "where" [1 # 1] 8) tt)
  = [].
Proof.
  apply (failed_provisioning_stops_the_call
           (Calls.failing (ConnectionError "refused")) Sample.settings
           "u1" "t" "where" [1 # 1] None 8 tt (ConnectionError "refused")).
  reflexivity.
Defined.

(** X3.  The two searches read a response differently.  On a response
    without a [hits] key, [knn_search] raises [KeyError], while
    [hybrid_search] takes it for a response without hits and returns the
    empty list. *)
Theorem missing_hits_key {St : Type} (h : handler St) (S : Settings)
    (p qt : string) (qv : vector) (k : Z) (s : St)
    (kv : list (string * json)) :
  outcome h (ElasticMemory.ensure_index S) s = inr tt ->
  lookup "hits" kv = None ->
  (snd (h (Search (elastic_index S) (ElasticMemory.knn_body p qv k))
          (final h (ElasticMemory.ensure_index S) s)) = inr (JDict kv) ->
   outcome h (ElasticMemory.knn_search S p qv k) s = inl (KeyError "hits")) /\
  (snd (h (Search (elastic_index S) (ElasticMemory.hybrid_body p qt qv k))
          (final h (ElasticMemory.ensure_index S) s)) = inr (JDict kv) ->
   outcome h (ElasticMemory.hybrid_search S p qt qv k) s = inr []).
Proof.
  intros He Hkv. split; intros Hres.
  - unfold ElasticMemory.knn_search, ElasticMemory.knn_hits.
    rewrite !outcome_bind, He. unfold outcome at 1. rewrite run_perform.
    cbn [snd]. rewrite Hres. rewrite final_bind, He.
    unfold outcome. rewrite run_lift. cbn. rewrite Hkv. reflexivity.
  - unfold outcome, final in *.
    destruct (run h (ElasticMemory.ensure_index S) s) as [[s0 t0] r0] eqn:E0.
    cbn [fst snd] in *. subst r0.
    destruct (h (Search (elastic_index S) (ElasticMemory.hybrid_body p qt qv k)) s0)
      as [s1 r1] eqn:E1. cbn [snd] in Hres. subst r1.
    rewrite (run_hybrid_search_primary h S p qt qv k s s0 s1 t0 (JDict kv) E0 E1).
    cbn [snd].
    unfold ElasticMemory.results_of_response, ElasticMemory.extract_results,
      ElasticMemory.hits_of_response, py_get.
    rewrite Hkv. reflexivity.
Qed.

Lemma missing_hits_key_witness :
  outcome (Calls.canned (inr (JDict [("took"%string, JInt 3)])))
    (ElasticMemory.knn_search Sample.settings "u1" [1 # 1] 8) tt
  = inl (KeyError "hits") /\
  outcome (Calls.canned (inr (JDict [("took"%string, JInt 3)])))
    (ElasticMemory.hybrid_search Sample.settings "u1" "where" [1 # 1] 8) tt
  = inr [].
Proof.
  destruct (missing_hits_key (Calls.canned (inr (JDict [("took"%string, JInt 3)])))
              Sample.settings "u1" "where" [1 # 1] 8 tt
              [("took"%string, JInt 3)] eq_refl eq_refl) as [Hk Hh].
  split; [apply Hk | apply Hh]; reflexivity.
Defined.

(** X4.  In each of the three requests the knn clause asks for no more
    neighbours than it has candidates, whatever [k] is.  The two requests
    of [hybrid_search] ask for [max(3k, 15)] neighbours, which is also
    their page size and the rank window of the fused one, out of at least
    60 candidates; [knn_search] asks for [k] out of at least 20. *)
Theorem knn_candidates_cover_k (p qt : string) (qv : vector) (k : Z) :
  (exists n m,
     Request.knn_params (ElasticMemory.hybrid_body p qt qv k) = Some (n, m) /\
     n <= m /\ 60 <= m /\ 15 <= n /\ 3 * k <= n /\
     Store.body_size (ElasticMemory.hybrid_body p qt qv k) = Some n /\
     Request.int_at ["rank"; "rrf"; "rank_window_size"]%string
       (ElasticMemory.hybrid_body p qt qv k) = Some n) /\
  (exists n m,
     Request.knn_params (ElasticMemory.fallback_body p qt qv k) = Some (n, m) /\
     n <= m /\ 60 <= m /\ 15 <= n /\ 3 * k <= n /\
     Store.body_size (ElasticMemory.fallback_body p qt qv k) = Some n) /\
  (exists m,
     Request.knn_params (ElasticMemory.knn_body p qv k) = Some (k, m) /\
     k <= m /\ 20 <= m /\
     Store.body_size (ElasticMemory.knn_body p qv k) = Some k).
Proof.
  split; [|split].
  - exists (Z.max (k * 3) 15), (Z.max 60 (k * 10)).
    repeat split; try reflexivity; lia.
  - exists (Z.max (k * 3) 15), (Z.max 60 (k * 10)).
    repeat split; try reflexivity; lia.
  - exists (Z.max 20 (k * 5)). repeat split; try reflexivity; lia.
Qed.

(** ** Reading a response *)

Lemma well_formed_hit_of (j : json) :
  Response.well_formed j = true ->
  ElasticMemory.hit_of j = inr (Response.projection j) /\
  rbind (ElasticMemory.format_float (score (Response.projection j)))
        (fun _ => ElasticMemory.slice (text (Response.projection j))) = inr tt.
Proof.
  unfold Response.well_formed, Response.projection, ElasticMemory.hit_of,
    Store.source_field, Store.raw_score.
  destruct j as [| | | | | |kv]; cbn; try discriminate.
  destruct (lookup "_source" kv) as [src |]; cbn; [|discriminate].
  destruct src as [| | | | | |kv']; cbn; try discriminate.
  destruct (lookup "text" kv') as [[| | | |t| |] |]; cbn; try discriminate.
  destruct (lookup "_score" kv) as [[| | z | | | |] |]; cbn; try discriminate;
    auto.
  intros Hz. rewrite Hz. auto.
Qed.

Lemma well_formed_hits_project (items : list json) :
  forallb Response.well_formed items = true ->
  rmap ElasticMemory.hit_of items = inr (map Response.projection items) /\
  rmap (fun r => rbind (ElasticMemory.format_float (score r))
                       (fun _ => ElasticMemory.slice (text r)))
       (map Response.projection items)
  = inr (map (fun _ => tt) items).
Proof.
  induction items as [| j items IH]; cbn [forallb rmap map]; [auto|].
  intros H. apply andb_prop in H as [Hj Hrest].
  destruct (IH Hrest) as [IH1 IH2].
  destruct (well_formed_hit_of j Hj) as [H1 H2].
  rewrite H1, IH1, H2, IH2. auto.
Qed.

Lemma forallb_firstn {A} (f : A -> bool) (n : nat) (l : list A) :
  forallb f l = true -> forallb f (firstn n l) = true.
Proof.
  revert l. induction n as [| n IH]; intros [| a l]; cbn; auto.
  intros H. apply andb_prop in H as [Ha Hl]. rewrite Ha. cbn. auto.
Qed.

Lemma hits_of_listed_response (res : json) (items : list json) :
  Store.path ["hits"; "hits"]%string res = Some (JList items) ->
  ElasticMemory.hits_of_response res = inr items.
Proof.
  unfold ElasticMemory.hits_of_response. cbn [Store.path].
  destruct res as [| | | | | |kv]; cbn [Store.field]; try discriminate.
  cbn [py_get]. destruct (lookup "hits" kv) as [outer |]; [|discriminate].
  destruct outer as [| | | | | |kv']; cbn [Store.field]; try discriminate.
  cbn [rbind returned py_get].
  destruct (lookup "hits" kv') as [hs |]; [|discriminate].
  intros H. injection H as ->. reflexivity.
Qed.

Lemma well_formed_results (res : json) (items : list json) :
  Store.path ["hits"; "hits"]%string res = Some (JList items) ->
  forallb Response.well_formed items = true ->
  ElasticMemory.results_of_response res = inr (map Response.projection items).
Proof.
  intros Hres H.
  unfold ElasticMemory.results_of_response, ElasticMemory.extract_results.
  rewrite (hits_of_listed_response res items Hres). cbn [rbind].
  rewrite (proj1 (well_formed_hits_project items H)). cbn [rbind].
  unfold ElasticMemory.report. rewrite firstn_map.
  rewrite (proj2 (well_formed_hits_project (firstn 5 items)
                    (forallb_firstn _ 5 items H))).
  reflexivity.
Qed.



(** ** Writing a chunk *)

Lemma run_upsert_chunk {St : Type} (h : handler St) (S : Settings)
    (p t : string) (v : vector) (tags : option (list string))
    (s s0 : St) (t0 : list call) :
  run h (ElasticMemory.ensure_index S) s = (s0, t0, inr tt) ->
  run h (ElasticMemory.upsert_chunk S p t v tags) s =
    (fst (h (Index (elastic_index S)
               (ElasticMemory.chunk_document p t v tags) "wait_for") s0),
     t0 ++ [Index (elastic_index S)
              (ElasticMemory.chunk_document p t v tags) "wait_for"],
     rbind (snd (h (Index (elastic_index S)
                      (ElasticMemory.chunk_document p t v tags) "wait_for") s0))
           (fun res => py_getitem res "_id")).
Proof.
  intros H0. unfold ElasticMemory.upsert_chunk.
  rewrite run_bind, H0, run_bind, run_perform.
  destruct (h (Index (elastic_index S)
                 (ElasticMemory.chunk_document p t v tags) "wait_for") s0)
    as [s1 [e | res]]; cbn [fst snd rbind]; [reflexivity|].
  rewrite run_lift. reflexivity.
Qed.

(** X6.  Once the store has accepted the document, [upsert_chunk] returns
    the [_id] of the store's answer.  If the answer carries no [_id] it
    raises [KeyError], and the document stays written: the store is left
    in the state the write produced. *)
Theorem upsert_chunk_returns_store_id {St : Type} (h : handler St)
    (S : Settings) (p t : string) (v : vector) (tags : option (list string))
    (s s0 s1 : St) (t0 : list call) (kv : list (string * json)) :
  run h (ElasticMemory.ensure_index S) s = (s0, t0, inr tt) ->
  h (Index (elastic_index S) (ElasticMemory.chunk_document p t v tags)
       "wait_for") s0 = (s1, inr (JDict kv)) ->
  final h (ElasticMemory.upsert_chunk S p t v tags) s = s1 /\
  Calls.indexed (trace h (ElasticMemory.upsert_chunk S p t v tags) s)
    = [ElasticMemory.chunk_document p t v tags] /\
  outcome h (ElasticMemory.upsert_chunk S p t v tags) s =
    match lookup "_id" kv with
    | Some id => inr id
    | None => inl (KeyError "_id")
    end.
Proof.
  intros H0 H1. unfold final, trace, outcome.
  rewrite (run_upsert_chunk h S p t v tags s s0 t0 H0), H1. cbn [fst snd].
  split; [reflexivity|]. split.
  - unfold Calls.indexed. rewrite flat_map_app. fold (Calls.indexed t0).
    assert (Ht0 : t0 = trace h (ElasticMemory.ensure_index S) s)
      by (unfold trace; rewrite H0; reflexivity).
    rewrite Ht0, (proj1 (proj2 (ensure_index_quiet h S s))). reflexivity.
  - cbn. destruct (lookup "_id" kv); reflexivity.
Qed.

Lemma upsert_chunk_returns_store_id_witness :
  outcome Store.serve
    (ElasticMemory.upsert_chunk Sample.settings "u1" "Alice lives in Paris."
       [1 # 1] None) (Sample.seeded true)
  = inr (JStr "doc3") /\
  outcome (Calls.canned (inr JNull))
    (ElasticMemory.upsert_chunk Sample.settings "u1" "Alice lives in Paris."
       [1 # 1] None) tt
  = inl (KeyError "_id").
Proof.
  split.
  - eapply proj2, proj2.
    eapply (upsert_chunk_returns_store_id Store.serve Sample.settings
              "u1" "Alice lives in Paris." [1 # 1] None
              (Sample.seeded true) (Sample.seeded true) _
              [IndicesExists "memora"]
              [("_id"%string, JStr "doc3"); ("result"%string, JStr "created")]);
      reflexivity.
  - eapply proj2, proj2.
    eapply (upsert_chunk_returns_store_id (Calls.canned (inr JNull))
              Sample.settings "u1" "Alice lives in Paris." [1 # 1] None
              tt tt tt [IndicesExists "memora"] []);
      reflexivity.
Defined.

(** X7.  [knn_search] returns at most [k] results, none for [k <= 0], and
    their scores never increase along the returned order, given a store
    that respects [size] and ranks by score. *)
Theorem knn_search_bounded_and_ranked {St : Type} (h : handler St)
    (S : Settings) (p : string) (qv : vector) (k : Z) (s : St)
    (results : list hit) :
  Store.honours_size h ->
  Store.orders_by_score h ->
  outcome h (ElasticMemory.knn_search S p qv k) s = inr results ->
  Z.of_nat (List.length results) <= Z.max 0 k /\
  Store.non_increasing (map score results).
Proof.
  intros Hsize Hord H.
  apply knn_search_inr in H as [items [Hi Hr]].
  apply knn_hits_inr in Hi as [s1 [res [Hres Hh]]].
  pose proof (knn_items_sound res items results Hh Hr) as ->.
  apply rmap_inr, forall2_hit_scores in Hr as [Hl Hs].
  rewrite Hl, Hs. split.
  - exact (Hsize s1 _ _ res k Hres eq_refl).
  - exact (Hord s1 _ _ res Hres eq_refl).
Qed.

Lemma knn_search_bounded_and_ranked_witness :
  Z.of_nat (List.length [{| text := JStr "aaaaaaa"; score := JFloat (1 # 1) |}])
    <= Z.max 0 1 /\
  Store.non_increasing
    (map score [{| text := JStr "aaaaaaa"; score := JFloat (1 # 1) |}]).
Proof.
  apply (knn_search_bounded_and_ranked Store.serve Sample.settings
           "u1" [1 # 1] 1 (Sample.seeded true)
           [{| text := JStr "aaaaaaa"; score := JFloat (1 # 1) |}]
           serve_honours_size serve_orders_by_score).
  reflexivity.
Defined.

Lemma has_index_create (n : string) (s : Store.state) :
  Store.has_index n (Store.create_index n s) = true.
Proof.
  destruct (Store.has_index n (Store.create_index n s)) eqn:E; [reflexivity|].
  apply has_index_collections in E. rewrite collections_create in E.
  discriminate.
Qed.

Lemma docs_of_create (n : string) (s : Store.state) :
  Store.docs_of n (Store.create_index n s) = Store.docs_of n s.
Proof.
  unfold Store.docs_of, Store.create_index. cbn [Store.indices].
  rewrite filter_app, flat_map_app. cbn [filter].
  unfold Store.named at 2. cbn [Store.index_name]. rewrite String.eqb_refl.
  cbn. apply app_nil_r.
Qed.

Lemma serve_search_project (name p : string) (body : json) (n : Z)
    (s : Store.state) :
  Store.body_term_filters body = [("project_id"%string, JStr p)] ->
  Store.body_size body = Some n ->
  Store.rejects body s = false ->
  Store.has_index name s = true ->
  Z.of_nat (List.length (Stored.of_project name p s)) <= n ->
  exists res,
    Store.serve (Search name body) s = (s, inr res) /\
    Store.path ["hits"; "hits"]%string res
      = Some (JList (map (Store.hit_json body) (Stored.of_project name p s))).
Proof.
  intros Hf Hn Hrej Hhas Hlen. cbn [Store.serve]. unfold Store.search.
  rewrite Hrej, Hhas, Hf, Hn. eexists. split; [reflexivity|].
  unfold Stored.of_project in *.
  rewrite firstn_all2 by lia. reflexivity.
Qed.

Lemma chunk_hit_projection (body : json) (id p t : string) (v : vector)
    (tags : option (list string)) :
  Store.returns_field body "text" = true ->
  Response.well_formed
    (Store.hit_json body (id, ElasticMemory.chunk_document p t v tags)) = true /\
  Response.projection
    (Store.hit_json body (id, ElasticMemory.chunk_document p t v tags))
  = {| text := JStr t; score := JFloat (1 # 1) |}.
Proof.
  intros Hret.
  assert (Ht : Store.source_field
                 (Store.hit_json body (id, ElasticMemory.chunk_document p t v tags))
                 "text" = Some (JStr t)).
  { unfold Store.source_field, Store.hit_json, ElasticMemory.chunk_document.
    cbn [Store.path Store.field lookup String.eqb Ascii.eqb Bool.eqb fst snd
         Store.keep_fields].
    rewrite (lookup_kept (Store.returns_field body) "text" _ Hret).
    reflexivity. }
  unfold Response.well_formed, Response.projection. rewrite Ht.
  split; reflexivity.
Qed.

Lemma chunk_hits_well_formed (body : json) (l : list (string * json)) :
  Store.returns_field body "text" = true ->
  (forall d, In d l -> Stored.is_chunk (snd d)) ->
  forallb Response.well_formed (map (Store.hit_json body) l) = true.
Proof.
  intros Hret Hl. apply forallb_forall. intros j Hj.
  apply in_map_iff in Hj as [[id doc] [<- Hd]].
  destruct (Hl _ Hd) as [p [t [v [tags Hdoc]]]]. cbn [snd] in Hdoc. subst doc.
  apply (chunk_hit_projection body id p t v tags Hret).
Qed.

(** What [hybrid_search] returns on the in-memory store, with or without
    rank fusion, when [ensure_index] has left state [s0], the index holds
    chunks only and the project has no more of them than the page size. *)
Lemma hybrid_search_after_ensure (S : Settings) (p qt : string) (qv : vector)
    (k : Z) (s s0 : Store.state) (t0 : list call) :
  run Store.serve (ElasticMemory.ensure_index S) s = (s0, t0, inr tt) ->
  Store.has_index (elastic_index S) s0 = true ->
  Stored.chunks_only (elastic_index S) s0 ->
  Z.of_nat (List.length (Stored.of_project (elastic_index S) p s0))
    <= Z.max (k * 3) 15 ->
  exists body rest,
    (body = ElasticMemory.hybrid_body p qt qv k \/
     body = ElasticMemory.fallback_body p qt qv k) /\
    run Store.serve (ElasticMemory.hybrid_search S p qt qv k) s
    = (s0, t0 ++ rest,
       inr (map Response.projection
              (map (Store.hit_json body)
                   (Stored.of_project (elastic_index S) p s0)))).
Proof.
  intros H0 Hhas Hchunks Hlen.
  assert (Hwf : forall body, Store.returns_field body "text" = true ->
            forallb Response.well_formed
              (map (Store.hit_json body)
                   (Stored.of_project (elastic_index S) p s0)) = true).
  { intros body Hret. apply chunk_hits_well_formed; [exact Hret|].
    intros d Hd. apply Hchunks. unfold Stored.of_project in Hd.
    apply filter_In in Hd. tauto. }
  destruct (Store.supports_rrf s0) eqn:Hrrf.
  - destruct (serve_search_project (elastic_index S) p
                (ElasticMemory.hybrid_body p qt qv k) _ s0
                eq_refl eq_refl) as [res [Hres Hpath]]; auto.
    { unfold Store.rejects. cbn. rewrite Hrrf. reflexivity. }
    exists (ElasticMemory.hybrid_body p qt qv k). eexists. split; [auto|].
    rewrite (run_hybrid_search_primary _ S p qt qv k s s0 s0 _ res H0 Hres).
    rewrite (well_formed_results res _ Hpath) by (apply Hwf; reflexivity).
    reflexivity.
  - destruct (serve_search_project (elastic_index S) p
                (ElasticMemory.fallback_body p qt qv k) _ s0
                eq_refl eq_refl) as [res [Hres Hpath]]; auto.
    assert (Hprim : Store.serve (Search (elastic_index S)
                                   (ElasticMemory.hybrid_body p qt qv k)) s0
                    = (s0, inl (ApiError 400 "unknown key [rank]"))).
    { cbn [Store.serve]. unfold Store.search, Store.rejects. cbn.
      rewrite Hrrf. reflexivity. }
    exists (ElasticMemory.fallback_body p qt qv k). eexists. split; [auto|].
    pose proof (run_hybrid_hits_fallback _ S p qt qv k s s0 s0 _ _ H0 Hprim) as Hh.
    rewrite Hres in Hh. cbn [fst snd rbind] in Hh.
    rewrite (run_hybrid_search_of_hits _ S p qt qv k s s0 _ res Hh).
    rewrite (well_formed_results res _ Hpath) by (apply Hwf; reflexivity).
    reflexivity.
Qed.

(** ** Ingestion *)

Lemma upsert_chunk_indexed {St : Type} (h : handler St) (S : Settings)
    (p t : string) (v : vector) (tags : option (list string)) (s : St) :
  (Calls.indexed (trace h (ElasticMemory.upsert_chunk S p t v tags) s) = [] /\
   exists e, outcome h (ElasticMemory.upsert_chunk S p t v tags) s = inl e) \/
  Calls.indexed (trace h (ElasticMemory.upsert_chunk S p t v tags) s)
    = [ElasticMemory.chunk_document p t v tags].
Proof.
  destruct (run h (ElasticMemory.ensure_index S) s) as [[s0 t0] [e | []]] eqn:E0.
  - left. unfold ElasticMemory.upsert_chunk.
    rewrite trace_bind, outcome_bind.
    assert (He : outcome h (ElasticMemory.ensure_index S) s = inl e)
      by (unfold outcome; rewrite E0; reflexivity).
    rewrite He. split; [apply ensure_index_quiet | eauto].
  - right. unfold trace.
    rewrite (run_upsert_chunk h S p t v tags s s0 t0 E0). cbn [fst snd].
    unfold Calls.indexed. rewrite flat_map_app. fold (Calls.indexed t0).
    assert (Ht0 : t0 = trace h (ElasticMemory.ensure_index S) s)
      by (unfold trace; rewrite E0; reflexivity).
    rewrite Ht0, (proj1 (proj2 (ensure_index_quiet h S s))). reflexivity.
Qed.

Lemma indexed_app (a b : list call) :
  Calls.indexed (a ++ b) = Calls.indexed a ++ Calls.indexed b.
Proof. apply flat_map_app. Qed.

(** X8.  The document [upsert_chunk] writes for project [p'] passes the
    project filter of a search scoped to [p] exactly when [p'] is [p]: the
    field the write sets and the field the three search requests filter on
    are the same, and both carry the project as it was given.  The only
    document a call of [upsert_chunk] writes is that document. *)
Theorem chunk_passes_its_project_filter :
  (forall (p p' t qt : string) (v qv : vector) (tags : option (list string))
          (k : Z) (body : json),
     body = ElasticMemory.hybrid_body p qt qv k \/
     body = ElasticMemory.fallback_body p qt qv k \/
     body = ElasticMemory.knn_body p qv k ->
     Store.doc_matches (Store.body_term_filters body)
       (ElasticMemory.chunk_document p' t v tags) = String.eqb p' p) /\
  (forall (St : Type) (h : handler St) (S : Settings) (p t : string)
          (v : vector) (tags : option (list string)) (s : St) (doc : json),
     In doc (Calls.indexed (trace h (ElasticMemory.upsert_chunk S p t v tags) s)) ->
     doc = ElasticMemory.chunk_document p t v tags).
Proof.
  split.
  - intros p p' t qt v qv tags k body [-> | [-> | ->]]; cbn;
      rewrite Bool.andb_true_r; reflexivity.
  - intros St h S p t v tags s doc Hin.
    destruct (upsert_chunk_indexed h S p t v tags s) as [[Hnone _] | Hone].
    + rewrite Hnone in Hin. destruct Hin.
    + rewrite Hone in Hin. destruct Hin as [<- | []]. reflexivity.
Qed.

Section Ingestion.
Context {St : Type}.
Variable h : handler St.
Variable S : Settings.
Variable pid : string.
Variable tags : list string.

Lemma ingest_chunks_written (chunks : list string) (s : St) :
  exists n,
    (n <= List.length chunks)%nat /\
    map (Store.field "text")
        (Calls.indexed (trace h (Main.ingest_chunks S pid tags chunks) s))
      = map (fun c => Some (JStr c)) (firstn n chunks) /\
    Forall (Stored.stamped pid tags)
      (Calls.indexed (trace h (Main.ingest_chunks S pid tags chunks) s)) /\
    (outcome h (Main.ingest_chunks S pid tags chunks) s = inr tt ->
     n = List.length chunks).
Proof.
  revert s. induction chunks as [| ch rest IH]; intros s.
  - exists 0%nat. cbn. auto.
  - cbn [Main.ingest_chunks].
    rewrite trace_bind, outcome_bind.
    assert (Hp : trace h (perform (GetEmbedding ch)) s = [GetEmbedding ch])
      by (unfold trace; rewrite run_perform; reflexivity).
    destruct (outcome h (perform (GetEmbedding ch)) s) as [e | emb].
    { exists 0%nat. rewrite Hp. cbn. repeat split; try lia; auto.
      discriminate. }
    set (s1 := final h (perform (GetEmbedding ch)) s).
    rewrite trace_bind, outcome_bind, Hp.
    assert (Hdoc : Stored.stamped pid tags
                     (ElasticMemory.chunk_document pid ch emb (Some tags)))
      by (split; reflexivity).
    destruct (upsert_chunk_indexed h S pid ch emb (Some tags) s1)
      as [[Hnone [e He]] | Hone].
    + rewrite He. exists 0%nat. rewrite indexed_app, Hnone. cbn.
      repeat split; try lia; auto. discriminate.
    + destruct (outcome h (ElasticMemory.upsert_chunk S pid ch emb (Some tags)) s1)
        as [e | id].
      * exists 1%nat. rewrite indexed_app, Hone. cbn.
        repeat split; try lia; auto. discriminate.
      * destruct (IH (final h (ElasticMemory.upsert_chunk S pid ch emb
                                 (Some tags)) s1))
          as [n [Hn [Htexts [Hall Hdone]]]].
        exists (Datatypes.S n).
        rewrite !indexed_app, Hone. cbn [Calls.indexed flat_map app map firstn].
        change (flat_map _ ?l) with (Calls.indexed l).
        rewrite Htexts. cbn [List.length].
        repeat split; [lia | | auto].
        constructor; [exact Hdoc | exact Hall].
Qed.
End Ingestion.

(** X9.  Whatever happens during [ingest], the documents it has written are
    those of a prefix of the chunks, one per chunk and in chunk order, each
    under the request's project and with the request's tags (none when the
    request has no tags).  When [ingest] returns, every chunk has been
    written and the reported count is the number of chunks; when a call
    fails, the chunks written before stay written. *)
Theorem ingest_writes_chunks_in_order {St : Type} (h : handler St)
    (S : Settings) (chunk_text : string -> list string) (req : IngestRequest)
    (s : St) :
  let chunks := chunk_text (ingest_text req) in
  let written := Calls.indexed (trace h (Main.ingest S chunk_text req) s) in
  exists n,
    (n <= List.length chunks)%nat /\
    map (Store.field "text") written
      = map (fun c => Some (JStr c)) (firstn n chunks) /\
    Forall (Stored.stamped (ingest_project_id req)
              (ElasticMemory.tags_or_empty (ingest_tags req))) written /\
    forall r, outcome h (Main.ingest S chunk_text req) s = inr r ->
      n = List.length chunks /\
      r = JDict [("ingested_chunks"%string, JInt (Z.of_nat (List.length chunks)))].
Proof.
  intros chunks written. unfold written, Main.ingest. fold chunks.
  destruct (ingest_chunks_written h S (ingest_project_id req)
              (ElasticMemory.tags_or_empty (ingest_tags req)) chunks s)
    as [n [Hn [Ht [Hall Hdone]]]].
  exists n. rewrite trace_bind, outcome_bind.
  destruct (outcome h (Main.ingest_chunks S (ingest_project_id req)
                         (ElasticMemory.tags_or_empty (ingest_tags req)) chunks) s)
    as [e | []].
  - split; [exact Hn|]. split; [exact Ht|]. split; [exact Hall|].
    intros r Hr. discriminate Hr.
  - change (trace h (Ret ?r) ?s') with (@nil call). rewrite app_nil_r.
    split; [exact Hn|]. split; [exact Ht|]. split; [exact Hall|].
    intros r Hr. split; [apply Hdone; reflexivity|].
    unfold outcome in Hr. cbn in Hr. injection Hr as <-. reflexivity.
Qed.

(** ** The ask pipeline, beyond the claims *)

Lemma embedded_app (a b : list call) :
  Calls.embedded (a ++ b) = Calls.embedded a ++ Calls.embedded b.
Proof. apply flat_map_app. Qed.

Lemma generated_app (a b : list call) :
  Calls.generated (a ++ b) = Calls.generated a ++ Calls.generated b.
Proof. apply flat_map_app. Qed.

Lemma searched_app (a b : list call) :
  Calls.searched (a ++ b) = Calls.searched a ++ Calls.searched b.
Proof. apply flat_map_app. Qed.

(** A trace of store calls only. *)
Lemma store_calls_quiet (tr : list call) :
  (forall c, In c tr ->
     (exists i, c = IndicesExists i) \/ (exists i b, c = IndicesCreate i b) \/
     (exists i b, c = Search i b)) ->
  Calls.indexed tr = [] /\ Calls.embedded tr = [] /\ Calls.generated tr = [].
Proof.
  induction tr as [| c tr IH]; intros H; [repeat split|].
  destruct IH as [Hi [He Hg]]; [intros c' Hc'; apply H; right; exact Hc'|].
  unfold Calls.indexed, Calls.embedded, Calls.generated in *.
  cbn [flat_map]. rewrite Hi, He, Hg.
  destruct (H c (or_introl eq_refl)) as [[i ->] | [[i [b ->]] | [i [b ->]]]];
    repeat split.
Qed.

Lemma hybrid_search_quiet {St : Type} (h : handler St) (S : Settings)
    (p qt : string) (qv : vector) (k : Z) (s : St) :
  Calls.indexed (trace h (ElasticMemory.hybrid_search S p qt qv k) s) = [] /\
  Calls.embedded (trace h (ElasticMemory.hybrid_search S p qt qv k) s) = [] /\
  Calls.generated (trace h (ElasticMemory.hybrid_search S p qt qv k) s) = [].
Proof.
  apply store_calls_quiet. intros c Hc.
  apply hybrid_search_calls in Hc as [-> | [-> | [-> | ->]]]; eauto 6.
Qed.

Lemma embedding_first (d : string) (tr : list call) :
  Calls.indexed (GetEmbedding d :: tr) = Calls.indexed tr /\
  Calls.generated (GetEmbedding d :: tr) = Calls.generated tr /\
  Calls.searched (GetEmbedding d :: tr) = Calls.searched tr /\
  Calls.embedded (GetEmbedding d :: tr) = d :: Calls.embedded tr.
Proof. repeat split. Qed.

Lemma embed_all_trace {St : Type} (h : handler St) (docs : list string) (s : St) :
  Calls.indexed (trace h (Main.embed_all docs) s) = [] /\
  Calls.generated (trace h (Main.embed_all docs) s) = [] /\
  Calls.searched (trace h (Main.embed_all docs) s) = [] /\
  exists n, Calls.embedded (trace h (Main.embed_all docs) s) = firstn n docs /\
            (forall vs, outcome h (Main.embed_all docs) s = inr vs ->
                        firstn n docs = docs).
Proof.
  revert s. induction docs as [| d docs IH]; intros s.
  - repeat split. exists 0%nat. auto.
  - cbn [Main.embed_all]. rewrite trace_bind, outcome_bind.
    assert (Hp : trace h (perform (GetEmbedding d)) s = [GetEmbedding d])
      by (unfold trace; rewrite run_perform; reflexivity).
    rewrite Hp.
    destruct (outcome h (perform (GetEmbedding d)) s) as [e | v].
    { repeat split. exists 1%nat. split; [reflexivity | discriminate]. }
    rewrite trace_bind, outcome_bind.
    destruct (IH (final h (perform (GetEmbedding d)) s))
      as [Hi [Hg [Hs [n [He Hall]]]]].
    destruct (outcome h (Main.embed_all docs) (final h (perform (GetEmbedding d)) s))
      as [e | vs].
    + cbn [app].
      destruct (embedding_first d
                  (trace h (Main.embed_all docs)
                     (final h (perform (GetEmbedding d)) s)))
        as [E1 [E2 [E3 E4]]].
      rewrite E1, E2, E3, E4. repeat split; auto.
      exists (Datatypes.S n). cbn [firstn]. rewrite He.
      split; [reflexivity | discriminate].
    + change (trace h (Ret ?r) ?s') with (@nil call). rewrite app_nil_r.
      cbn [app].
      destruct (embedding_first d
                  (trace h (Main.embed_all docs)
                     (final h (perform (GetEmbedding d)) s)))
        as [E1 [E2 [E3 E4]]].
      rewrite E1, E2, E3, E4. repeat split; auto.
      exists (Datatypes.S n). cbn [firstn]. rewrite He.
      split; [reflexivity|]. intros vs' _. f_equal. apply (Hall vs eq_refl).
Qed.

(** Calls that neither write a document nor generate text. *)
Lemma reading_calls_quiet (tr : list call) :
  (forall c, In c tr ->
     (exists i, c = IndicesExists i) \/ (exists i b, c = IndicesCreate i b) \/
     (exists i b, c = Search i b) \/ (exists t, c = GetEmbedding t)) ->
  Calls.indexed tr = [] /\ Calls.generated tr = [].
Proof.
  induction tr as [| c tr IH]; intros H; [repeat split|].
  destruct IH as [Hi Hg]; [intros c' Hc'; apply H; right; exact Hc'|].
  unfold Calls.indexed, Calls.generated in *.
  cbn [flat_map]. rewrite Hi, Hg.
  destruct (H c (or_introl eq_refl))
    as [[i ->] | [[i [b ->]] | [[i [b ->]] | [t ->]]]]; repeat split.
Qed.

Section AskFacts.
Context {St : Type}.
Variable h : handler St.
Variable S : Settings.
Variable tok : string -> nat.
Variable lambda : Q.
Variable sim : vector -> vector -> Q.
Variable req : AskRequest.

Lemma ask_context_kinds (s : St) (c : call) :
  In c (trace h (Main.ask_context S tok lambda sim req) s) ->
  (exists i, c = IndicesExists i) \/ (exists i b, c = IndicesCreate i b) \/
  (exists i b, c = Search i b) \/ (exists t, c = GetEmbedding t).
Proof.
  unfold Main.ask_context. intros H.
  apply in_trace_bind in H as [H | [q_vec [_ H]]].
  { apply in_trace_do in H as [-> | H]; [eauto 7|].
    rewrite trace_lift in H. destruct H. }
  apply in_trace_bind in H as [H | [hits [_ H]]].
  { apply hybrid_search_calls in H as [-> | [-> | [-> | ->]]]; eauto 7. }
  apply in_trace_bind in H as [H | [docs [_ H]]];
    [rewrite trace_lift in H; destruct H|].
  destruct docs as [| d docs]; [destruct H|].
  apply in_trace_bind in H as [H | [doc_vecs [_ H]]].
  { apply embed_all_calls in H as [t ->]. eauto 7. }
  apply in_trace_bind in H as [H | [sel [_ H]]];
    [rewrite trace_lift in H; destruct H | destruct H].
Qed.

Lemma ask_context_quiet (s : St) :
  Calls.indexed (trace h (Main.ask_context S tok lambda sim req) s) = [] /\
  Calls.generated (trace h (Main.ask_context S tok lambda sim req) s) = [].
Proof. apply reading_calls_quiet. intros c. apply ask_context_kinds. Qed.

(** [ask], after [ask_context]. *)
Lemma run_ask (s : St) :
  run h (Main.ask S tok lambda sim req) s =
  let '(s1, t1, o1) := run h (Main.ask_context S tok lambda sim req) s in
  match o1 with
  | inl e => (s1, t1, inl e)
  | inr (ctx, used, _) =>
      let prompt := Main.prompt_of S ctx (query req) in
      (fst (h (GenerateText prompt) s1),
       t1 ++ [GenerateText prompt],
       match snd (h (GenerateText prompt) s1) with
       | inr t => inr {| response := strip t;
                         used_snippets := used;
                         tokens_estimate := Z.of_nat (tok prompt) |}
       | inl e => inl (HTTPException 500
                         ("Generation failed: " ++ exn_str e)%string)
       end)
  end.
Proof.
  unfold Main.ask. rewrite run_bind.
  destruct (run h (Main.ask_context S tok lambda sim req) s)
    as [[s1 t1] [e | [[ctx used] sel]]]; [reflexivity|].
  rewrite run_bind. cbn [run].
  destruct (h (GenerateText (Main.prompt_of S ctx (query req))) s1)
    as [s2 [e | t]]; reflexivity.
Qed.
End AskFacts.

(** X10.  A failure while retrieving is raised by [ask] as it is, without
    the HTTP 500 wrapping, and the generator is not called: this holds for
    any exception out of lines 38-63, in particular when the query cannot
    be embedded (nothing else is then called) and when [hybrid_search]
    raises. *)
Theorem retrieval_failure_is_raised_unwrapped {St : Type} (h : handler St)
    (S : Settings) (tok : string -> nat) (lambda : Q)
    (sim : vector -> vector -> Q) (req : AskRequest) (s : St) :
  (forall e,
     outcome h (Main.ask_context S tok lambda sim req) s = inl e ->
     outcome h (Main.ask S tok lambda sim req) s = inl e /\
     Calls.generated (trace h (Main.ask S tok lambda sim req) s) = []) /\
  (forall e s1,
     h (GetEmbedding (query req)) s = (s1, inl e) ->
     run h (Main.ask S tok lambda sim req) s
       = (s1, [GetEmbedding (query req)], inl e)) /\
  (forall e q_vec s1,
     h (GetEmbedding (query req)) s = (s1, inr q_vec) ->
     outcome h (ElasticMemory.hybrid_search S (project_id req) (query req)
                  q_vec (Z.max 15 (k req))) s1 = inl e ->
     outcome h (Main.ask S tok lambda sim req) s = inl e).
Proof.
  assert (Hfail : forall e,
     outcome h (Main.ask_context S tok lambda sim req) s = inl e ->
     outcome h (Main.ask S tok lambda sim req) s = inl e /\
     Calls.generated (trace h (Main.ask S tok lambda sim req) s) = []).
  { intros e He. unfold outcome, trace in *. rewrite run_ask.
    pose proof (proj2 (ask_context_quiet h S tok lambda sim req s)) as Hq.
    unfold trace in Hq.
    destruct (run h (Main.ask_context S tok lambda sim req) s)
      as [[s1 t1] o1]. cbn [snd fst] in *. subst o1. auto. }
  split; [exact Hfail|]. split.
  - intros e s1 He. rewrite run_ask. unfold Main.ask_context.
    rewrite run_bind, run_perform, He. reflexivity.
  - intros e q_vec s1 Hq He. apply Hfail.
    unfold Main.ask_context. rewrite outcome_bind.
    unfold outcome at 1, final. rewrite run_perform, Hq. cbn [fst snd].
    rewrite outcome_bind, He. reflexivity.
Qed.

(** X11.  When the generator raises, [ask] raises an HTTP exception with
    status 500 whose detail starts with "Generation failed: ", after the
    whole retrieval has been done. *)
Theorem generation_failure_is_http_500 {St : Type} (h : handler St)
    (S : Settings) (tok : string -> nat) (lambda : Q)
    (sim : vector -> vector -> Q) (req : AskRequest)
    (s s1 s2 : St) (t1 : list call) (ctx : string) (used : Z)
    (sel : list string) (e : exn) :
  run h (Main.ask_context S tok lambda sim req) s = (s1, t1, inr (ctx, used, sel)) ->
  h (GenerateText (Main.prompt_of S ctx (query req))) s1 = (s2, inl e) ->
  exists detail,
    run h (Main.ask S tok lambda sim req) s
    = (s2, t1 ++ [GenerateText (Main.prompt_of S ctx (query req))],
       inl (HTTPException 500 ("Generation failed: " ++ detail)%string)).
Proof.
  intros Hc Hg. exists (exn_str e). rewrite run_ask, Hc. cbn zeta.
  rewrite Hg. reflexivity.
Qed.

Lemma generation_failure_is_http_500_witness :
  outcome (Calls.mute Store.serve (ConnectionError "quota exceeded"))
    (Main.ask Sample.settings (chars_per_token 4) (1 # 2) Sample.dot
       Sample.question) (Sample.seeded true)
  = inl (HTTPException 500 "Generation failed: quota exceeded").
Proof.
  edestruct (generation_failure_is_http_500
               (Calls.mute Store.serve (ConnectionError "quota exceeded"))
               Sample.settings (chars_per_token 4) (1 # 2) Sample.dot
               Sample.question (Sample.seeded true))
    as [detail Hrun]; [reflexivity | reflexivity |].
  reflexivity.
Defined.

Lemma expect_str_texts (l : list json) (docs : list string) :
  rmap Main.expect_str l = inr docs -> l = map JStr docs.
Proof.
  revert docs. induction l as [| j l IH]; cbn [rmap]; intros docs H.
  - injection H as <-. reflexivity.
  - destruct j as [| | | |t| |]; cbn in H; try discriminate H.
    destruct (rmap Main.expect_str l) as [e | ds]; cbn in H; [discriminate H|].
    injection H as <-. cbn. f_equal. apply IH. reflexivity.
Qed.

Section AskSequence.
Context {St : Type}.
Variable h : handler St.
Variable S : Settings.
Variable tok : string -> nat.
Variable lambda : Q.
Variable sim : vector -> vector -> Q.
Variable req : AskRequest.

(** The calls of lines 38-63 when they succeed. *)
Lemma ask_context_embeds (s : St) (ctx : string) (used : Z) (sel : list string) :
  outcome h (Main.ask_context S tok lambda sim req) s = inr (ctx, used, sel) ->
  exists q_vec hits docs,
    snd (h (GetEmbedding (query req)) s) = inr q_vec /\
    outcome h (ElasticMemory.hybrid_search S (project_id req) (query req) q_vec
                 (Z.max 15 (k req)))
            (fst (h (GetEmbedding (query req)) s)) = inr hits /\
    map text hits = map JStr docs /\
    Calls.embedded (trace h (Main.ask_context S tok lambda sim req) s)
      = query req :: docs.
Proof.
  unfold Main.ask_context. intros H.
  rewrite trace_bind.
  apply outcome_bind_inr in H as [q_vec [H1 H]]. rewrite H1.
  assert (Hp : run h (perform (GetEmbedding (query req))) s
               = (fst (h (GetEmbedding (query req)) s),
                  [GetEmbedding (query req)],
                  snd (h (GetEmbedding (query req)) s)))
    by apply run_perform.
  unfold outcome in H1. rewrite Hp in H1. cbn [snd] in H1.
  unfold final in H |- *. unfold trace at 1. rewrite Hp in *. cbn [fst snd] in *.
  set (s1 := fst (h (GetEmbedding (query req)) s)) in *.
  rewrite trace_bind.
  apply outcome_bind_inr in H as [hits [H2 H]]. rewrite H2.
  set (s2 := final h (ElasticMemory.hybrid_search S (project_id req) (query req)
                        q_vec (Z.max 15 (k req))) s1) in *.
  rewrite trace_bind.
  apply outcome_bind_inr in H as [docs [H3 H]]. rewrite H3.
  unfold outcome in H3. rewrite run_lift in H3. cbn [snd] in H3.
  apply expect_str_texts in H3.
  exists q_vec, hits, docs. split; [exact H1|]. split; [exact H2|].
  split; [exact H3|].
  rewrite trace_lift. cbn [app].
  rewrite (proj2 (proj2 (proj2 (embedding_first (query req) _)))).
  f_equal. rewrite embedded_app.
  rewrite (proj1 (proj2 (hybrid_search_quiet h S _ _ _ _ s1))). cbn [app].
  assert (Hfl : forall (r : result (list string)) s',
             final h (lift r) s' = s')
    by (intros r s'; unfold final; rewrite run_lift; reflexivity).
  rewrite Hfl in H |- *.
  destruct docs as [| d docs]; [reflexivity|].
  rewrite trace_bind.
  apply outcome_bind_inr in H as [vecs [H4 H]]. rewrite H4.
  destruct (embed_all_trace h (d :: docs) s2) as [_ [_ [_ [n [He Hall]]]]].
  rewrite embedded_app, He, (Hall vecs H4).
  rewrite trace_bind.
  apply outcome_bind_inr in H as [sel' [H5 H]]. rewrite H5.
  rewrite trace_lift. cbn [app].
  change (trace h (Ret ?r) ?s') with (@nil call).
  change (Calls.embedded []) with (@nil string).
  rewrite app_nil_r. reflexivity.
Qed.
End AskSequence.

(** ** The candidate pool and the selection *)

Lemma expect_str_strings (docs : list string) :
  rmap Main.expect_str (map JStr docs) = inr docs.
Proof.
  induction docs as [| d docs IH]; [reflexivity|].
  cbn [map rmap]. cbn. rewrite IH. reflexivity.
Qed.

Lemma mmr_in_range (lambda : Q) (sim : vector -> vector -> Q) (q_vec : vector)
    (doc_vecs : list vector) (docs : list string) (k i : nat) :
  In i (Retriever.mmr lambda sim q_vec doc_vecs docs k) ->
  (i < List.length docs)%nat.
Proof.
  unfold Retriever.mmr. intros H. apply select_in in H as [[] | H].
  apply in_seq in H. lia.
Qed.


Lemma doc_at_picks (docs : list string) (l : list nat) :
  (forall i, In i l -> (i < List.length docs)%nat) ->
  rmap (Main.doc_at docs) l = inr (map (fun i => nth i docs EmptyString) l).
Proof.
  induction l as [| i l IH]; intros H; [reflexivity|].
  cbn [map rmap]. unfold Main.doc_at at 1.
  rewrite (nth_error_nth' docs EmptyString) by (apply H; left; reflexivity).
  cbn. rewrite IH by (intros j Hj; apply H; right; exact Hj). reflexivity.
Qed.

Lemma mmr_nodup (lambda : Q) (sim : vector -> vector -> Q) (q_vec : vector)
    (doc_vecs : list vector) (docs : list string) (k : nat) :
  NoDup (Retriever.mmr lambda sim q_vec doc_vecs docs k).
Proof.
  unfold Retriever.mmr. apply select_nodup;
    [constructor | apply seq_NoDup | intros x []].
Qed.

Section PoolAndSelection.
Context {St : Type}.
Variable h : handler St.
Variable S : Settings.

(** The searches [hybrid_search] sends are those of [hybrid_hits]. *)
Lemma hybrid_search_trace (p qt : string) (qv : vector) (k : Z) (s : St) :
  trace h (ElasticMemory.hybrid_search S p qt qv k) s
  = trace h (ElasticMemory.hybrid_hits S p qt qv k) s.
Proof.
  unfold ElasticMemory.hybrid_search. rewrite trace_bind.
  destruct (outcome h (ElasticMemory.hybrid_hits S p qt qv k) s) as [e | items];
    [reflexivity|].
  rewrite trace_bind, trace_lift. unfold outcome at 1. rewrite run_lift.
  cbn [snd].
  destruct (rmap ElasticMemory.hit_of items) as [e | results];
    [apply app_nil_r|].
  rewrite trace_bind, trace_lift. unfold outcome at 1. rewrite run_lift.
  cbn [snd].
  destruct (ElasticMemory.report results) as [e | []]; cbn [app];
    [apply app_nil_r|].
  change (trace h (Ret ?r) ?s') with (@nil call). apply app_nil_r.
Qed.

(** A search that returns has sent the fused request first, and after it
    at most the fallback request. *)
Lemma hybrid_search_searched (p qt : string) (qv : vector) (k : Z)
    (s s' : St) (t : list call) (hits : list hit) :
  run h (ElasticMemory.hybrid_search S p qt qv k) s = (s', t, inr hits) ->
  Calls.searched t = [ElasticMemory.hybrid_body p qt qv k] \/
  Calls.searched t = [ElasticMemory.hybrid_body p qt qv k;
                      ElasticMemory.fallback_body p qt qv k].
Proof.
  intros Hrun.
  assert (Ht : t = trace h (ElasticMemory.hybrid_hits S p qt qv k) s)
    by (rewrite <- hybrid_search_trace; unfold trace; rewrite Hrun; reflexivity).
  assert (Ho : outcome h (ElasticMemory.hybrid_search S p qt qv k) s = inr hits)
    by (unfold outcome; rewrite Hrun; reflexivity).
  pose proof (proj1 (ensure_index_quiet h S s)) as Hq. unfold trace in Hq.
  destruct (run h (ElasticMemory.ensure_index S) s) as [[s0 t0] [e | []]] eqn:H0.
  - exfalso. unfold ElasticMemory.hybrid_search, ElasticMemory.hybrid_hits in Ho.
    rewrite !outcome_bind in Ho. unfold outcome at 1 in Ho. rewrite H0 in Ho.
    discriminate Ho.
  - cbn [fst snd] in Hq.
    destruct (h (Search (elastic_index S) (ElasticMemory.hybrid_body p qt qv k)) s0)
      as [s1 [e | res]] eqn:H1.
    + right. subst t. unfold trace.
      rewrite (run_hybrid_hits_fallback h S p qt qv k s s0 s1 t0 e H0 H1).
      cbn [fst snd]. rewrite searched_app, Hq. reflexivity.
    + left. subst t. unfold trace.
      rewrite (run_hybrid_hits_primary h S p qt qv k s s0 s1 t0 res H0 H1).
      cbn [fst snd]. rewrite searched_app, Hq. reflexivity.
Qed.

Variable tok : string -> nat.
Variable lambda : Q.
Variable sim : vector -> vector -> Q.
Variable req : AskRequest.

(** The run of lines 38-63 when every call is answered. *)
Lemma run_ask_context (s s1 s2 s3 : St) (q_vec : vector) (t2 t3 : list call)
    (hits : list hit) (docs : list string) (doc_vecs : list vector) :
  h (GetEmbedding (query req)) s = (s1, inr q_vec) ->
  run h (ElasticMemory.hybrid_search S (project_id req) (query req) q_vec
           (Z.max 15 (k req))) s1 = (s2, t2, inr hits) ->
  map text hits = map JStr docs ->
  run h (Main.embed_all docs) s2 = (s3, t3, inr doc_vecs) ->
  run h (Main.ask_context S tok lambda sim req) s
  = (s3, GetEmbedding (query req) :: t2 ++ t3,
     let sel :=
       map (fun i => nth i docs EmptyString)
           (Retriever.mmr lambda sim q_vec doc_vecs docs
              (Nat.min 10 (List.length docs))) in
     inr (Main.assemble tok (token_budget S) sel,
          Z.of_nat (List.length sel), sel)).
Proof.
  intros H1 H2 H3 H4. unfold Main.ask_context.
  rewrite run_bind, run_perform, H1. cbn [fst snd].
  rewrite run_bind, H2, run_bind, run_lift, H3, expect_str_strings.
  destruct docs as [| d ds].
  - cbn in H4. injection H4 as <- <- <-. cbn. reflexivity.
  - rewrite run_bind, H4, run_bind, run_lift.
    rewrite doc_at_picks by (intros i; apply mmr_in_range).
    cbn [run app]. rewrite !app_nil_r. reflexivity.
Qed.
End PoolAndSelection.

(** C10.  Whatever [k] the request carries: every search request [ask]
    sends is built for [max(15, k)], and a response reports at most 10
    snippets.  And when the query is embedded, the search for [max(15, k)]
    returns its candidates and the candidates are embedded, the run of
    lines 38-63 is this one: the reranker is called on these candidates
    and these embeddings with [min(10, number of candidates)], the
    selection handed to the assembly is the candidates at the indices it
    returns, as many as that minimum, and the first search request of the
    run is the fused one for [max(15, k)], followed at most by its
    fallback. *)
Theorem ask_pool_and_selection_sizes {St : Type} (h : handler St)
    (S : Settings) (tok : string -> nat) (lambda : Q)
    (sim : vector -> vector -> Q) (req : AskRequest) (s : St) :
  (forall index body,
     In (Search index body) (trace h (Main.ask S tok lambda sim req) s) ->
     Store.body_size body = Some (Z.max (Z.max 15 (k req) * 3) 15) /\
     exists q_vec,
       body = ElasticMemory.hybrid_body (project_id req) (query req) q_vec
                (Z.max 15 (k req)) \/
       body = ElasticMemory.fallback_body (project_id req) (query req) q_vec
                (Z.max 15 (k req))) /\
  (forall resp,
     outcome h (Main.ask S tok lambda sim req) s = inr resp ->
     0 <= used_snippets resp <= 10) /\
  (forall (s1 s2 s3 : St) (q_vec : vector) (t2 t3 : list call)
          (hits : list hit) (docs : list string) (doc_vecs : list vector),
     h (GetEmbedding (query req)) s = (s1, inr q_vec) ->
     run h (ElasticMemory.hybrid_search S (project_id req) (query req) q_vec
              (Z.max 15 (k req))) s1 = (s2, t2, inr hits) ->
     map text hits = map JStr docs ->
     run h (Main.embed_all docs) s2 = (s3, t3, inr doc_vecs) ->
     let sel_idx :=
       Retriever.mmr lambda sim q_vec doc_vecs docs
                     (Nat.min 10 (List.length docs)) in
     let sel := map (fun i => nth i docs EmptyString) sel_idx in
     run h (Main.ask_context S tok lambda sim req) s
       = (s3, GetEmbedding (query req) :: t2 ++ t3,
          inr (Main.assemble tok (token_budget S) sel,
               Z.of_nat (List.length sel), sel)) /\
     List.length sel = Nat.min 10 (List.length docs) /\
     NoDup sel_idx /\
     (forall i, In i sel_idx -> (i < List.length docs)%nat) /\
     (exists rest,
        Calls.searched (trace h (Main.ask S tok lambda sim req) s)
          = ElasticMemory.hybrid_body (project_id req) (query req) q_vec
              (Z.max 15 (k req)) :: rest /\
        (rest = [] \/
         rest = [ElasticMemory.fallback_body (project_id req) (query req) q_vec
                   (Z.max 15 (k req))])) /\
     (forall resp,
        outcome h (Main.ask S tok lambda sim req) s = inr resp ->
        used_snippets resp = Z.of_nat (Nat.min 10 (List.length docs)))).
Proof.
  assert (Hsel : forall ctx used sel,
     outcome h (Main.ask_context S tok lambda sim req) s = inr (ctx, used, sel) ->
     (List.length sel <= 10)%nat /\ used = Z.of_nat (List.length sel)).
  { intros ctx used sel H.
    apply ask_context_inr in H as [Hu [_ [q_vec [doc_vecs [docs Hr]]]]].
    apply rmap_length in Hr. rewrite mmr_length in Hr. split; [lia | exact Hu]. }
  split; [|split].
  - intros index body H. unfold Main.ask in H.
    apply in_trace_bind in H as [H | [[[ctx used] sel] [_ H]]].
    + apply ask_context_calls in H as [q_vec [-> Hb]].
      split; [destruct Hb as [-> | ->]; reflexivity | eauto].
    + apply in_trace_bind in H as [H | [t [_ H]]]; [|destruct H].
      apply in_trace_do in H as [H | H]; [discriminate|].
      destruct (snd (h _ _)); destruct H.
  - intros resp H. unfold Main.ask in H.
    apply outcome_bind_inr in H as [[[ctx used] sel] [Hc H]].
    apply outcome_bind_inr in H as [t [_ H]].
    unfold outcome in H. simpl in H. injection H as <-. simpl.
    destruct (Hsel ctx used sel Hc) as [Hl ->]. lia.
  - intros s1 s2 s3 q_vec t2 t3 hits docs doc_vecs H1 H2 H3 H4 sel_idx sel.
    pose proof (run_ask_context h S tok lambda sim req s s1 s2 s3 q_vec t2 t3
                  hits docs doc_vecs H1 H2 H3 H4) as Hrun.
    cbn zeta in Hrun. fold sel_idx in Hrun. fold sel in Hrun.
    assert (Hlen : List.length sel = Nat.min 10 (List.length docs)).
    { unfold sel, sel_idx. rewrite length_map, mmr_length. lia. }
    split; [exact Hrun|]. split; [exact Hlen|].
    split; [apply mmr_nodup|]. split; [intros i; apply mmr_in_range|].
    split.
    + assert (Ht3 : Calls.searched t3 = []).
      { pose proof (proj1 (proj2 (proj2 (embed_all_trace h docs s2)))) as E.
        unfold trace in E. rewrite H4 in E. exact E. }
      assert (Htr : Calls.searched (trace h (Main.ask S tok lambda sim req) s)
                    = Calls.searched t2).
      { unfold trace. rewrite run_ask, Hrun. cbn [fst snd].
        rewrite searched_app.
        rewrite (proj1 (proj2 (proj2 (embedding_first (query req) (t2 ++ t3))))).
        rewrite searched_app, Ht3, !app_nil_r. reflexivity. }
      rewrite Htr.
      destruct (hybrid_search_searched h S _ _ _ _ _ _ _ _ H2) as [-> | ->];
        eexists; split; [reflexivity | auto | reflexivity | auto].
    + intros resp Hresp. unfold outcome in Hresp. rewrite run_ask, Hrun in Hresp.
      cbn [fst snd] in Hresp.
      destruct (snd (h (GenerateText _) s3)) as [e | t]; [discriminate Hresp|].
      injection Hresp as <-. cbn [used_snippets]. rewrite Hlen. reflexivity.
Qed.

Lemma ask_pool_and_selection_sizes_witness :
  run (Calls.canned (inr Sample.crowded))
      (Main.ask_context Sample.settings (chars_per_token 4) (1 # 2) Sample.dot
         Sample.modest) tt
  = (tt,
     [GetEmbedding "where"; IndicesExists "memora";
      Search "memora" (ElasticMemory.hybrid_body "u1" "where" [] 15)]
     ++ map GetEmbedding Sample.memories,
     inr (Main.assemble (chars_per_token 4) 3 (firstn 10 Sample.memories),
          10, firstn 10 Sample.memories)) /\
  (forall resp,
     outcome (Calls.canned (inr Sample.crowded))
       (Main.ask Sample.settings (chars_per_token 4) (1 # 2) Sample.dot
          Sample.modest) tt = inr resp ->
     used_snippets resp = 10).
Proof.
  destruct (proj2 (proj2
              (ask_pool_and_selection_sizes (Calls.canned (inr Sample.crowded))
                 Sample.settings (chars_per_token 4) (1 # 2) Sample.dot
                 Sample.modest tt))
              tt tt tt [] _ _ _ Sample.memories _
              eq_refl eq_refl eq_refl eq_refl)
    as [Hrun [_ [_ [_ [_ Hused]]]]].
  split; [rewrite Hrun; reflexivity | exact Hused].
Defined.


(** X12.  When [ask] returns, its calls were, in this order: the embedding
    of the query, the search for [max(15, k)], one embedding per retrieved
    text in rank order, and one generation, which is the last call.  [ask]
    writes no document. *)
Theorem ask_calls_in_order {St : Type} (h : handler St)
    (S : Settings) (tok : string -> nat) (lambda : Q)
    (sim : vector -> vector -> Q) (req : AskRequest) (s : St)
    (resp : AskResponse) :
  outcome h (Main.ask S tok lambda sim req) s = inr resp ->
  exists q_vec hits docs prompt before,
    snd (h (GetEmbedding (query req)) s) = inr q_vec /\
    outcome h (ElasticMemory.hybrid_search S (project_id req) (query req) q_vec
                 (Z.max 15 (k req)))
            (fst (h (GetEmbedding (query req)) s)) = inr hits /\
    map text hits = map JStr docs /\
    trace h (Main.ask S tok lambda sim req) s = before ++ [GenerateText prompt] /\
    Calls.embedded (trace h (Main.ask S tok lambda sim req) s)
      = query req :: docs /\
    Calls.generated (trace h (Main.ask S tok lambda sim req) s) = [prompt] /\
    Calls.indexed (trace h (Main.ask S tok lambda sim req) s) = [].
Proof.
  intros H. unfold outcome, trace in *. rewrite run_ask in *.
  pose proof (ask_context_quiet h S tok lambda sim req s) as [Hi Hg].
  pose proof (ask_context_embeds h S tok lambda sim req s) as Hemb.
  unfold outcome, trace in Hi, Hg, Hemb.
  destruct (run h (Main.ask_context S tok lambda sim req) s)
    as [[s1 t1] [e | [[ctx used] sel]]]; [discriminate H|].
  cbn [fst snd] in *.
  destruct (Hemb ctx used sel eq_refl) as [q_vec [hits [docs [H1 [H2 [H3 H4]]]]]].
  exists q_vec, hits, docs, (Main.prompt_of S ctx (query req)), t1.
  split; [exact H1|]. split; [exact H2|]. split; [exact H3|].
  split; [reflexivity|].
  rewrite embedded_app, generated_app, indexed_app, H4, Hg, Hi.
  repeat split. cbn. rewrite app_nil_r. reflexivity.
Qed.

Lemma ask_calls_in_order_witness :
  Calls.embedded
    (trace Store.serve
       (Main.ask Sample.settings (chars_per_token 4) (1 # 2) Sample.dot
          Sample.question) (Sample.seeded false))
  = ["where"; "aaaaaaa"; "bbbbbbb"]%string.
Proof.
  edestruct (ask_calls_in_order Store.serve Sample.settings
               (chars_per_token 4) (1 # 2) Sample.dot Sample.question
               (Sample.seeded false))
    as [q_vec [hits [docs [prompt [before [_ [_ [_ [_ [He _]]]]]]]]]];
    [reflexivity|].
  reflexivity.
Defined.

(** X13.  When the search finds nothing, [ask] embeds nothing but the
    query, reports no used snippet, and still asks the generator, with the
    prompt that carries the placeholder in place of the memories. *)
Theorem ask_without_memories {St : Type} (h : handler St)
    (S : Settings) (tok : string -> nat) (lambda : Q)
    (sim : vector -> vector -> Q) (req : AskRequest)
    (s s1 s2 s3 : St) (q_vec : vector) (t : list call) (answer : string) :
  let prompt :=
    String.concat EmptyString [
      nl; system_preamble S; nl; nl;
      "You are MemoraAI, an assistant that remembers user facts across sessions.";
      nl;
      "Below are pieces of information you've previously stored in your memory.";
      nl; "Use *all relevant ones* to answer the question."; nl; nl;
      "Stored memory snippets:"; nl; "[No prior memory found yet]"; nl; nl;
      "User question: "; query req; nl; nl;
      "If multiple memories are relevant, combine them naturally."; nl;
      "If something seems unrelated, ignore it politely."; nl]%string in
  h (GetEmbedding (query req)) s = (s1, inr q_vec) ->
  run h (ElasticMemory.hybrid_search S (project_id req) (query req) q_vec
           (Z.max 15 (k req))) s1 = (s2, t, inr []) ->
  h (GenerateText prompt) s2 = (s3, inr answer) ->
  run h (Main.ask S tok lambda sim req) s
    = (s3,
       GetEmbedding (query req) :: t ++ [GenerateText prompt],
       inr {| response := strip answer;
              used_snippets := 0;
              tokens_estimate := Z.of_nat (tok prompt) |}) /\
  Calls.embedded (trace h (Main.ask S tok lambda sim req) s) = [query req].
Proof.
  intros prompt Hq Hs Hg.
  assert (Hc : run h (Main.ask_context S tok lambda sim req) s
               = (s2, GetEmbedding (query req) :: t, inr (EmptyString, 0, []))).
  { unfold Main.ask_context.
    rewrite run_bind, run_perform, Hq. cbn [fst snd].
    rewrite run_bind, Hs. cbn [map rmap]. rewrite run_bind, run_lift.
    cbn. rewrite app_nil_r. reflexivity. }
  assert (Hrun : run h (Main.ask S tok lambda sim req) s
                 = (s3, GetEmbedding (query req) :: t ++ [GenerateText prompt],
                    inr {| response := strip answer;
                           used_snippets := 0;
                           tokens_estimate := Z.of_nat (tok prompt) |})).
  { rewrite run_ask, Hc. cbn zeta.
    change (Main.prompt_of S EmptyString (query req)) with prompt.
    rewrite Hg. reflexivity. }
  split; [exact Hrun|].
  unfold trace. rewrite Hrun. cbn [fst snd].
  rewrite (proj2 (proj2 (proj2 (embedding_first (query req) _)))).
  rewrite embedded_app. f_equal.
  assert (Ht : t = trace h (ElasticMemory.hybrid_search S (project_id req)
                              (query req) q_vec (Z.max 15 (k req))) s1)
    by (unfold trace; rewrite Hs; reflexivity).
  rewrite Ht, (proj1 (proj2 (hybrid_search_quiet h S _ _ _ _ s1))).
  reflexivity.
Qed.

Lemma ask_without_memories_witness :
  outcome Store.serve
    (Main.ask Sample.settings (chars_per_token 4) (1 # 2) Sample.dot
       {| project_id := "u9"; query := "where"; k := 5 |})
    (Sample.seeded true)
  = inr {| response := "From memory.";
           used_snippets := 0;
           tokens_estimate := 100 |}.
Proof.
  edestruct (ask_without_memories Store.serve Sample.settings
               (chars_per_token 4) (1 # 2) Sample.dot
               {| project_id := "u9"; query := "where"; k := 5 |}
               (Sample.seeded true))
    as [Hrun _]; [reflexivity | reflexivity | reflexivity |].
  unfold outcome. rewrite Hrun. reflexivity.
Defined.

(** ** The budget *)

Lemma fits_monotone (tok : string -> nat) (b b' : Z) (parts : list string)
    (d : string) :
  b <= b' -> Main.fits tok b parts d = true -> Main.fits tok b' parts d = true.
Proof.
  unfold Main.fits. intros Hb H. apply Z.ltb_lt in H. apply Z.ltb_lt. lia.
Qed.

Lemma fill_extends (tok : string -> nat) (b : Z) (selected parts : list string) :
  exists more, Main.fill tok b parts selected = parts ++ more.
Proof.
  destruct (fill_checked_prefix tok b selected parts) as [n [_ [H _]]]. eauto.
Qed.

Lemma fill_monotone (tok : string -> nat) (b b' : Z) (selected parts : list string) :
  b <= b' ->
  exists more,
    Main.fill tok b' parts selected = Main.fill tok b parts selected ++ more.
Proof.
  intros Hb. revert parts.
  induction selected as [| d rest IH]; intros parts; cbn [Main.fill].
  - exists []. rewrite app_nil_r. reflexivity.
  - destruct (Main.fits tok b parts d) eqn:E.
    + rewrite (fits_monotone tok b b' parts d Hb E). apply IH.
    + destruct (Main.fits tok b' parts d); [|exists []; apply eq_sym, app_nil_r].
      destruct (fill_extends tok b' rest (parts ++ [d])) as [more Hm].
      exists (d :: more). rewrite Hm, <- app_assoc. reflexivity.
Qed.

(** X14.  Raising the token budget never loses a memory: the parts kept
    under a budget are a prefix of the parts kept under any larger one,
    for any token heuristic.  A budget of zero or less keeps nothing. *)
Theorem larger_budget_keeps_more (tok : string -> nat) (b b' : Z)
    (selected : list string) :
  b <= b' ->
  (exists more,
     Main.fill tok b' [] selected = Main.fill tok b [] selected ++ more) /\
  (List.length (Main.fill tok b [] selected)
   <= List.length (Main.fill tok b' [] selected))%nat /\
  (b <= 0 -> Main.assemble tok b selected = EmptyString).
Proof.
  intros Hb. destruct (fill_monotone tok b b' selected [] Hb) as [more Hm].
  split; [eauto|]. split.
  - rewrite Hm, length_app. lia.
  - intros H0. unfold Main.assemble.
    destruct selected as [| d rest]; [reflexivity|]. cbn [Main.fill].
    assert (E : Main.fits tok b [] d = false)
      by (unfold Main.fits; apply Z.ltb_ge; lia).
    rewrite E. reflexivity.
Qed.

Lemma larger_budget_keeps_more_witness :
  exists more,
    Main.fill (chars_per_token 4) 3 [] ["aaaaaaa"; "bbbbbbb"]%string
    = Main.fill (chars_per_token 4) 2 [] ["aaaaaaa"; "bbbbbbb"]%string ++ more.
Proof.
  apply (larger_budget_keeps_more (chars_per_token 4) 2 3
           ["aaaaaaa"; "bbbbbbb"]%string).
  lia.
Defined.

(** ** The model backend *)

Section Backend.
Context {B : Type}.
Variable api : VertexAI.sdk B.
Variable G : VertexAI.GcpSettings.

Lemma inits_logged (w : VertexAI.world B) (c : VertexAI.vcall) (b : B)
    (flag : bool) :
  VertexAI.inits {| VertexAI.initialized := flag;
                    VertexAI.backend := b;
                    VertexAI.log := VertexAI.log w ++ [c] |}
  = (VertexAI.inits w + (if VertexAI.is_init c then 1 else 0))%nat.
Proof.
  unfold VertexAI.inits. cbn [VertexAI.log].
  rewrite filter_app, length_app. cbn [filter].
  destruct (VertexAI.is_init c); reflexivity.
Qed.

(** A call other than [vertexai.init] leaves the flag and the count. *)
Lemma vdo_keeps (c : VertexAI.vcall) (w : VertexAI.world B) :
  VertexAI.is_init c = false ->
  VertexAI.initialized (fst (VertexAI.vdo api c w)) = VertexAI.initialized w /\
  VertexAI.inits (fst (VertexAI.vdo api c w)) = VertexAI.inits w.
Proof.
  intros Hc. unfold VertexAI.vdo.
  destruct (api c (VertexAI.backend w)) as [b1 r]. cbn [fst].
  split; [reflexivity|]. rewrite inits_logged, Hc. lia.
Qed.

Lemma init_when_initialized (w : VertexAI.world B) :
  VertexAI.initialized w = true -> VertexAI._init api G w = (w, inr tt).
Proof. intros H. unfold VertexAI._init. rewrite H. reflexivity. Qed.

Lemma init_when_fresh (w : VertexAI.world B) :
  VertexAI.initialized w = false ->
  VertexAI._init api G w =
  let c := VertexAI.Init (VertexAI.gcp_project_id G) (VertexAI.gcp_location G) in
  let '(b1, r) := api c (VertexAI.backend w) in
  match r with
  | inl e => ({| VertexAI.initialized := false;
                 VertexAI.backend := b1;
                 VertexAI.log := VertexAI.log w ++ [c] |}, inl e)
  | inr _ => ({| VertexAI.initialized := true;
                 VertexAI.backend := b1;
                 VertexAI.log := VertexAI.log w ++ [c] |}, inr tt)
  end.
Proof.
  intros H. unfold VertexAI._init, VertexAI.vbind, VertexAI.vdo,
    VertexAI.set_initialized. rewrite H. cbn zeta.
  destruct (api _ (VertexAI.backend w)) as [b1 [e | []]]; rewrite ?H; reflexivity.
Qed.

(** After [_init], the two model calls of either function. *)
Lemma model_calls_keep {A : Type} (c1 c2 : VertexAI.vcall)
    (f : VertexAI.vreply c2 -> VertexAI.M A) (w : VertexAI.world B) :
  VertexAI.is_init c1 = false -> VertexAI.is_init c2 = false ->
  (forall x w', f x w' = (w', snd (f x w'))) ->
  let w' := fst (VertexAI.vbind (VertexAI.vdo api c1)
                   (fun _ => VertexAI.vbind (VertexAI.vdo api c2) f) w) in
  VertexAI.initialized w' = VertexAI.initialized w /\
  VertexAI.inits w' = VertexAI.inits w.
Proof.
  intros H1 H2 Hf w'. unfold w', VertexAI.vbind.
  destruct (vdo_keeps c1 w H1) as [Hi1 Hn1].
  destruct (VertexAI.vdo api c1 w) as [w1 [e | x1]]; cbn [fst] in *; [auto|].
  destruct (vdo_keeps c2 w1 H2) as [Hi2 Hn2].
  destruct (VertexAI.vdo api c2 w1) as [w2 [e | x2]]; cbn [fst] in *;
    [split; congruence|].
  rewrite Hf. cbn [fst]. split; congruence.
Qed.

Lemma get_embedding_after_init (t : string) (w w1 : VertexAI.world B) :
  VertexAI._init api G w = (w1, inr tt) ->
  VertexAI.initialized (fst (VertexAI.get_embedding api G t w))
    = VertexAI.initialized w1 /\
  VertexAI.inits (fst (VertexAI.get_embedding api G t w)) = VertexAI.inits w1.
Proof.
  intros Hi.
  assert (E : VertexAI.get_embedding api G t w
              = VertexAI.vbind
                  (VertexAI.vdo api (VertexAI.EmbeddingModel "text-embedding-004"))
                  (fun _ =>
                     VertexAI.vbind
                       (VertexAI.vdo api
                          (VertexAI.GetEmbeddings "text-embedding-004" [t]))
                       (fun embs =>
                          match embs with
                          | v :: _ => VertexAI.vret v
                          | [] => VertexAI.vraise
                                    (IndexError "list index out of range")
                          end)) w1).
  { unfold VertexAI.get_embedding. unfold VertexAI.vbind at 1.
    rewrite Hi. reflexivity. }
  rewrite E.
  refine (model_calls_keep (VertexAI.EmbeddingModel "text-embedding-004")
            (VertexAI.GetEmbeddings "text-embedding-004" [t]) _ w1
            eq_refl eq_refl _).
  intros [| v vs] w'; reflexivity.
Qed.

Lemma generate_text_after_init (p : string) (w w1 : VertexAI.world B) :
  VertexAI._init api G w = (w1, inr tt) ->
  VertexAI.initialized (fst (VertexAI.generate_text api G p w))
    = VertexAI.initialized w1 /\
  VertexAI.inits (fst (VertexAI.generate_text api G p w)) = VertexAI.inits w1.
Proof.
  intros Hi.
  assert (E : VertexAI.generate_text api G p w
              = VertexAI.vbind
                  (VertexAI.vdo api (VertexAI.GenerativeModel "gemini-2.0-flash-001"))
                  (fun _ =>
                     VertexAI.vbind
                       (VertexAI.vdo api
                          (VertexAI.GenerateContent "gemini-2.0-flash-001" p))
                       (fun t => VertexAI.vret (VertexAI.text_or_empty t))) w1).
  { unfold VertexAI.generate_text. unfold VertexAI.vbind at 1.
    rewrite Hi. reflexivity. }
  rewrite E.
  refine (model_calls_keep (VertexAI.GenerativeModel "gemini-2.0-flash-001")
            (VertexAI.GenerateContent "gemini-2.0-flash-001" p) _ w1
            eq_refl eq_refl _).
  intros x w'; reflexivity.
Qed.
End Backend.

(** X15.  Once [_initialized] is set, nothing in the module calls
    [vertexai.init] again: [_init] does nothing, and [get_embedding] and
    [generate_text] leave the flag set and the number of initialisations
    as it was, whether the model call succeeds or not. *)
Theorem initialised_backend_is_kept {B : Type} (api : VertexAI.sdk B)
    (G : VertexAI.GcpSettings) (w : VertexAI.world B) :
  VertexAI.initialized w = true ->
  VertexAI._init api G w = (w, inr tt) /\
  (forall t,
     VertexAI.initialized (fst (VertexAI.get_embedding api G t w)) = true /\
     VertexAI.inits (fst (VertexAI.get_embedding api G t w)) = VertexAI.inits w) /\
  (forall p,
     VertexAI.initialized (fst (VertexAI.generate_text api G p w)) = true /\
     VertexAI.inits (fst (VertexAI.generate_text api G p w)) = VertexAI.inits w).
Proof.
  intros H. pose proof (init_when_initialized api G w H) as Hi.
  split; [exact Hi|]. split.
  - intros t. destruct (get_embedding_after_init api G t w w Hi) as [H1 H2].
    rewrite H1, H2. auto.
  - intros p. destruct (generate_text_after_init api G p w w Hi) as [H1 H2].
    rewrite H1, H2. auto.
Qed.

Lemma initialised_backend_is_kept_witness :
  VertexAI.inits
    (fst (VertexAI.get_embedding VertexAI.steady VertexAI.gcp "where"
            (fst (VertexAI.get_embedding VertexAI.steady VertexAI.gcp "Alice"
                    VertexAI.fresh))))
  = 1%nat.
Proof.
  destruct (initialised_backend_is_kept VertexAI.steady VertexAI.gcp
              (fst (VertexAI.get_embedding VertexAI.steady VertexAI.gcp "Alice"
                      VertexAI.fresh)) eq_refl) as [_ [He _]].
  destruct (He "where"%string) as [_ Hn]. rewrite Hn. reflexivity.
Defined.

(** X16.  While [vertexai.init] fails, every function of the module
    raises the exception of the initialisation, asks no model, and leaves
    [_initialized] unset, so that the next call tries to initialise again. *)
Theorem failed_initialisation_is_raised {B : Type} (api : VertexAI.sdk B)
    (G : VertexAI.GcpSettings) (w : VertexAI.world B) (b1 : B) (e : exn) :
  VertexAI.initialized w = false ->
  api (VertexAI.Init (VertexAI.gcp_project_id G) (VertexAI.gcp_location G))
      (VertexAI.backend w) = (b1, inl e) ->
  let w1 := {| VertexAI.initialized := false;
               VertexAI.backend := b1;
               VertexAI.log :=
                 VertexAI.log w ++
                 [VertexAI.Init (VertexAI.gcp_project_id G)
                    (VertexAI.gcp_location G)] |} in
  VertexAI._init api G w = (w1, inl e) /\
  (forall t, VertexAI.get_embedding api G t w = (w1, inl e)) /\
  (forall p, VertexAI.generate_text api G p w = (w1, inl e)) /\
  VertexAI.vertex_test api G w = (w1, inl e).
Proof.
  intros H Hapi w1.
  assert (Hi : VertexAI._init api G w = (w1, inl e)).
  { rewrite (init_when_fresh api G w H). cbn zeta. rewrite Hapi. reflexivity. }
  split; [exact Hi|].
  unfold VertexAI.get_embedding, VertexAI.generate_text, VertexAI.vertex_test.
  repeat split; intros; unfold VertexAI.vbind at 1; rewrite Hi; reflexivity.
Qed.

Lemma failed_initialisation_is_raised_witness :
  VertexAI.get_embedding (VertexAI.refusing (ConnectionError "no credentials"))
    VertexAI.gcp "where" VertexAI.fresh
  = ({| VertexAI.initialized := false;
        VertexAI.backend := tt;
        VertexAI.log := [VertexAI.Init "memora-dev" "us-central1"] |},
     inl (ConnectionError "no credentials")).
Proof.
  destruct (failed_initialisation_is_raised
              (VertexAI.refusing (ConnectionError "no credentials"))
              VertexAI.gcp VertexAI.fresh tt (ConnectionError "no credentials")
              eq_refl eq_refl) as [_ [He _]].
  exact (He "where"%string).
Defined.

(** X17.  The first call that finds [vertexai.init] working sets
    [_initialized], after exactly one initialisation, also when the model
    call that follows fails. *)
Theorem first_use_initialises {B : Type} (api : VertexAI.sdk B)
    (G : VertexAI.GcpSettings) (w : VertexAI.world B) (b1 : B) :
  VertexAI.initialized w = false ->
  api (VertexAI.Init (VertexAI.gcp_project_id G) (VertexAI.gcp_location G))
      (VertexAI.backend w) = (b1, inr tt) ->
  (forall t,
     VertexAI.initialized (fst (VertexAI.get_embedding api G t w)) = true /\
     VertexAI.inits (fst (VertexAI.get_embedding api G t w))
       = Datatypes.S (VertexAI.inits w)) /\
  (forall p,
     VertexAI.initialized (fst (VertexAI.generate_text api G p w)) = true /\
     VertexAI.inits (fst (VertexAI.generate_text api G p w))
       = Datatypes.S (VertexAI.inits w)).
Proof.
  intros H Hapi.
  set (w1 := {| VertexAI.initialized := true;
                VertexAI.backend := b1;
                VertexAI.log :=
                  VertexAI.log w ++
                  [VertexAI.Init (VertexAI.gcp_project_id G)
                     (VertexAI.gcp_location G)] |}).
  assert (Hi : VertexAI._init api G w = (w1, inr tt)).
  { rewrite (init_when_fresh api G w H). cbn zeta. rewrite Hapi. reflexivity. }
  assert (Hn : VertexAI.inits w1 = Datatypes.S (VertexAI.inits w)).
  { unfold w1. rewrite inits_logged. cbn. lia. }
  split.
  - intros t. destruct (get_embedding_after_init api G t w w1 Hi) as [H1 H2].
    rewrite H1, H2. auto.
  - intros p. destruct (generate_text_after_init api G p w w1 Hi) as [H1 H2].
    rewrite H1, H2. auto.
Qed.

Lemma first_use_initialises_witness :
  VertexAI.initialized
    (fst (VertexAI.generate_text VertexAI.steady VertexAI.gcp "Hello"
            VertexAI.fresh)) = true /\
  VertexAI.inits
    (fst (VertexAI.generate_text VertexAI.steady VertexAI.gcp "Hello"
            VertexAI.fresh)) = 1%nat.
Proof.
  destruct (first_use_initialises VertexAI.steady VertexAI.gcp VertexAI.fresh tt
              eq_refl eq_refl) as [_ Hg].
  exact (Hg "Hello"%string).
Defined.

(** ** [main] on the model backend *)

Lemma final_do {St R : Type} (h : handler St) (c : call)
    (k : result (reply c) -> prog R) (s : St) :
  final h (Do c k) s = final h (k (snd (h c s))) (fst (h c s)).
Proof.
  unfold final. cbn [run]. destruct (h c s) as [s1 r]. cbn [fst snd].
  destruct (run h (k r) s1) as [[s2 t] o]. reflexivity.
Qed.

Section Wired.
Context {B E : Type}.
Variable api : VertexAI.sdk B.
Variable G : VertexAI.GcpSettings.
Variable es : handler E.

(** What one call of [main] does to the backend's world. *)
Lemma wired_world (c : call) (s : E * VertexAI.world B) :
  snd (fst (VertexAI.wired api G es c s)) =
  match c with
  | GetEmbedding t => fst (VertexAI.get_embedding api G t (snd s))
  | GenerateText p => fst (VertexAI.generate_text api G p (snd s))
  | _ => snd s
  end.
Proof.
  destruct c as [i | i b | i d f | i b | t | q]; cbn [VertexAI.wired].
  - destruct (es (IndicesExists i) (fst s)); reflexivity.
  - destruct (es (IndicesCreate i b) (fst s)); reflexivity.
  - destruct (es (Index i d f) (fst s)); reflexivity.
  - destruct (es (Search i b) (fst s)); reflexivity.
  - destruct (VertexAI.get_embedding api G t (snd s)); reflexivity.
  - destruct (VertexAI.generate_text api G q (snd s)); reflexivity.
Qed.

Lemma wired_step_kept (c : call) (s : E * VertexAI.world B) :
  VertexAI.initialized (snd s) = true ->
  VertexAI.initialized (snd (fst (VertexAI.wired api G es c s))) = true /\
  VertexAI.inits (snd (fst (VertexAI.wired api G es c s)))
    = VertexAI.inits (snd s).
Proof.
  intros H. rewrite wired_world.
  pose proof (init_when_initialized api G (snd s) H) as Hi.
  destruct c as [i | i b | i d f | i b | t | q]; auto.
  - destruct (get_embedding_after_init api G t (snd s) (snd s) Hi) as [H1 H2].
    rewrite H1, H2. auto.
  - destruct (generate_text_after_init api G q (snd s) (snd s) Hi)
      as [H1 H2].
    rewrite H1, H2. auto.
Qed.

Lemma wired_run_kept {R : Type} (p : prog R) (s : E * VertexAI.world B) :
  VertexAI.initialized (snd s) = true ->
  VertexAI.initialized (snd (final (VertexAI.wired api G es) p s)) = true /\
  VertexAI.inits (snd (final (VertexAI.wired api G es) p s))
    = VertexAI.inits (snd s).
Proof.
  revert s. induction p as [r | e | c k IH]; intros s H; [auto | auto |].
  rewrite final_do.
  destruct (wired_step_kept c s H) as [H1 H2].
  destruct (IH (snd (VertexAI.wired api G es c s))
               (fst (VertexAI.wired api G es c s)) H1) as [H3 H4].
  rewrite H3, H4, H2. auto.
Qed.

Hypothesis init_works :
  forall b,
    snd (api (VertexAI.Init (VertexAI.gcp_project_id G) (VertexAI.gcp_location G))
           b) = inr tt.

Lemma wired_step_once (c : call) (s : E * VertexAI.world B) :
  VertexAI.initialized (snd s) = false ->
  (VertexAI.initialized (snd (fst (VertexAI.wired api G es c s))) = false /\
   VertexAI.inits (snd (fst (VertexAI.wired api G es c s)))
     = VertexAI.inits (snd s)) \/
  (VertexAI.initialized (snd (fst (VertexAI.wired api G es c s))) = true /\
   VertexAI.inits (snd (fst (VertexAI.wired api G es c s)))
     = Datatypes.S (VertexAI.inits (snd s))).
Proof.
  intros H. rewrite wired_world.
  assert (Hi : exists w1,
             VertexAI._init api G (snd s) = (w1, inr tt) /\
             VertexAI.initialized w1 = true /\
             VertexAI.inits w1 = Datatypes.S (VertexAI.inits (snd s))).
  { rewrite (init_when_fresh api G (snd s) H). cbn zeta.
    pose proof (init_works (VertexAI.backend (snd s))) as Hw.
    destruct (api _ (VertexAI.backend (snd s))) as [b1 r]. cbn [snd] in Hw.
    subst r. eexists. split; [reflexivity|]. split; [reflexivity|].
    rewrite inits_logged. cbn. lia. }
  destruct Hi as [w1 [Hi [Hf Hn]]].
  destruct c as [i | i b | i d f | i b | t | q]; auto.
  - right.
    destruct (get_embedding_after_init api G t (snd s) w1 Hi) as [H1 H2].
    rewrite H1, H2. auto.
  - right.
    destruct (generate_text_after_init api G q (snd s) w1 Hi) as [H1 H2].
    rewrite H1, H2. auto.
Qed.

Lemma wired_run_once {R : Type} (p : prog R) (s : E * VertexAI.world B) :
  (VertexAI.inits (snd (final (VertexAI.wired api G es) p s))
   <= Datatypes.S (VertexAI.inits (snd s)))%nat.
Proof.
  revert s. induction p as [r | e | c k IH]; intros s;
    [cbn; lia | cbn; lia |].
  rewrite final_do.
  destruct (VertexAI.initialized (snd s)) eqn:H.
  - destruct (wired_step_kept c s H) as [H1 H2].
    destruct (wired_run_kept (k (snd (VertexAI.wired api G es c s)))
                (fst (VertexAI.wired api G es c s)) H1) as [_ H4].
    rewrite H4, H2. lia.
  - destruct (wired_step_once c s H) as [[H1 H2] | [H1 H2]].
    + specialize (IH (snd (VertexAI.wired api G es c s))
                     (fst (VertexAI.wired api G es c s))).
      rewrite H2 in IH. exact IH.
    + destruct (wired_run_kept (k (snd (VertexAI.wired api G es c s)))
                  (fst (VertexAI.wired api G es c s)) H1) as [_ H4].
      rewrite H4, H2. lia.
Qed.
End Wired.

(** X18.  With [get_embedding] and [generate_text] behind the calls of
    [main], a request handled after the backend has been initialised, be
    it [ask], [ingest] or any other sequence of calls, never initialises
    it again and leaves it initialised. *)
Theorem requests_keep_the_backend_initialised {B E R : Type}
    (api : VertexAI.sdk B) (G : VertexAI.GcpSettings) (es : handler E)
    (p : prog R) (s : E * VertexAI.world B) :
  VertexAI.initialized (snd s) = true ->
  VertexAI.initialized (snd (final (VertexAI.wired api G es) p s)) = true /\
  VertexAI.inits (snd (final (VertexAI.wired api G es) p s))
    = VertexAI.inits (snd s).
Proof. apply wired_run_kept. Qed.

(** X19.  When [vertexai.init] works, a whole request initialises the
    backend at most once, however many texts it embeds. *)
Theorem requests_initialise_at_most_once {B E R : Type}
    (api : VertexAI.sdk B) (G : VertexAI.GcpSettings) (es : handler E)
    (p : prog R) (s : E * VertexAI.world B) :
  (forall b,
     snd (api (VertexAI.Init (VertexAI.gcp_project_id G)
                 (VertexAI.gcp_location G)) b) = inr tt) ->
  (VertexAI.inits (snd (final (VertexAI.wired api G es) p s))
   <= Datatypes.S (VertexAI.inits (snd s)))%nat.
Proof. intros H. apply wired_run_once. exact H. Qed.

Lemma requests_keep_the_backend_initialised_witness :
  VertexAI.inits
    (snd (final (VertexAI.wired VertexAI.steady VertexAI.gcp Store.serve)
            (Main.ask Sample.settings (chars_per_token 4) (1 # 2) Sample.dot
               Sample.question)
            (Sample.seeded true,
             {| VertexAI.initialized := true;
                VertexAI.backend := tt;
                VertexAI.log := [VertexAI.Init "memora-dev" "us-central1"] |})))
  = 1%nat.
Proof.
  apply (requests_keep_the_backend_initialised VertexAI.steady VertexAI.gcp
           Store.serve
           (Main.ask Sample.settings (chars_per_token 4) (1 # 2) Sample.dot
              Sample.question)
           (Sample.seeded true,
            {| VertexAI.initialized := true;
               VertexAI.backend := tt;
               VertexAI.log := [VertexAI.Init "memora-dev" "us-central1"] |})).
  reflexivity.
Defined.

Lemma requests_initialise_at_most_once_witness :
  (VertexAI.inits
     (snd (final (VertexAI.wired VertexAI.steady VertexAI.gcp Store.serve)
             (Main.ask Sample.settings (chars_per_token 4) (1 # 2) Sample.dot
                Sample.question)
             (Sample.seeded true, VertexAI.fresh)))
   <= 1)%nat.
Proof.
  apply (requests_initialise_at_most_once VertexAI.steady VertexAI.gcp
           Store.serve
           (Main.ask Sample.settings (chars_per_token 4) (1 # 2) Sample.dot
              Sample.question)
           (Sample.seeded true, VertexAI.fresh)).
  intros b. reflexivity.
Defined.

(** ** Searching an empty store *)

Lemma docs_of_missing (n : string) (s : Store.state) :
  Store.has_index n s = false -> Store.docs_of n s = [].
Proof.
  intros H. apply has_index_collections in H.
  unfold Store.collections in H. unfold Store.docs_of.
  destruct (filter (Store.named n) (Store.indices s)); [reflexivity|].
  discriminate H.
Qed.

(** X20.  On the in-memory store, a search is not read-only: when the
    index does not exist yet, [hybrid_search] creates it, through
    [ensure_index], and then returns the empty list; the store ends with
    exactly one collection of that name, and no document in it. *)
Theorem search_creates_the_missing_index (S : Settings) (p qt : string)
    (qv : vector) (k : Z) (s : Store.state) :
  Store.has_index (elastic_index S) s = false ->
  let s' := final Store.serve (ElasticMemory.hybrid_search S p qt qv k) s in
  outcome Store.serve (ElasticMemory.hybrid_search S p qt qv k) s = inr [] /\
  s' = Store.create_index (elastic_index S) s /\
  Store.collections (elastic_index S) s' = 1%nat /\
  Store.docs_of (elastic_index S) s' = [] /\
  In (IndicesCreate (elastic_index S) (ElasticMemory.mapping S))
     (trace Store.serve (ElasticMemory.hybrid_search S p qt qv k) s).
Proof.
  intros Hno s'.
  assert (H0 : run Store.serve (ElasticMemory.ensure_index S) s
               = (Store.create_index (elastic_index S) s,
                  [IndicesExists (elastic_index S);
                   IndicesCreate (elastic_index S) (ElasticMemory.mapping S)],
                  inr tt))
    by (rewrite run_ensure_index_serve, Hno; reflexivity).
  assert (Hdocs : Store.docs_of (elastic_index S)
                    (Store.create_index (elastic_index S) s) = [])
    by (rewrite docs_of_create; apply docs_of_missing; exact Hno).
  assert (Hproj : Stored.of_project (elastic_index S) p
                    (Store.create_index (elastic_index S) s) = [])
    by (unfold Stored.of_project; rewrite Hdocs; reflexivity).
  destruct (hybrid_search_after_ensure S p qt qv k s _ _ H0
              (has_index_create _ _))
    as [body [t [Hb Hrun]]].
  { intros d Hd. rewrite Hdocs in Hd. destruct Hd. }
  { rewrite Hproj. cbn. lia. }
  rewrite Hproj in Hrun. cbn [map] in Hrun.
  unfold s', outcome, final, trace. rewrite Hrun. cbn [fst snd].
  split; [reflexivity|]. split; [reflexivity|]. split.
  - rewrite collections_create.
    apply has_index_collections in Hno. rewrite Hno. reflexivity.
  - split; [exact Hdocs|]. right. left. reflexivity.
Qed.

Lemma search_creates_the_missing_index_witness :
  outcome Store.serve
    (ElasticMemory.hybrid_search Sample.settings "u1" "where" [1 # 1] 8)
    (Store.empty false) = inr [] /\
  Store.collections "memora"
    (final Store.serve
       (ElasticMemory.hybrid_search Sample.settings "u1" "where" [1 # 1] 8)
       (Store.empty false)) = 1%nat.
Proof.
  destruct (search_creates_the_missing_index Sample.settings "u1" "where"
              [1 # 1] 8 (Store.empty false) eq_refl) as [H1 [_ [H2 _]]].
  split; [exact H1 | exact H2].
Defined.
